(** * Wand protocol engine: a shallow embedding of the controller (App),
      the opcode inputs (ControlPanel) and the sniffer (SnifferPanel).

    JavaScript numbers that the program only ever uses as integers are
    modelled in [Z]; [NaN] is kept apart.  The identifiers of log entries
    carry a fraction: they are doubles, given by their exact value in
    [Q], and their sum is rounded as the sum of doubles is.  Strings are sequences of UTF-16
    code units.  Stateful code runs in a small state-and-exception monad
    over a world that holds the React state, the refs and the part of the
    host (timers, GATT link, console) the code talks to; what the code
    does to the host and to its refs is also recorded, in order, in a
    trace.  The outcomes of the host's calls (the device chooser, the GATT
    operations, the clock, the random source) are inputs of the model.

    A handler runs from its call to its end before the next one starts:
    the interleavings that the awaits of the source allow are not
    modelled, and a state setter takes effect at once. *)

From Stdlib Require Import ZArith List Bool Lia String Ascii QArith.
From Equations Require Import Equations.
Import ListNotations.

#[local] Open Scope Z_scope.
#[local] Set Implicit Arguments.

(* ===================================================================== *)
(** ** JavaScript values *)
(* ===================================================================== *)

Module JS.

(** A string is its sequence of UTF-16 code units. *)
Definition jsstring := list Z.

(** An ASCII literal as a JavaScript string. *)
Definition lit (s : string) : jsstring :=
  map (fun a => Z.of_N (N_of_ascii a)) (list_ascii_of_string s).

(** The numbers the program stores in arrays: an integer, or NaN (what
    [parseInt] gives on text without digits). *)
Inductive number : Type :=
| Num (z : Z)
| NaN.

(** ToInt32: reduction modulo 2^32 into [-2^31, 2^31). *)
Definition toInt32 (z : Z) : Z :=
  let m := z mod 4294967296 in
  if 2147483648 <=? m then m - 4294967296 else m.

(** [x & y] and [x >> k] on integers: both operands go through ToInt32. *)
Definition bitand (x y : Z) : Z := Z.land (toInt32 x) (toInt32 y).
Definition sar (x k : Z) : Z := Z.shiftr (toInt32 x) (k mod 32).

(** ToUint8, the conversion [new Uint8Array(numbers)] applies to each
    element; NaN becomes 0. *)
Definition toUint8 (n : number) : Z :=
  match n with
  | Num z => z mod 256
  | NaN => 0
  end.

(** White space and line terminators, as [trim] and [parseInt] skip them. *)
Definition isWhiteSpace (c : Z) : bool :=
  ((9 <=? c) && (c <=? 13)) || (c =? 32) || (c =? 160) || (c =? 5760)
  || ((8192 <=? c) && (c <=? 8202)) || (c =? 8232) || (c =? 8233)
  || (c =? 8239) || (c =? 8287) || (c =? 12288) || (c =? 65279).

Fixpoint trimStart (s : jsstring) : jsstring :=
  match s with
  | c :: r => if isWhiteSpace c then trimStart r else s
  | [] => []
  end.

Definition trimEnd (s : jsstring) : jsstring := rev (trimStart (rev s)).

Definition trim (s : jsstring) : jsstring := trimEnd (trimStart s).

(** [s.replace(/\u0000/g, '')]. *)
Definition removeNul (s : jsstring) : jsstring :=
  filter (fun c => negb (c =? 0)) s.

(** [s.substring(a, b)] for constant [a <= b], and [s.substring(a)]. *)
Definition substring (a b : nat) (s : jsstring) : jsstring :=
  firstn (b - a) (skipn a s).
Definition substringFrom (a : nat) (s : jsstring) : jsstring := skipn a s.

(** [s.startsWith(p)]. *)
Fixpoint startsWith (p s : jsstring) : bool :=
  match p, s with
  | [], _ => true
  | a :: p', b :: s' => (a =? b) && startsWith p' s'
  | _ :: _, [] => false
  end.

(** Value of a code unit as a digit in radix 16. *)
Definition hexDigitValue (c : Z) : option Z :=
  if (48 <=? c) && (c <=? 57) then Some (c - 48)
  else if (97 <=? c) && (c <=? 102) then Some (c - 87)
  else if (65 <=? c) && (c <=? 70) then Some (c - 55)
  else None.

(** The digits [parseInt] consumes: the longest prefix of radix-16 digits,
    accumulated most significant first.  [None] when there is no digit. *)
Fixpoint hexPrefix (acc : option Z) (s : jsstring) : option Z :=
  match s with
  | [] => acc
  | c :: r =>
      match hexDigitValue c with
      | Some d =>
          hexPrefix (Some (16 * match acc with Some a => a | None => 0 end + d)) r
      | None => acc
      end
  end.

(** [parseInt(s, 16)]: skip leading white space, read a sign, drop a
    [0x]/[0X] prefix, read digits.  The mathematical value is kept exact
    (the source rounds values beyond 2^53, which the callers reject or
    never produce); [-0] is [Num 0]. *)
Definition parseInt16 (s : jsstring) : number :=
  let s1 := trimStart s in
  let sign := if startsWith [45] s1 then -1 else 1 in
  let s2 :=
    if startsWith [45] s1 || startsWith [43] s1 then skipn 1 s1 else s1 in
  let s3 :=
    if startsWith [48; 120] s2 || startsWith [48; 88] s2 then skipn 2 s2
    else s2 in
  match hexPrefix None s3 with
  | Some v => Num (sign * v)
  | None => NaN
  end.

(** One radix-16 digit of [toString(16)] (lower case). *)
Definition hexDigitChar (d : Z) : Z :=
  if d <? 10 then 48 + d else 87 + d.

(** Digits of a non-negative integer in radix 16, most significant first. *)
Fixpoint hexDigits (fuel : nat) (n : Z) (acc : jsstring) : jsstring :=
  match fuel with
  | O => hexDigitChar (n mod 16) :: acc
  | S f =>
      if n <? 16 then hexDigitChar n :: acc
      else hexDigits f (n / 16) (hexDigitChar (n mod 16) :: acc)
  end.

(** [n.toString(16)] on an integer. *)
Definition intToString16 (z : Z) : jsstring :=
  if z <? 0 then 45 :: hexDigits (Z.to_nat (Z.log2 (- z))) (- z) []
  else hexDigits (Z.to_nat (Z.log2 z)) z [].

Definition toString16 (n : number) : jsstring :=
  match n with
  | Num z => intToString16 z
  | NaN => lit "NaN"
  end.

(** [s.padStart(n, '0')]. *)
Definition padStart0 (n : nat) (s : jsstring) : jsstring :=
  repeat 48 (n - List.length s) ++ s.

(** [parts.join(sep)]. *)
Fixpoint join (sep : jsstring) (parts : list jsstring) : jsstring :=
  match parts with
  | [] => []
  | [p] => p
  | p :: rest => p ++ sep ++ join sep rest
  end.

(** ASCII case mapping of [toUpperCase] / [toLowerCase]. *)
Definition asciiUpper (c : Z) : Z :=
  if (97 <=? c) && (c <=? 122) then c - 32 else c.

(** *** UTF-8 decoding, as [new TextDecoder().decode(bytes)] does it

    The decoder of the Encoding standard in its default, non-fatal mode: a
    malformed sequence yields U+FFFD and decoding goes on; nothing is
    raised.  A leading byte order mark is dropped (ignoreBOM is off). *)

Record Utf8State : Type := {
  codePoint : Z;
  bytesNeeded : Z;
  bytesSeen : Z;
  lowerBoundary : Z;
  upperBoundary : Z
}.

Definition utf8Init : Utf8State :=
  {| codePoint := 0; bytesNeeded := 0; bytesSeen := 0;
     lowerBoundary := 128; upperBoundary := 191 |}.

(** A byte read while no sequence is open. *)
Definition utf8Lead (b : Z) : Utf8State * list Z :=
  if b <=? 127 then (utf8Init, [b])
  else if (194 <=? b) && (b <=? 223) then
    ({| codePoint := Z.land b 31; bytesNeeded := 1; bytesSeen := 0;
        lowerBoundary := 128; upperBoundary := 191 |}, [])
  else if (224 <=? b) && (b <=? 239) then
    ({| codePoint := Z.land b 15; bytesNeeded := 2; bytesSeen := 0;
        lowerBoundary := if b =? 224 then 160 else 128;
        upperBoundary := if b =? 237 then 159 else 191 |}, [])
  else if (240 <=? b) && (b <=? 244) then
    ({| codePoint := Z.land b 7; bytesNeeded := 3; bytesSeen := 0;
        lowerBoundary := if b =? 240 then 144 else 128;
        upperBoundary := if b =? 244 then 143 else 191 |}, [])
  else (utf8Init, [65533]).

(** One byte of input: the new state and the code points emitted.  A byte
    that breaks an open sequence emits U+FFFD and is then read again as a
    lead byte. *)
Definition utf8Step (st : Utf8State) (b : Z) : Utf8State * list Z :=
  if bytesNeeded st =? 0 then utf8Lead b
  else if negb ((lowerBoundary st <=? b) && (b <=? upperBoundary st)) then
    let '(st', out) := utf8Lead b in (st', 65533 :: out)
  else
    let cp := Z.lor (Z.shiftl (codePoint st) 6) (Z.land b 63) in
    if bytesSeen st + 1 =? bytesNeeded st then (utf8Init, [cp])
    else ({| codePoint := cp; bytesNeeded := bytesNeeded st;
             bytesSeen := bytesSeen st + 1;
             lowerBoundary := 128; upperBoundary := 191 |}, []).

Fixpoint utf8Run (st : Utf8State) (bytes : list Z) : list Z :=
  match bytes with
  | [] => if bytesNeeded st =? 0 then [] else [65533]
  | b :: r => let '(st', out) := utf8Step st b in out ++ utf8Run st' r
  end.

Definition stripBOM (cps : list Z) : list Z :=
  match cps with
  | 65279 :: r => r
  | _ => cps
  end.

(** A code point as UTF-16 code units. *)
Definition utf16 (cp : Z) : jsstring :=
  if cp <? 65536 then [cp]
  else [55296 + Z.shiftr (cp - 65536) 10; 56320 + Z.land (cp - 65536) 1023].

Definition TextDecoder_decode (bytes : list Z) : jsstring :=
  flat_map utf16 (stripBOM (utf8Run utf8Init bytes)).

(** The code points of a string: a high surrogate followed by a low one is
    one code point, any other code unit stands for itself. *)
Fixpoint codePoints (s : jsstring) : list Z :=
  match s with
  | [] => []
  | hi :: r =>
      match r with
      | lo :: r' =>
          if (55296 <=? hi) && (hi <=? 56319) && (56320 <=? lo) && (lo <=? 57343)
          then (65536 + (hi - 55296) * 1024 + (lo - 56320)) :: codePoints r'
          else hi :: codePoints r
      | [] => [hi]
      end
  end.

Section CaseMapping.

(** The Unicode upper-case mapping of a code point outside ASCII (one
    code point may map to several); a table of the host. *)
Variable unicodeUpper : Z -> list Z.

Definition upperCodePoint (cp : Z) : list Z :=
  if cp <? 128 then [asciiUpper cp] else unicodeUpper cp.

(** [s.toUpperCase()]: each code point is mapped on its own. *)
Definition toUpperCase (s : jsstring) : jsstring :=
  flat_map utf16 (flat_map upperCodePoint (codePoints s)).

End CaseMapping.

(** *** Numbers with a fraction

    A JavaScript number is a double.  The sum of two numbers is the
    double nearest to the exact sum, ties going to the even significand.
    Doubles are given here by their exact value in [Q]; the exponent
    range is left unbounded, which changes nothing for the sums of a
    clock reading and a fraction (they neither overflow, nor are they
    rounded when they are subnormal). *)

(** [(n / d) / 2 ^ e] as a fraction. *)
Definition scale2 (e n d : Z) : Z * Z :=
  if 0 <=? e then (n, d * 2 ^ e) else (n * 2 ^ (- e), d).

(** The exponent of the binade of [n / d], for positive [n] and [d]. *)
Definition floorLog2 (n d : Z) : Z :=
  let e := Z.log2 n - Z.log2 d in
  let '(a, b) := scale2 e n d in
  if a <? b then e - 1 else e.

(** [n / d] rounded to the nearest integer, ties to even. *)
Definition roundHalfEven (n d : Z) : Z :=
  let q := n / d in
  let r := n mod d in
  if 2 * r <? d then q
  else if d <? 2 * r then q + 1
  else if Z.even q then q else q + 1.

(** The double nearest to [n / d], for positive [n] and [d]: 53 bits of
    significand. *)
Definition roundPositive (n d : Z) : Q :=
  let e := floorLog2 n d - 52 in
  let '(a, b) := scale2 e n d in
  let m := roundHalfEven a b in
  if 0 <=? e then inject_Z (m * 2 ^ e) else Qmake m (Z.to_pos (2 ^ (- e))).

Definition roundDouble (x : Q) : Q :=
  match Qnum x with
  | 0 => inject_Z 0
  | Zpos n => roundPositive (Zpos n) (Zpos (Qden x))
  | Zneg n => Qopp (roundPositive (Zpos n) (Zpos (Qden x)))
  end.

(** [a + b] on numbers. *)
Definition numberAdd (a b : Q) : Q := roundDouble (a + b)%Q.

(** What a rejected promise or a [throw] carries. *)
Record JsError : Type := {
  errName : jsstring;
  errMessage : jsstring
}.

End JS.

(* ===================================================================== *)
(** ** types.ts *)
(* ===================================================================== *)

Module Types.
Import JS.

Inductive ConnectionStatus : Type :=
| DISCONNECTED
| CONNECTING
| CONNECTED
| ERROR.

Inductive LogType : Type :=
| INFO
| SPELL
| RAW
| COMMAND
| LOG_ERROR.

(** [id] is the number [Date.now() + Math.random()], a double, given by
    its exact value. *)
Record LogEntry : Type := {
  id : Q;
  type : LogType;
  message : jsstring;
  timestamp : jsstring;
  data : option jsstring
}.

Inductive CommandType : Type :=
| CLEAR_LEDS
| BUZZ
| CHANGE_LED.

(** [MacroCommand = ClearLedsCommand | BuzzCommand | ChangeLedCommand];
    the first field is the [id] of [BaseCommand], the constructor is the
    [type] tag. *)
Inductive MacroCommand : Type :=
| ClearLedsCommand (cmdId : jsstring)
| BuzzCommand (cmdId : jsstring) (duration : Z)
| ChangeLedCommand (cmdId : jsstring) (groupId : Z) (hexColor : jsstring)
    (duration : Z).

Definition commandType (cmd : MacroCommand) : CommandType :=
  match cmd with
  | ClearLedsCommand _ => CLEAR_LEDS
  | BuzzCommand _ _ => BUZZ
  | ChangeLedCommand _ _ _ _ => CHANGE_LED
  end.

End Types.

(* ===================================================================== *)
(** ** Effects: state, exceptions, and what a rejected promise does *)
(* ===================================================================== *)

Module Eff.
Import JS.

(** The outcome of a call that may throw, or of an awaited promise. *)
Inductive Result (A : Type) : Type :=
| Ok (a : A)
| Throw (e : JsError).
Arguments Ok {A} a.
Arguments Throw {A} e.

(** A computation over a world [W].  The world it leaves behind is kept
    also when it throws: what was done before the exception stays done. *)
Definition M (W A : Type) : Type := W -> Result A * W.

Section Ops.
Context {W : Type}.

Definition ret {A} (a : A) : M W A := fun w => (Ok a, w).

Definition bind {A B} (c : M W A) (k : A -> M W B) : M W B :=
  fun w =>
    match c w with
    | (Ok a, w') => k a w'
    | (Throw e, w') => (Throw e, w')
    end.

Definition throw {A} (e : JsError) : M W A := fun w => (Throw e, w).

(** [try { c } catch (e) { h e }]. *)
Definition tryCatch {A} (c : M W A) (h : JsError -> M W A) : M W A :=
  fun w =>
    match c w with
    | (Ok a, w') => (Ok a, w')
    | (Throw e, w') => h e w'
    end.

Definition get : M W W := fun w => (Ok w, w).
Definition modify (f : W -> W) : M W unit := fun w => (Ok tt, f w).

(** Awaiting a promise that settles with the given outcome. *)
Definition await {A} (r : Result A) : M W A := fun w => (r, w).

(** Awaiting a promise without a value: [None] resolves. *)
Definition awaitUnit (r : option JsError) : M W unit :=
  fun w => (match r with None => Ok tt | Some e => Throw e end, w).

Definition when (b : bool) (c : M W unit) : M W unit :=
  if b then c else ret tt.

(** [c] run [n] times in a row, as when a button is pressed [n] times. *)
Fixpoint repeatM (n : nat) (c : M W unit) : M W unit :=
  match n with
  | O => ret tt
  | S k => bind c (fun _ => repeatM k c)
  end.

(** The world a computation leaves, and whether it ended normally. *)
Definition exec {A} (c : M W A) (w : W) : W := snd (c w).
Definition returns {A} (c : M W A) (w : W) : bool :=
  match fst (c w) with Ok _ => true | Throw _ => false end.

End Ops.

Declare Scope eff_scope.
Delimit Scope eff_scope with eff.
Notation "x <- c ;; k" := (bind c (fun x => k))
  (at level 61, c at next level, right associativity) : eff_scope.
Notation "c ;; k" := (bind c (fun _ => k))
  (at level 61, right associativity) : eff_scope.

End Eff.

(* ===================================================================== *)
(** ** The Web Bluetooth objects the program is handed *)
(* ===================================================================== *)

Module Ble.
Import JS Eff.

(** A characteristic with the outcomes of the calls made on it.  The
    outcome of a write may depend on how many writes the program has
    issued so far and on the bytes written. *)
Record Characteristic : Type := {
  uuid : jsstring;
  notify : bool;
  indicate : bool;
  startNotifications : option JsError;
  stopNotifications : option JsError;
  writeValueWithoutResponse : nat -> list Z -> option JsError
}.

Record Service : Type := {
  getCharacteristic : jsstring -> Result Characteristic;
  getCharacteristics : Result (list Characteristic)
}.

(** A device as the chooser returns it.  [connected] is [gatt.connected];
    [listening] tells whether the program's handler is registered for
    [gattserverdisconnected]. *)
Record Device : Type := {
  name : jsstring;
  hasGatt : bool;
  gattConnect : option JsError;
  getPrimaryService : jsstring -> Result Service;
  getPrimaryServices : Result (list Service);
  connected : bool;
  listening : bool
}.

Definition setConnected (b : bool) (d : Device) : Device :=
  {| name := name d; hasGatt := hasGatt d; gattConnect := gattConnect d;
     getPrimaryService := getPrimaryService d;
     getPrimaryServices := getPrimaryServices d;
     connected := b; listening := listening d |}.

Definition setListening (b : bool) (d : Device) : Device :=
  {| name := name d; hasGatt := hasGatt d; gattConnect := gattConnect d;
     getPrimaryService := getPrimaryService d;
     getPrimaryServices := getPrimaryServices d;
     connected := connected d; listening := b |}.

(** Host facilities both panels read: the clock (milliseconds), the
    random source (each draw a double, by its exact value), the locale's
    time format, the Unicode case table, the text decoder, and whether
    [navigator.bluetooth] exists. *)
Record Host : Type := {
  bluetooth : bool;
  dateNow : nat -> Z;
  mathRandom : nat -> Q;
  toLocaleTimeString : Z -> jsstring;
  unicodeUpper : Z -> list Z;
  textDecoder : list Z -> Result jsstring
}.

(** The decoder every browser ships: it never throws. *)
Definition standardTextDecoder (bytes : list Z) : Result jsstring :=
  Ok (TextDecoder_decode bytes).

Definition withStandardDecoder (h : Host) : Host :=
  {| bluetooth := bluetooth h; dateNow := dateNow h;
     mathRandom := mathRandom h; toLocaleTimeString := toLocaleTimeString h;
     unicodeUpper := unicodeUpper h; textDecoder := standardTextDecoder |}.

End Ble.

(* ===================================================================== *)
(** ** App: the controller *)
(* ===================================================================== *)

Module App.
Import JS Types Eff Ble.
#[local] Open Scope eff_scope.

(** *** The [WandGatt] constants *)

Definition TARGET_NAME : jsstring := lit "MCW".
Definition WRITE_UUID : jsstring := lit "57420002-587e-48a0-974c-544d6163c577".
Definition NOTIFY_UUID : jsstring := lit "57420003-587e-48a0-974c-544d6163c577".
Definition KEEPALIVE_INTERVAL : Z := 5000.
Definition KEEPALIVE_COMMAND : list Z := [1].
Definition SPELL_DATA_HEADER_LEN : nat := 4.
Definition SPELL_MIN_LEN : nat := 7.
Definition MTU_PAYLOAD_SIZE : nat := 20.

(** [opCodes]: one number per command type. *)
Record OpCodes : Type := {
  ClearLeds : Z;
  Buzz : Z;
  ChangeLed : Z
}.

Definition defaultOpCodes : OpCodes :=
  {| ClearLeds := 170; Buzz := 187; ChangeLed := 204 |}.

(** What the program does to the host and to its own refs and status, in
    the order it does it. *)
Inductive Event : Type :=
| EvSetInterval (timer ms : Z)
| EvClearInterval (timer : Z)
| EvSetTimeout (timer ms : Z)
| EvDelay (ms : Z)
| EvRequestDevice
| EvAddDeviceListener
| EvRemoveDeviceListener
| EvGattConnect
| EvGattDisconnect
| EvGetPrimaryService (service : jsstring)
| EvGetCharacteristic (char : jsstring)
| EvStartNotifications (char : jsstring)
| EvStopNotifications (char : jsstring)
| EvAddNotifyListener (char : jsstring)
| EvWrite (bytes : list Z) (ok : bool)
| EvConsoleError
| EvSetDeviceRef (bound : bool)
| EvSetWriteCharRef (bound : bool)
| EvSetStatus (s : ConnectionStatus).

(** The React state, the three refs, and the host's side: the timers
    that are armed, the counters of clock readings, random draws and
    writes, and the trace of events. *)
Record World : Type := mkWorld {
  connectionStatus : ConnectionStatus;
  logs : list LogEntry;
  opCodes : OpCodes;
  macroCommands : list MacroCommand;
  isOpCodeTestMode : bool;
  opcodeToTest : Z;
  deviceRef : option Device;
  writeCharRef : option Characteristic;
  keepAliveIntervalRef : option Z;
  intervals : list Z;
  timeouts : list Z;
  nextTimer : Z;
  clockReads : nat;
  randomDraws : nat;
  writeCount : nat;
  trace : list Event
}.

(** The state of a freshly mounted component. *)
Definition initialWorld : World :=
  mkWorld DISCONNECTED [] defaultOpCodes [] false 1 None None None
    [] [] 1 0%nat 0%nat 0%nat [].

Definition with_connectionStatus (v : ConnectionStatus) (w : World) : World :=
  mkWorld v (logs w) (opCodes w) (macroCommands w) (isOpCodeTestMode w)
    (opcodeToTest w) (deviceRef w) (writeCharRef w) (keepAliveIntervalRef w)
    (intervals w) (timeouts w) (nextTimer w) (clockReads w) (randomDraws w)
    (writeCount w) (trace w).
Definition with_logs (v : list LogEntry) (w : World) : World :=
  mkWorld (connectionStatus w) v (opCodes w) (macroCommands w)
    (isOpCodeTestMode w) (opcodeToTest w) (deviceRef w) (writeCharRef w)
    (keepAliveIntervalRef w) (intervals w) (timeouts w) (nextTimer w)
    (clockReads w) (randomDraws w) (writeCount w) (trace w).
Definition with_opCodes (v : OpCodes) (w : World) : World :=
  mkWorld (connectionStatus w) (logs w) v (macroCommands w)
    (isOpCodeTestMode w) (opcodeToTest w) (deviceRef w) (writeCharRef w)
    (keepAliveIntervalRef w) (intervals w) (timeouts w) (nextTimer w)
    (clockReads w) (randomDraws w) (writeCount w) (trace w).
Definition with_macroCommands (v : list MacroCommand) (w : World) : World :=
  mkWorld (connectionStatus w) (logs w) (opCodes w) v (isOpCodeTestMode w)
    (opcodeToTest w) (deviceRef w) (writeCharRef w) (keepAliveIntervalRef w)
    (intervals w) (timeouts w) (nextTimer w) (clockReads w) (randomDraws w)
    (writeCount w) (trace w).
Definition with_isOpCodeTestMode (v : bool) (w : World) : World :=
  mkWorld (connectionStatus w) (logs w) (opCodes w) (macroCommands w) v
    (opcodeToTest w) (deviceRef w) (writeCharRef w) (keepAliveIntervalRef w)
    (intervals w) (timeouts w) (nextTimer w) (clockReads w) (randomDraws w)
    (writeCount w) (trace w).
Definition with_opcodeToTest (v : Z) (w : World) : World :=
  mkWorld (connectionStatus w) (logs w) (opCodes w) (macroCommands w)
    (isOpCodeTestMode w) v (deviceRef w) (writeCharRef w)
    (keepAliveIntervalRef w) (intervals w) (timeouts w) (nextTimer w)
    (clockReads w) (randomDraws w) (writeCount w) (trace w).
Definition with_deviceRef (v : option Device) (w : World) : World :=
  mkWorld (connectionStatus w) (logs w) (opCodes w) (macroCommands w)
    (isOpCodeTestMode w) (opcodeToTest w) v (writeCharRef w)
    (keepAliveIntervalRef w) (intervals w) (timeouts w) (nextTimer w)
    (clockReads w) (randomDraws w) (writeCount w) (trace w).
Definition with_writeCharRef (v : option Characteristic) (w : World) : World :=
  mkWorld (connectionStatus w) (logs w) (opCodes w) (macroCommands w)
    (isOpCodeTestMode w) (opcodeToTest w) (deviceRef w) v
    (keepAliveIntervalRef w) (intervals w) (timeouts w) (nextTimer w)
    (clockReads w) (randomDraws w) (writeCount w) (trace w).
Definition with_keepAliveIntervalRef (v : option Z) (w : World) : World :=
  mkWorld (connectionStatus w) (logs w) (opCodes w) (macroCommands w)
    (isOpCodeTestMode w) (opcodeToTest w) (deviceRef w) (writeCharRef w) v
    (intervals w) (timeouts w) (nextTimer w) (clockReads w) (randomDraws w)
    (writeCount w) (trace w).
Definition with_intervals (v : list Z) (w : World) : World :=
  mkWorld (connectionStatus w) (logs w) (opCodes w) (macroCommands w)
    (isOpCodeTestMode w) (opcodeToTest w) (deviceRef w) (writeCharRef w)
    (keepAliveIntervalRef w) v (timeouts w) (nextTimer w) (clockReads w)
    (randomDraws w) (writeCount w) (trace w).
Definition with_timeouts (v : list Z) (w : World) : World :=
  mkWorld (connectionStatus w) (logs w) (opCodes w) (macroCommands w)
    (isOpCodeTestMode w) (opcodeToTest w) (deviceRef w) (writeCharRef w)
    (keepAliveIntervalRef w) (intervals w) v (nextTimer w) (clockReads w)
    (randomDraws w) (writeCount w) (trace w).
Definition with_nextTimer (v : Z) (w : World) : World :=
  mkWorld (connectionStatus w) (logs w) (opCodes w) (macroCommands w)
    (isOpCodeTestMode w) (opcodeToTest w) (deviceRef w) (writeCharRef w)
    (keepAliveIntervalRef w) (intervals w) (timeouts w) v (clockReads w)
    (randomDraws w) (writeCount w) (trace w).
Definition with_clockReads (v : nat) (w : World) : World :=
  mkWorld (connectionStatus w) (logs w) (opCodes w) (macroCommands w)
    (isOpCodeTestMode w) (opcodeToTest w) (deviceRef w) (writeCharRef w)
    (keepAliveIntervalRef w) (intervals w) (timeouts w) (nextTimer w) v
    (randomDraws w) (writeCount w) (trace w).
Definition with_randomDraws (v : nat) (w : World) : World :=
  mkWorld (connectionStatus w) (logs w) (opCodes w) (macroCommands w)
    (isOpCodeTestMode w) (opcodeToTest w) (deviceRef w) (writeCharRef w)
    (keepAliveIntervalRef w) (intervals w) (timeouts w) (nextTimer w)
    (clockReads w) v (writeCount w) (trace w).
Definition with_writeCount (v : nat) (w : World) : World :=
  mkWorld (connectionStatus w) (logs w) (opCodes w) (macroCommands w)
    (isOpCodeTestMode w) (opcodeToTest w) (deviceRef w) (writeCharRef w)
    (keepAliveIntervalRef w) (intervals w) (timeouts w) (nextTimer w)
    (clockReads w) (randomDraws w) v (trace w).
Definition with_trace (v : list Event) (w : World) : World :=
  mkWorld (connectionStatus w) (logs w) (opCodes w) (macroCommands w)
    (isOpCodeTestMode w) (opcodeToTest w) (deviceRef w) (writeCharRef w)
    (keepAliveIntervalRef w) (intervals w) (timeouts w) (nextTimer w)
    (clockReads w) (randomDraws w) (writeCount w) v.

Definition emit (e : Event) : M World unit :=
  modify (fun w => with_trace (trace w ++ [e]) w).

Definition setConnectionStatus (s : ConnectionStatus) : M World unit :=
  emit (EvSetStatus s) ;; modify (with_connectionStatus s).

Section WithHost.

Variable host : Host.

(** [addLog]: the entry goes to the end of the log, nothing is dropped.
    The clock is read for the id and again for the time stamp; the id is
    the number [Date.now() + Math.random()], a double. *)
Definition addLog (ty : LogType) (msg : jsstring) (dat : option jsstring)
  : M World unit :=
  modify (fun w =>
    let entry :=
      {| id := numberAdd (inject_Z (dateNow host (clockReads w)))
                 (mathRandom host (randomDraws w));
         type := ty;
         message := msg;
         timestamp := toLocaleTimeString host
                        (dateNow host (S (clockReads w)));
         data := dat |} in
    with_logs (logs w ++ [entry])
      (with_clockReads (S (S (clockReads w)))
        (with_randomDraws (S (randomDraws w)) w))).

(** [Array.from(data).map(b => b.toString(16).padStart(2, '0'))]. *)
Definition hexBytes (bytes : list number) : list jsstring :=
  map (fun b => padStart0 2 (toString16 b)) bytes.

(** The sparkles of the spell message, U+2728. *)
Definition spellPrefix : jsstring := 10024 :: lit " Spell Detected: ".

(** [handleNotifications]: [value] is the characteristic's value when
    the event arrives, [None] when there is none. *)
Definition handleNotifications (value : option (list Z)) : M World unit :=
  match value with
  | None => ret tt
  | Some data =>
      let rawHex := join [] (hexBytes (map Num data)) in
      done <-
        (if (SPELL_MIN_LEN <=? List.length data)%nat then
           let spellBytes := skipn SPELL_DATA_HEADER_LEN data in
           tryCatch
             (decoded <- await (textDecoder host spellBytes) ;;
              let spellName := removeNul (trim decoded) in
              match spellName with
              | _ :: _ =>
                  addLog SPELL
                    (spellPrefix ++ toUpperCase (unicodeUpper host) spellName)
                    (Some (lit "RAW: " ++ rawHex)) ;;
                  ret true
              | [] => ret false
              end)
             (fun _ => ret false)
         else ret false) ;;
      if done then ret tt
      else addLog RAW (lit "Raw Wand Data") (Some rawHex)
  end.

(** *** Timers of the host *)

(** [setInterval(callback, ms)] arms a timer and returns its id. *)
Definition setInterval (ms : Z) : M World Z :=
  w <- get ;;
  let timer := nextTimer w in
  modify (fun w => with_intervals (intervals w ++ [timer])
                     (with_nextTimer (timer + 1) w)) ;;
  emit (EvSetInterval timer ms) ;;
  ret timer.

Definition clearInterval (timer : Z) : M World unit :=
  modify (fun w =>
    with_intervals (filter (fun t => negb (t =? timer)) (intervals w)) w) ;;
  emit (EvClearInterval timer).

(** [setTimeout(() => setConnectionStatus(DISCONNECTED), ms)], the one
    callback the controller ever schedules. *)
Definition setTimeout (ms : Z) : M World unit :=
  w <- get ;;
  let timer := nextTimer w in
  modify (fun w => with_timeouts (timeouts w ++ [timer])
                     (with_nextTimer (timer + 1) w)) ;;
  emit (EvSetTimeout timer ms).

(** [await new Promise(resolve => setTimeout(resolve, ms))]. *)
Definition delay (ms : Z) : M World unit := emit (EvDelay ms).

(** A ref that holds a timer id is truthy unless the id is 0. *)
Definition truthyTimer (r : option Z) : option Z :=
  match r with
  | Some timer => if timer =? 0 then None else Some timer
  | None => None
  end.

(** *** Keep-alive and teardown *)

Definition stopKeepAlive : M World unit :=
  w <- get ;;
  match truthyTimer (keepAliveIntervalRef w) with
  | Some timer =>
      clearInterval timer ;;
      modify (with_keepAliveIntervalRef None)
  | None => ret tt
  end.

(** [characteristic.writeValueWithoutResponse(bytes)], awaited. *)
Definition write (c : Characteristic) (bytes : list Z) : M World unit :=
  w <- get ;;
  let outcome := writeValueWithoutResponse c (writeCount w) bytes in
  modify (fun w => with_writeCount (S (writeCount w)) w) ;;
  emit (EvWrite bytes (match outcome with None => true | Some _ => false end)) ;;
  awaitUnit outcome.

Definition disconnect : M World unit :=
  stopKeepAlive ;;
  w <- get ;;
  match deviceRef w with
  | Some d =>
      emit EvRemoveDeviceListener ;;
      modify (with_deviceRef (Some (setListening false d))) ;;
      when (hasGatt d && connected d)
        (emit EvGattDisconnect ;;
         modify (with_deviceRef
                   (Some (setConnected false (setListening false d)))))
  | None => ret tt
  end ;;
  emit (EvSetDeviceRef false) ;;
  modify (with_deviceRef None) ;;
  emit (EvSetWriteCharRef false) ;;
  modify (with_writeCharRef None) ;;
  setConnectionStatus DISCONNECTED ;;
  addLog INFO (lit "Wand disconnected.") None.

(** The callback [startKeepAlive] hands to [setInterval]. *)
Definition keepAliveCallback : M World unit :=
  w <- get ;;
  match writeCharRef w with
  | Some c =>
      tryCatch (write c KEEPALIVE_COMMAND)
        (fun _ => emit EvConsoleError ;; disconnect)
  | None => ret tt
  end.

Definition startKeepAlive : M World unit :=
  w <- get ;;
  match truthyTimer (keepAliveIntervalRef w) with
  | Some timer => clearInterval timer
  | None => ret tt
  end ;;
  timer <- setInterval KEEPALIVE_INTERVAL ;;
  modify (with_keepAliveIntervalRef (Some timer)).

(** *** What the host may do between two calls of the program *)

(** The interval timer [timer] comes due: its callback runs if the
    timer is still armed. *)
Definition intervalFires (timer : Z) : M World unit :=
  w <- get ;;
  if existsb (Z.eqb timer) (intervals w) then keepAliveCallback
  else ret tt.

(** The timeout [timer] comes due. *)
Definition timeoutFires (timer : Z) : M World unit :=
  w <- get ;;
  if existsb (Z.eqb timer) (timeouts w) then
    modify (fun w =>
      with_timeouts (filter (fun t => negb (t =? timer)) (timeouts w)) w) ;;
    setConnectionStatus DISCONNECTED
  else ret tt.

(** The link drops: [gattserverdisconnected] is dispatched on the device
    the program holds. *)
Definition gattServerDisconnected : M World unit :=
  w <- get ;;
  match deviceRef w with
  | Some d =>
      modify (with_deviceRef (Some (setConnected false d))) ;;
      when (listening d) disconnect
  | None => ret tt
  end.

(** *** Connecting *)

(** [s.split('-')[0]]. *)
Fixpoint firstSegment (s : jsstring) : jsstring :=
  match s with
  | [] => []
  | c :: r => if c =? 45 then [] else c :: firstSegment r
  end.

(** The body of the [try] block of [connect].  [chooser] is how
    [requestDevice] settles: with the device the user picked, or with a
    rejection (a [NotFoundError] when the user cancels). *)
Definition connectAttempt (chooser : Result Device) : M World unit :=
  setConnectionStatus CONNECTING ;;
  addLog INFO (lit "Scanning for wand " ++ [34] ++ TARGET_NAME
                 ++ [34] ++ lit "...") None ;;
  emit EvRequestDevice ;;
  device <- await chooser ;;
  (if hasGatt device then ret tt
   else throw {| errName := lit "Error";
                 errMessage := lit "GATT server not available." |}) ;;
  emit (EvSetDeviceRef true) ;;
  emit EvAddDeviceListener ;;
  modify (with_deviceRef (Some (setListening true device))) ;;
  addLog INFO (lit "Connecting to GATT server...") None ;;
  emit EvGattConnect ;;
  awaitUnit (gattConnect device) ;;
  modify (with_deviceRef
            (Some (setConnected true (setListening true device)))) ;;
  addLog INFO (lit "Getting Primary Service...") None ;;
  emit (EvGetPrimaryService (firstSegment WRITE_UUID)) ;;
  service <- await (getPrimaryService device (firstSegment WRITE_UUID)) ;;
  addLog INFO (lit "Getting Characteristics...") None ;;
  emit (EvGetCharacteristic WRITE_UUID) ;;
  writeChar <- await (getCharacteristic service WRITE_UUID) ;;
  emit (EvGetCharacteristic NOTIFY_UUID) ;;
  notifyChar <- await (getCharacteristic service NOTIFY_UUID) ;;
  emit (EvSetWriteCharRef true) ;;
  modify (with_writeCharRef (Some writeChar)) ;;
  addLog INFO (lit "Starting notifications...") None ;;
  emit (EvStartNotifications (uuid notifyChar)) ;;
  awaitUnit (startNotifications notifyChar) ;;
  emit (EvAddNotifyListener (uuid notifyChar)) ;;
  startKeepAlive ;;
  setConnectionStatus CONNECTED ;;
  addLog INFO (lit "Successfully connected to " ++ name device
                 ++ lit ". Wand is active!") None.

Definition connect (chooser : Result Device) : M World unit :=
  if negb (bluetooth host) then
    addLog LOG_ERROR
      (lit "Web Bluetooth API is not available on this browser.") None
  else
    tryCatch (connectAttempt chooser)
      (fun error =>
         addLog LOG_ERROR (lit "Connection failed: " ++ errMessage error)
           None ;;
         setConnectionStatus ERROR ;;
         setTimeout 3000).

(** *** Sending *)

Definition sendData (bytes : list Z) : M World unit :=
  w <- get ;;
  match writeCharRef w with
  | None =>
      addLog LOG_ERROR
        (lit "Cannot send data. Write characteristic not available.") None
  | Some c =>
      tryCatch (write c bytes)
        (fun error =>
           addLog LOG_ERROR (lit "Failed to send data: " ++ errMessage error)
             None)
  end.

(** One pass of the [switch] in [sendMacro]: what [push] adds for [cmd]. *)
Definition pushCommand (codes : OpCodes) (cmd : MacroCommand) : list number :=
  match cmd with
  | ClearLedsCommand _ => [Num (ClearLeds codes)]
  | BuzzCommand _ duration =>
      let durationBuzz := Z.min duration 32767 in
      [Num (Buzz codes);
       Num (bitand durationBuzz 255);
       Num (bitand (sar durationBuzz 8) 255)]
  | ChangeLedCommand _ groupId hexColor duration =>
      let r := parseInt16 (substring 0 2 hexColor) in
      let g := parseInt16 (substring 2 4 hexColor) in
      let b := parseInt16 (substring 4 6 hexColor) in
      let durationLed := Z.min duration 32767 in
      [Num (ChangeLed codes); Num groupId; r; g; b;
       Num (bitand durationLed 255);
       Num (bitand (sar durationLed 8) 255)]
  end.

(** The array [fullCommandBytes] after the loop over the macro. *)
Definition fullCommandBytes (codes : OpCodes) (macro : list MacroCommand)
  : list number :=
  fold_left (fun bytes cmd => bytes ++ pushCommand codes cmd) macro [].

(** The chunk loop of [sendMacro], from index [i] on. *)
Equations? sendChunks (bytes : list number) (i : nat) : M World unit
  by wf (List.length bytes - i)%nat lt :=
  sendChunks bytes i with lt_dec i (List.length bytes) => {
    | left _ :=
        let chunk :=
          map toUint8 (firstn MTU_PAYLOAD_SIZE (skipn i bytes)) in
        sendData chunk ;;
        delay 20 ;;
        sendChunks bytes (i + MTU_PAYLOAD_SIZE)%nat;
    | right _ := ret tt }.
Proof. unfold MTU_PAYLOAD_SIZE. lia. Qed.

Definition sendMacro : M World unit :=
  w <- get ;;
  match macroCommands w with
  | [] => ret tt
  | _ :: _ =>
      let bytes := fullCommandBytes (opCodes w) (macroCommands w) in
      addLog COMMAND (lit "Sending VFX Macro...")
        (Some (lit "Bytes: " ++ join (lit " ") (hexBytes bytes))) ;;
      sendChunks bytes 0
  end.

(** *** Opcode discovery *)

Definition testNextOpCode : M World unit :=
  w <- get ;;
  if 255 <? opcodeToTest w then
    addLog INFO (lit "OpCode testing finished.") None ;;
    modify (with_opcodeToTest 1) ;;
    modify (with_isOpCodeTestMode false)
  else
    addLog COMMAND
      (lit "Testing OpCode 0x"
         ++ padStart0 2 (toUpperCase (unicodeUpper host)
                           (toString16 (Num (opcodeToTest w))))) None ;;
    sendData [toUint8 (Num (opcodeToTest w))] ;;
    modify (fun w => with_opcodeToTest (opcodeToTest w + 1) w).

End WithHost.

End App.

(* ===================================================================== *)
(** ** ControlPanel: the opcode inputs and the discovery switch *)
(* ===================================================================== *)

Module ControlPanel.
Import JS Types Eff Ble App.
#[local] Open Scope eff_scope.

(** [setOpCodes(o => ({...o, K: v}))], one per input. *)
Definition setOpCode (kind : CommandType) (v : Z) : M World unit :=
  modify (fun w =>
    let o := opCodes w in
    with_opCodes
      match kind with
      | CLEAR_LEDS =>
          {| ClearLeds := v; Buzz := Buzz o; ChangeLed := ChangeLed o |}
      | BUZZ =>
          {| ClearLeds := ClearLeds o; Buzz := v; ChangeLed := ChangeLed o |}
      | CHANGE_LED =>
          {| ClearLeds := ClearLeds o; Buzz := Buzz o; ChangeLed := v |}
      end w).

(** The [onChange] handler of [OpCodeInput]: [text] is what the input
    holds after the edit, [onChange] the setter of the table entry. *)
Definition OpCodeInput_onChange (onChange : Z -> M World unit)
  (text : jsstring) : M World unit :=
  let hexVal :=
    if startsWith (lit "0x") text then substringFrom 2 text else text in
  match parseInt16 hexVal with
  | Num intVal =>
      if (0 <=? intVal) && (intVal <=? 255) then onChange intVal
      else ret tt
  | NaN => ret tt
  end.

(** The value the input shows for a table entry. *)
Definition OpCodeInput_value (unicodeUpper : Z -> list Z) (value : Z)
  : jsstring :=
  lit "0x" ++ padStart0 2 (toUpperCase unicodeUpper (toString16 (Num value))).

(** Typing [text] into the input of [kind]. *)
Definition editOpCode (kind : CommandType) (text : jsstring) : M World unit :=
  OpCodeInput_onChange (setOpCode kind) text.

(** The discovery switch: [setIsOpCodeTestMode(!isOpCodeTestMode)]. *)
Definition toggleOpCodeTestMode : M World unit :=
  modify (fun w => with_isOpCodeTestMode (negb (isOpCodeTestMode w)) w).

End ControlPanel.

(* ===================================================================== *)
(** ** SnifferPanel *)
(* ===================================================================== *)

Module Sniffer.
Import JS Eff Ble.
#[local] Open Scope eff_scope.

Definition TARGET_NAME : jsstring := lit "MCW".
Definition PROBLEMATIC_UUIDS : list jsstring :=
  [lit "00002a05-0000-1000-8000-00805f9b34fb"].
Definition WAND_SERVICE_UUID : jsstring :=
  lit "57420000-587e-48a0-974c-544d6163c577".

Inductive SnifferStatus : Type :=
| Disconnected
| Scanning
| Connecting
| Listening
| Error.

Record SnifferLog : Type := {
  id : Q;
  logUuid : jsstring;
  data : jsstring;
  timestamp : jsstring
}.

Inductive Event : Type :=
| EvSetStatus (s : SnifferStatus)
| EvAlert (msg : jsstring)
| EvConsoleError (what : jsstring)
| EvConsoleWarn (what : jsstring)
| EvConsoleLog (what : jsstring)
| EvSetTimeout (timer ms : Z)
| EvRequestDevice
| EvSetDeviceRef (bound : bool)
| EvAddDeviceListener
| EvRemoveDeviceListener
| EvGattConnect
| EvGattDisconnect
| EvGetPrimaryServices
| EvGetCharacteristics
| EvStartNotifications (char : jsstring) (ok : bool)
| EvStopNotifications (char : jsstring) (ok : bool)
| EvAddListener (char : jsstring)
| EvRemoveListener (char : jsstring)
| EvClearSubscribed.

Record World : Type := mkWorld {
  status : SnifferStatus;
  logs : list SnifferLog;
  deviceRef : option Device;
  subscribedCharsRef : list Characteristic;
  timeouts : list Z;
  nextTimer : Z;
  clockReads : nat;
  randomDraws : nat;
  trace : list Event
}.

Definition initialWorld : World :=
  mkWorld Disconnected [] None [] [] 1 0%nat 0%nat [].

Definition with_status (v : SnifferStatus) (w : World) : World :=
  mkWorld v (logs w) (deviceRef w) (subscribedCharsRef w) (timeouts w)
    (nextTimer w) (clockReads w) (randomDraws w) (trace w).
Definition with_logs (v : list SnifferLog) (w : World) : World :=
  mkWorld (status w) v (deviceRef w) (subscribedCharsRef w) (timeouts w)
    (nextTimer w) (clockReads w) (randomDraws w) (trace w).
Definition with_deviceRef (v : option Device) (w : World) : World :=
  mkWorld (status w) (logs w) v (subscribedCharsRef w) (timeouts w)
    (nextTimer w) (clockReads w) (randomDraws w) (trace w).
Definition with_subscribedCharsRef (v : list Characteristic) (w : World) : World :=
  mkWorld (status w) (logs w) (deviceRef w) v (timeouts w) (nextTimer w)
    (clockReads w) (randomDraws w) (trace w).
Definition with_timeouts (v : list Z) (w : World) : World :=
  mkWorld (status w) (logs w) (deviceRef w) (subscribedCharsRef w) v
    (nextTimer w) (clockReads w) (randomDraws w) (trace w).
Definition with_nextTimer (v : Z) (w : World) : World :=
  mkWorld (status w) (logs w) (deviceRef w) (subscribedCharsRef w)
    (timeouts w) v (clockReads w) (randomDraws w) (trace w).
Definition with_clockReads (v : nat) (w : World) : World :=
  mkWorld (status w) (logs w) (deviceRef w) (subscribedCharsRef w)
    (timeouts w) (nextTimer w) v (randomDraws w) (trace w).
Definition with_randomDraws (v : nat) (w : World) : World :=
  mkWorld (status w) (logs w) (deviceRef w) (subscribedCharsRef w)
    (timeouts w) (nextTimer w) (clockReads w) v (trace w).
Definition with_trace (v : list Event) (w : World) : World :=
  mkWorld (status w) (logs w) (deviceRef w) (subscribedCharsRef w)
    (timeouts w) (nextTimer w) (clockReads w) (randomDraws w) v.

Definition emit (e : Event) : M World unit :=
  modify (fun w => with_trace (trace w ++ [e]) w).

Definition setStatus (s : SnifferStatus) : M World unit :=
  emit (EvSetStatus s) ;; modify (with_status s).

(** Equality of two strings, code unit by code unit. *)
Fixpoint strEq (a b : jsstring) : bool :=
  match a, b with
  | [], [] => true
  | x :: a', y :: b' => (x =? y) && strEq a' b'
  | _, _ => false
  end.

(** [prev.slice(-n)]: the last [n] elements. *)
Definition sliceLast {A} (n : nat) (l : list A) : list A :=
  skipn (List.length l - n) l.

Section WithHost.

Variable host : Host.

(** [addLog]: the last 200 entries of the log, then the new one. *)
Definition addLog (uuid data : jsstring) : M World unit :=
  modify (fun w =>
    let entry :=
      {| id := numberAdd (inject_Z (dateNow host (clockReads w)))
                 (mathRandom host (randomDraws w));
         logUuid := uuid;
         data := data;
         timestamp := toLocaleTimeString host
                        (dateNow host (S (clockReads w))) |} in
    with_logs (sliceLast 200 (logs w) ++ [entry])
      (with_clockReads (S (S (clockReads w)))
        (with_randomDraws (S (randomDraws w)) w))).

(** [notificationHandler]: a value changed on [characteristic]. *)
Definition notificationHandler (characteristic : Characteristic)
  (value : option (list Z)) : M World unit :=
  match value with
  | None => ret tt
  | Some bytes =>
      let rawHex :=
        join (lit " ")
          (map (fun b => padStart0 2 (toString16 (Num b))) bytes) in
      addLog (uuid characteristic) rawHex
  end.

(** [deviceRef.current?.gatt?.connected]. *)
Definition gattConnected (w : World) : bool :=
  match deviceRef w with
  | Some d => hasGatt d && connected d
  | None => false
  end.

(** The loop of [stopSniffing] over the subscribed characteristics. *)
Fixpoint stopAll (chars : list Characteristic) : M World unit :=
  match chars with
  | [] => ret tt
  | char :: rest =>
      tryCatch
        (w <- get ;;
         when (gattConnected w)
           (emit (EvStopNotifications (uuid char)
                    (match stopNotifications char with
                     | None => true | Some _ => false end)) ;;
            awaitUnit (stopNotifications char) ;;
            emit (EvRemoveListener (uuid char))))
        (fun _ =>
           emit (EvConsoleWarn (lit "Could not stop notifications for "
                                  ++ uuid char ++ lit ":"))) ;;
      stopAll rest
  end.

Definition stopSniffing : M World unit :=
  w <- get ;;
  match deviceRef w with
  | Some d =>
      emit EvRemoveDeviceListener ;;
      modify (with_deviceRef (Some (setListening false d)))
  | None => ret tt
  end ;;
  stopAll (subscribedCharsRef w) ;;
  emit EvClearSubscribed ;;
  modify (with_subscribedCharsRef []) ;;
  w <- get ;;
  match deviceRef w with
  | Some d =>
      when (hasGatt d && connected d)
        (emit EvGattDisconnect ;;
         modify (with_deviceRef (Some (setConnected false d))))
  | None => ret tt
  end ;;
  emit (EvSetDeviceRef false) ;;
  modify (with_deviceRef None) ;;
  setStatus Disconnected ;;
  emit (EvConsoleLog (lit "Sniffer disconnected.")).

(** Whether the setup loop tries to subscribe to [char]. *)
Definition wanted (char : Characteristic) : bool :=
  (notify char || indicate char)
  && negb (existsb (strEq (uuid char)) PROBLEMATIC_UUIDS).

(** The inner loop of [startSniffing]; the result is [notifyCharsCount]. *)
Fixpoint subscribeChars (chars : list Characteristic) (count : nat)
  : M World nat :=
  match chars with
  | [] => ret count
  | char :: rest =>
      if wanted char then
        count' <-
          tryCatch
            (emit (EvStartNotifications (uuid char)
                     (match startNotifications char with
                      | None => true | Some _ => false end)) ;;
             awaitUnit (startNotifications char) ;;
             emit (EvAddListener (uuid char)) ;;
             modify (fun w => with_subscribedCharsRef
                                (subscribedCharsRef w ++ [char]) w) ;;
             ret (S count))
            (fun _ =>
               emit (EvConsoleError (lit "Failed to subscribe to "
                                       ++ uuid char)) ;;
               ret count) ;;
        subscribeChars rest count'
      else subscribeChars rest count
  end.

(** The outer loop, over the services. *)
Fixpoint subscribeServices (services : list Service) (count : nat)
  : M World nat :=
  match services with
  | [] => ret count
  | service :: rest =>
      emit EvGetCharacteristics ;;
      characteristics <- await (getCharacteristics service) ;;
      count' <- subscribeChars characteristics count ;;
      subscribeServices rest count'
  end.

Definition setTimeout (ms : Z) : M World unit :=
  w <- get ;;
  let timer := nextTimer w in
  modify (fun w => with_timeouts (timeouts w ++ [timer])
                     (with_nextTimer (timer + 1) w)) ;;
  emit (EvSetTimeout timer ms).

(** The body of the [try] block of [startSniffing]. *)
Definition sniffAttempt (chooser : Result Device) : M World unit :=
  setStatus Scanning ;;
  emit EvRequestDevice ;;
  device <- await chooser ;;
  emit (EvSetDeviceRef true) ;;
  emit EvAddDeviceListener ;;
  modify (with_deviceRef (Some (setListening true device))) ;;
  setStatus Connecting ;;
  (if hasGatt device then ret tt
   else throw {| errName := lit "TypeError";
                 errMessage := lit "Cannot read properties of undefined" |}) ;;
  emit EvGattConnect ;;
  awaitUnit (gattConnect device) ;;
  modify (with_deviceRef
            (Some (setConnected true (setListening true device)))) ;;
  emit EvGetPrimaryServices ;;
  services <- await (getPrimaryServices device) ;;
  notifyCharsCount <- subscribeServices services 0%nat ;;
  if (0 <? notifyCharsCount)%nat then setStatus Listening
  else
    setStatus Error ;;
    emit (EvAlert (lit "No notifiable characteristics found on this device.")) ;;
    stopSniffing.

Definition startSniffing (chooser : Result Device) : M World unit :=
  if negb (bluetooth host) then
    emit (EvAlert (lit "Web Bluetooth API is not available on this browser.")) ;;
    setStatus Error
  else
    tryCatch (sniffAttempt chooser)
      (fun error =>
         emit (EvConsoleError (lit "Sniffer failed:")) ;;
         if negb (strEq (errName error) (lit "NotFoundError")) then
           setStatus Error ;;
           setTimeout 3000
         else setStatus Disconnected).

(** The timeout [timer] comes due: [setStatus('Disconnected')]. *)
Definition timeoutFires (timer : Z) : M World unit :=
  w <- get ;;
  if existsb (Z.eqb timer) (timeouts w) then
    modify (fun w =>
      with_timeouts (filter (fun t => negb (t =? timer)) (timeouts w)) w) ;;
    setStatus Disconnected
  else ret tt.

End WithHost.

End Sniffer.

(* ===================================================================== *)
(** ** The engine as the specification words it *)
(* ===================================================================== *)

Module Spec.
Import JS Types Eff Ble App.

(** The fixed size of a command's byte group. *)
Definition contribution (cmd : MacroCommand) : nat :=
  match cmd with
  | ClearLedsCommand _ => 1
  | BuzzCommand _ _ => 3
  | ChangeLedCommand _ _ _ _ => 7
  end.

(** A duration is clamped to at most 32767 and sent as 16 bits, low byte
    first. *)
Definition clampDuration (d : Z) : Z := Z.min d 32767.
Definition lowByte (x : Z) : Z := x mod 256.
Definition highByte (x : Z) : Z := (x / 256) mod 256.

(** A colour is six hexadecimal digits, two per channel. *)
Definition isHexColor (s : jsstring) : bool :=
  (List.length s =? 6)%nat
  && forallb (fun c => match hexDigitValue c with Some _ => true | None => false end) s.

Definition channel (k : nat) (s : jsstring) : Z :=
  match hexDigitValue (nth (2 * k) s 0), hexDigitValue (nth (2 * k + 1) s 0) with
  | Some hi, Some lo => 16 * hi + lo
  | _, _ => 0
  end.

(** Encode, per command: ClearLeds is [opcode]; Buzz is [opcode,
    duration_lo, duration_hi]; ChangeLed is [opcode, group_id, R, G, B,
    duration_lo, duration_hi]. *)
Definition encodeCommand (codes : OpCodes) (cmd : MacroCommand) : list number :=
  match cmd with
  | ClearLedsCommand _ => [Num (ClearLeds codes)]
  | BuzzCommand _ duration =>
      [Num (Buzz codes);
       Num (lowByte (clampDuration duration));
       Num (highByte (clampDuration duration))]
  | ChangeLedCommand _ groupId color duration =>
      [Num (ChangeLed codes); Num groupId;
       Num (channel 0 color); Num (channel 1 color); Num (channel 2 color);
       Num (lowByte (clampDuration duration));
       Num (highByte (clampDuration duration))]
  end.

(** The precondition of Encode: every colour is six hexadecimal digits. *)
Definition wellFormed (cmd : MacroCommand) : bool :=
  match cmd with
  | ChangeLedCommand _ _ color _ => isHexColor color
  | _ => true
  end.

(** *** Decode *)

(** The classes of telemetry a notification payload falls into; a spell
    carries its name and, as auxiliary data, the hex dump of the payload. *)
Inductive TelemetryFrame : Type :=
| Spell (name : jsstring) (aux : jsstring)
| Raw (hex : jsstring).

Definition isByte (b : Z) : bool := (0 <=? b) && (b <? 256).

(** A payload as lower-case hexadecimal, two digits a byte, no separator. *)
Definition hexDump (payload : list Z) : jsstring :=
  flat_map (fun b => [hexDigitChar (b / 16); hexDigitChar (b mod 16)]) payload.

(** Whether the program prints [b] as the two digits of [hexDump]. *)
Definition twoHexDigitsOk (b : Z) : bool :=
  if list_eq_dec Z.eq_dec (padStart0 2 (toString16 (Num b)))
       [hexDigitChar (b / 16); hexDigitChar (b mod 16)]
  then true else false.

(** White space: the characters ECMAScript counts as white space or as
    line terminators. *)
Definition whiteSpace : list Z :=
  [9; 10; 11; 12; 13; 32; 160; 5760;
   8192; 8193; 8194; 8195; 8196; 8197; 8198; 8199; 8200; 8201; 8202;
   8232; 8233; 8239; 8287; 12288; 65279].

Definition blank (c : Z) : bool := existsb (Z.eqb c) whiteSpace.

(** A text without its longest prefix of characters of the class [p],
    and without its longest such prefix and suffix. *)
Fixpoint dropWhile (p : Z -> bool) (s : jsstring) : jsstring :=
  match s with
  | [] => []
  | c :: r => if p c then dropWhile p r else c :: r
  end.

Definition dropEnds (p : Z -> bool) (s : jsstring) : jsstring :=
  rev (dropWhile p (rev (dropWhile p s))).

(** A text without its NULs, wherever they stand. *)
Definition withoutNul (s : jsstring) : jsstring :=
  fold_right (fun c r => if c =? 0 then r else c :: r) [] s.

(** Upper case: the letters a to z become A to Z, a code point outside
    ASCII is mapped by the Unicode table. *)
Definition upperAscii (c : Z) : Z :=
  if existsb (Z.eqb c) (lit "abcdefghijklmnopqrstuvwxyz") then c - 32 else c.

Definition upperCase (unicodeUpper : Z -> list Z) (s : jsstring) : jsstring :=
  flat_map utf16
    (flat_map (fun cp => if cp <? 128 then [upperAscii cp] else unicodeUpper cp)
       (codePoints s)).

Definition nonEmpty (s : jsstring) : bool :=
  match s with [] => false | _ :: _ => true end.

(** The text of a payload as the specification words it: bytes[4:]
    decoded, NUL padding and surrounding white space stripped, that is,
    NULs and white space dropped from both ends. *)
Definition padding (c : Z) : bool := (c =? 0) || blank c.

Definition strippedText (payload : list Z) : jsstring :=
  dropEnds padding (TextDecoder_decode (skipn 4 payload)).

(** Decode as the specification words it. *)
Definition DecodeAsSpecified (unicodeUpper : Z -> list Z) (payload : list Z)
  : TelemetryFrame :=
  if (7 <=? List.length payload)%nat && nonEmpty (strippedText payload)
  then Spell (upperCase unicodeUpper (strippedText payload)) (hexDump payload)
  else Raw (hexDump payload).

(** The text of a payload as the amended claim words it: bytes[4:]
    decoded, white space dropped from both ends, then every NUL deleted,
    wherever it stands. *)
Definition spellText (payload : list Z) : jsstring :=
  withoutNul (dropEnds blank (TextDecoder_decode (skipn 4 payload))).

(** Decode as the amended claim words it. *)
Definition Decode (unicodeUpper : Z -> list Z) (payload : list Z)
  : TelemetryFrame :=
  if (7 <=? List.length payload)%nat && nonEmpty (spellText payload)
  then Spell (upperCase unicodeUpper (spellText payload)) (hexDump payload)
  else Raw (hexDump payload).

(** How a frame shows in the controller's log. *)
Definition logged (frame : TelemetryFrame) (entry : LogEntry) : Prop :=
  match frame with
  | Spell name aux =>
      type entry = SPELL
      /\ message entry = spellPrefix ++ name
      /\ data entry = Some (lit "RAW: " ++ aux)
  | Raw hex =>
      type entry = RAW
      /\ message entry = lit "Raw Wand Data"
      /\ data entry = Some hex
  end.

(** The spell name [handleNotifications] finds in a payload, if any, with
    whatever decoder the host provides. *)
Definition spellNameWith (decode : list Z -> Result jsstring)
  (payload : list Z) : option jsstring :=
  if (7 <=? List.length payload)%nat then
    match decode (skipn 4 payload) with
    | Ok decoded =>
        match removeNul (trim decoded) with
        | [] => None
        | c :: r => Some (c :: r)
        end
    | Throw _ => None
    end
  else None.

(** *** Chunked send *)

(** The byte chunks written, in trace order. *)
Fixpoint writesOf (tr : list Event) : list (list Z) :=
  match tr with
  | [] => []
  | EvWrite chunk _ :: rest => chunk :: writesOf rest
  | _ :: rest => writesOf rest
  end.

(** A trace of paced writes: each write is issued, then a delay of
    [ms] elapses, then the next write is issued. *)
Fixpoint paced (ms : Z) (tr : list Event) : bool :=
  match tr with
  | [] => true
  | EvWrite _ _ :: EvDelay d :: rest => (d =? ms) && paced ms rest
  | _ => false
  end.

(** The sizes of the chunks of [n] bytes under a payload limit of 20. *)
Definition chunkSizes (n : nat) : list nat :=
  repeat 20%nat (n / 20) ++ (if (n mod 20 =? 0)%nat then [] else [(n mod 20)%nat]).

(** *** Teardown *)

Definition isTimerStop (e : Event) : bool :=
  match e with EvClearInterval _ => true | _ => false end.
Definition isUnsubscribe (e : Event) : bool :=
  match e with EvStopNotifications _ => true | _ => false end.
Definition isTransportDisconnect (e : Event) : bool :=
  match e with EvGattDisconnect => true | _ => false end.
Definition isClearBinding (e : Event) : bool :=
  match e with EvSetWriteCharRef false => true | _ => false end.
Definition isSetDisconnected (e : Event) : bool :=
  match e with EvSetStatus DISCONNECTED => true | _ => false end.

(** The steps occur in the trace, in this order (other events may lie
    between them). *)
Fixpoint inOrder (steps : list (Event -> bool)) (tr : list Event) : bool :=
  match tr with
  | [] => match steps with [] => true | _ :: _ => false end
  | e :: rest =>
      match steps with
      | [] => true
      | step :: more =>
          if step e then inOrder more rest else inOrder steps rest
      end
  end.

(** The order of teardown as the specification has it: timer stop,
    unsubscribe, transport disconnect, clear the bindings, Disconnected. *)
Definition specifiedTeardown : list (Event -> bool) :=
  [isTimerStop; isUnsubscribe; isTransportDisconnect; isClearBinding;
   isSetDisconnected].

(** The order [disconnect] follows: it has no unsubscribe step. *)
Definition actualTeardown : list (Event -> bool) :=
  [isTimerStop; isTransportDisconnect; isClearBinding; isSetDisconnected].

(** The events of [disconnect] while a keep-alive timer is armed and a
    device is held. *)
Definition teardownEvents (timer : Z) (d : Device) : list Event :=
  [EvClearInterval timer; EvRemoveDeviceListener]
  ++ (if hasGatt d && connected d then [EvGattDisconnect] else [])
  ++ [EvSetDeviceRef false; EvSetWriteCharRef false; EvSetStatus DISCONNECTED].

(** A session that is torn down: no timer armed, no handle held. *)
Definition torn (w : World) : Prop :=
  keepAliveIntervalRef w = None
  /\ intervals w = []
  /\ deviceRef w = None
  /\ writeCharRef w = None
  /\ connectionStatus w = DISCONNECTED.

(** *** The opcode table *)

Definition opcodeOf (kind : CommandType) (codes : OpCodes) : Z :=
  match kind with
  | CLEAR_LEDS => ClearLeds codes
  | BUZZ => Buzz codes
  | CHANGE_LED => ChangeLed codes
  end.

(** Every entry of the table is a byte. *)
Definition validTable (codes : OpCodes) : Prop :=
  0 <= ClearLeds codes <= 255
  /\ 0 <= Buzz codes <= 255
  /\ 0 <= ChangeLed codes <= 255.

(** The number an opcode input reads in its text: the text without a
    leading [0x], parsed in radix 16. *)
Definition inputNumber (text : jsstring) : number :=
  parseInt16 (if startsWith (lit "0x") text then substringFrom 2 text else text).

(** [set(kind, byte)] takes a number that is a byte. *)
Definition accepted (n : number) : option Z :=
  match n with
  | Num v => if (0 <=? v) && (v <=? 255) then Some v else None
  | NaN => None
  end.

End Spec.

(* ===================================================================== *)
(** ** The sniffer's setup as the specification words it *)
(* ===================================================================== *)

Module SnifferSpec.
Import JS Eff Ble Sniffer.

Definition resolves (outcome : option JsError) : bool :=
  match outcome with None => true | Some _ => false end.

(** A characteristic the sniffer ends up subscribed to. *)
Definition subscribable (char : Characteristic) : bool :=
  wanted char && resolves (startNotifications char).

(** A characteristic whose subscription is attempted and fails. *)
Definition failing (char : Characteristic) : bool :=
  wanted char && negb (resolves (startNotifications char)).

(** What the setup does for one characteristic: nothing when it is not
    notifiable or is denied; else a subscribe attempt followed by the
    listener's registration, or by the logging of the failure. *)
Definition charEvents (char : Characteristic) : list Event :=
  if wanted char then
    match startNotifications char with
    | None => [EvStartNotifications (uuid char) true; EvAddListener (uuid char)]
    | Some _ =>
        [EvStartNotifications (uuid char) false;
         EvConsoleError (lit "Failed to subscribe to " ++ uuid char)]
    end
  else [].

(** The events of the setup loops over the services' characteristics. *)
Definition serviceEvents (charLists : list (list Characteristic)) : list Event :=
  flat_map (fun chars => EvGetCharacteristics :: flat_map charEvents chars)
    charLists.

(** The subscribe attempts of a trace, each with its outcome. *)
Fixpoint startAttempts (tr : list Event) : list (jsstring * bool) :=
  match tr with
  | [] => []
  | EvStartNotifications u ok :: rest => (u, ok) :: startAttempts rest
  | _ :: rest => startAttempts rest
  end.

(** The failures a trace logs on the console. *)
Fixpoint consoleErrors (tr : list Event) : list jsstring :=
  match tr with
  | [] => []
  | EvConsoleError what :: rest => what :: consoleErrors rest
  | _ :: rest => consoleErrors rest
  end.

(** The events up to the setup loops. *)
Definition setupPrefix : list Event :=
  [EvSetStatus Scanning; EvRequestDevice; EvSetDeviceRef true;
   EvAddDeviceListener; EvSetStatus Connecting; EvGattConnect;
   EvGetPrimaryServices].

(** Total failure: the error is shown, then everything is torn down. *)
Definition totalFailure : list Event :=
  [EvSetStatus Error;
   EvAlert (lit "No notifiable characteristics found on this device.");
   EvRemoveDeviceListener; EvClearSubscribed; EvGattDisconnect;
   EvSetDeviceRef false; EvSetStatus Disconnected;
   EvConsoleLog (lit "Sniffer disconnected.")].

End SnifferSpec.

(* ===================================================================== *)
(** ** Concrete hosts and devices, for the examples *)
(* ===================================================================== *)

Module Sample.
Import JS Types Eff Ble.

(** A host whose clock advances one millisecond a reading. *)
Definition host : Host :=
  {| bluetooth := true;
     dateNow := fun n => 1000 + Z.of_nat n;
     mathRandom := fun _ => (1 # 2)%Q;
     toLocaleTimeString := fun _ => lit "12:00:00";
     unicodeUpper := fun cp => [cp];
     textDecoder := standardTextDecoder |}.


(** A characteristic that accepts every write. *)
Definition writeChar : Characteristic :=
  {| uuid := App.WRITE_UUID; notify := false; indicate := false;
     startNotifications := None; stopNotifications := None;
     writeValueWithoutResponse := fun _ _ => None |}.

(** Six ChangeLed commands and one Buzz: 45 bytes. *)
Definition macro45 : list MacroCommand :=
  repeat (ChangeLedCommand [] 0 (lit "0000FF") 500) 6 ++ [BuzzCommand [] 250].

(** A session with the write characteristic bound. *)
Definition boundWorld : App.World :=
  App.with_writeCharRef (Some writeChar)
    (App.with_macroCommands macro45 App.initialWorld).

(** The same session with discovery mode switched on. *)
Definition probingWorld : App.World :=
  App.with_isOpCodeTestMode true boundWorld.

(** A host whose clock stands still, as within one millisecond, and whose
    random source draws 1/2, then 1/4 from then on. *)
Definition sameMillisecondHost : Host :=
  {| bluetooth := true;
     dateNow := fun _ => 1000;
     mathRandom := fun n => match n with O => (1 # 2)%Q | S _ => (1 # 4)%Q end;
     toLocaleTimeString := fun _ => lit "12:00:00";
     unicodeUpper := fun cp => [cp];
     textDecoder := standardTextDecoder |}.

(** A controller log and a sniffer log of 200 entries each. *)
Definition logEntry : LogEntry :=
  {| id := 1%Q; type := INFO; message := lit "entry";
     timestamp := lit "12:00:00"; data := None |}.
Definition fullLogWorld : App.World :=
  App.with_logs (repeat logEntry 200) App.initialWorld.

Definition snifferEntry : Sniffer.SnifferLog :=
  {| Sniffer.id := 1%Q; Sniffer.logUuid := lit "2a19";
     Sniffer.data := lit "64"; Sniffer.timestamp := lit "12:00:00" |}.
Definition fullSnifferWorld : Sniffer.World :=
  Sniffer.with_logs (repeat snifferEntry 200) Sniffer.initialWorld.

(** The rejection of [requestDevice] when the user closes the chooser. *)
Definition notFound : JsError :=
  {| errName := lit "NotFoundError";
     errMessage := lit "User cancelled the requestDevice() chooser." |}.

(** A wand: one service with the write and the notify characteristic. *)
Definition notifyChar : Characteristic :=
  {| uuid := App.NOTIFY_UUID; notify := true; indicate := false;
     startNotifications := None; stopNotifications := None;
     writeValueWithoutResponse := fun _ _ => None |}.

Definition wandService : Service :=
  {| getCharacteristic := fun u =>
       if Sniffer.strEq u App.WRITE_UUID then Ok writeChar else Ok notifyChar;
     getCharacteristics := Ok [writeChar; notifyChar] |}.

Definition wand : Device :=
  {| name := lit "MCW-1234"; hasGatt := true; gattConnect := None;
     getPrimaryService := fun _ => Ok wandService;
     getPrimaryServices := Ok [wandService];
     connected := false; listening := false |}.

(** The session after the user picked the wand. *)
Definition connectedWorld : App.World :=
  exec (App.connect host (Ok wand)) App.initialWorld.

(** A characteristic that notifies but refuses the subscription, and one
    that accepts it. *)
Definition flakyChar : Characteristic :=
  {| uuid := lit "00002a37-0000-1000-8000-00805f9b34fb";
     notify := true; indicate := false;
     startNotifications :=
       Some {| errName := lit "NotSupportedError";
               errMessage := lit "GATT operation failed." |};
     stopNotifications := None;
     writeValueWithoutResponse := fun _ _ => None |}.

Definition batteryChar : Characteristic :=
  {| uuid := lit "00002a19-0000-1000-8000-00805f9b34fb";
     notify := true; indicate := false;
     startNotifications := None; stopNotifications := None;
     writeValueWithoutResponse := fun _ _ => None |}.

Definition mixedService : Service :=
  {| getCharacteristic := fun _ => Ok batteryChar;
     getCharacteristics := Ok [flakyChar; batteryChar; writeChar] |}.

Definition deadService : Service :=
  {| getCharacteristic := fun _ => Ok flakyChar;
     getCharacteristics := Ok [flakyChar; writeChar] |}.

(** A device on which one subscription fails and one succeeds, and a
    device on which none succeeds. *)
Definition mixedDevice : Device :=
  {| name := lit "MCW-1234"; hasGatt := true; gattConnect := None;
     getPrimaryService := fun _ => Ok mixedService;
     getPrimaryServices := Ok [mixedService];
     connected := false; listening := false |}.

Definition deadDevice : Device :=
  {| name := lit "MCW-0000"; hasGatt := true; gattConnect := None;
     getPrimaryService := fun _ => Ok deadService;
     getPrimaryServices := Ok [deadService];
     connected := false; listening := false |}.

End Sample.

(* ===================================================================== *)
(** ** ControlPanel: the macro builder *)
(* ===================================================================== *)

Module Builder.
Import JS Types Eff Ble App.
#[local] Open Scope eff_scope.

(** The [id] of a command. *)
Definition commandId (cmd : MacroCommand) : jsstring :=
  match cmd with
  | ClearLedsCommand i => i
  | BuzzCommand i _ => i
  | ChangeLedCommand i _ _ _ => i
  end.

(** The updates the panel passes to [updateCommand]: a new colour, a new
    duration, or both. *)
Record Updates : Type := {
  newHexColor : option jsstring;
  newDuration : option Z
}.

(** [{ ...cmd, ...updates }].  A field that the type of [cmd] does not
    carry is read by nothing, and is not kept here. *)
Definition applyUpdates (updates : Updates) (cmd : MacroCommand) : MacroCommand :=
  match cmd with
  | ClearLedsCommand i => ClearLedsCommand i
  | BuzzCommand i d =>
      BuzzCommand i (match newDuration updates with Some d' => d' | None => d end)
  | ChangeLedCommand i g color d =>
      ChangeLedCommand i g
        (match newHexColor updates with Some c' => c' | None => color end)
        (match newDuration updates with Some d' => d' | None => d end)
  end.

Section WithClock.

Variable host : Host.

(** [new Date().toISOString()], the text of a clock reading. *)
Variable toISOString : Z -> jsstring.

(** [addCommand]: a command of the given type with the panel's defaults,
    put at the end of the macro. *)
Definition addCommand (type : CommandType) : M World unit :=
  modify (fun w =>
    let id := toISOString (dateNow host (clockReads w)) in
    let newCommand :=
      match type with
      | CLEAR_LEDS => ClearLedsCommand id
      | BUZZ => BuzzCommand id 250
      | CHANGE_LED => ChangeLedCommand id 0 (lit "0000FF") 500
      end in
    with_macroCommands (macroCommands w ++ [newCommand])
      (with_clockReads (S (clockReads w)) w)).

End WithClock.

(** [removeCommand]: every command with this id goes. *)
Definition removeCommand (id : jsstring) : M World unit :=
  modify (fun w =>
    with_macroCommands
      (filter (fun cmd => negb (Sniffer.strEq (commandId cmd) id))
         (macroCommands w)) w).

(** [updateCommand]: every command with this id takes the updates. *)
Definition updateCommand (id : jsstring) (updates : Updates) : M World unit :=
  modify (fun w =>
    with_macroCommands
      (map (fun cmd =>
              if Sniffer.strEq (commandId cmd) id then applyUpdates updates cmd
              else cmd)
         (macroCommands w)) w).

(** A number of the byte array that is a byte. *)
Definition isByteNumber (n : number) : bool :=
  match n with
  | Num z => Spec.isByte z
  | NaN => false
  end.

(** A command whose colour is six hexadecimal digits and whose group is a
    byte. *)
Definition byteCommand (cmd : MacroCommand) : bool :=
  match cmd with
  | ChangeLedCommand _ g color _ => Spec.isByte g && Spec.isHexColor color
  | _ => true
  end.

(** The 16-bit value of the two duration bytes of a command's group. *)
Definition durationWord (group : list number) : option Z :=
  match rev group with
  | Num hi :: Num lo :: _ => Some (lo + 256 * hi)
  | _ => None
  end.

(** Whether an opcode input reads the text it shows for [v] back as [v]. *)
Definition shownValueReadsBack (unicodeUpper : Z -> list Z) (v : Z) : bool :=
  match Spec.accepted
          (Spec.inputNumber (ControlPanel.OpCodeInput_value unicodeUpper v)) with
  | Some x => x =? v
  | None => false
  end.

End Builder.

(* ===================================================================== *)
(** ** Frames of the wand *)
(* ===================================================================== *)

Module Frames.
Import JS Types Eff Ble App.



(** The sniffer's dump of a payload without its blanks. *)
Definition withoutBlanks (s : jsstring) : jsstring :=
  filter (fun c => negb (c =? 32)) s.

(** The entries of a log that report an error. *)
Definition errorEntries (log : list LogEntry) : list LogEntry :=
  filter (fun e => match type e with LOG_ERROR => true | _ => false end) log.

(** The writes of a trace that the wand refused. *)
Fixpoint failedWrites (tr : list Event) : nat :=
  match tr with
  | [] => 0
  | EvWrite _ false :: rest => S (failedWrites rest)
  | _ :: rest => failedWrites rest
  end.

End Frames.

(* ===================================================================== *)
(** ** Sessions of the controller *)
(* ===================================================================== *)

Module Session.
Import JS Types Eff Ble App.
#[local] Open Scope eff_scope.

(** What the user and the host may do to the mounted controller: the
    handlers of the panel, and the events of the host. *)
Inductive Action : Type :=
| Connect (chooser : Result Device)
| Disconnect
| SendMacro
| TestNextOpCode
| Notification (value : option (list Z))
| IntervalFires (timer : Z)
| TimeoutFires (timer : Z)
| LinkDrops
| EditOpCode (kind : CommandType) (text : jsstring)
| ToggleOpCodeTestMode
| AddCommand (type : CommandType)
| RemoveCommand (id : jsstring)
| UpdateCommand (id : jsstring) (updates : Builder.Updates)
| Unmount.

Section WithHost.

Variable host : Host.
Variable toISOString : Z -> jsstring.

(** The cleanup of the effect that runs on unmount.  The effect has no
    dependencies, so the cleanup is the closure of the first render and
    [captured] is the connection status of that render. *)
Definition unmountCleanup (captured : ConnectionStatus) : M World unit :=
  match captured with
  | CONNECTED => disconnect host
  | _ => ret tt
  end.

Definition unmount : M World unit :=
  unmountCleanup (connectionStatus initialWorld).

Definition perform (a : Action) : M World unit :=
  match a with
  | Connect chooser => connect host chooser
  | Disconnect => disconnect host
  | SendMacro => sendMacro host
  | TestNextOpCode => testNextOpCode host
  | Notification value => handleNotifications host value
  | IntervalFires timer => intervalFires host timer
  | TimeoutFires timer => timeoutFires timer
  | LinkDrops => gattServerDisconnected host
  | EditOpCode kind text => ControlPanel.editOpCode kind text
  | ToggleOpCodeTestMode => ControlPanel.toggleOpCodeTestMode
  | AddCommand type => Builder.addCommand host toISOString type
  | RemoveCommand id => Builder.removeCommand id
  | UpdateCommand id updates => Builder.updateCommand id updates
  | Unmount => unmount
  end.

(** The actions one after the other, each on the world the one before
    left. *)
Definition performAll (actions : list Action) (w : World) : World :=
  fold_left (fun w a => exec (perform a) w) actions w.

End WithHost.

(** The timers the controller holds: timer ids are positive and below
    the next id to hand out, and the armed intervals are the one the
    keep-alive ref records, if any. *)
Definition timersConsistent (w : World) : Prop :=
  0 < nextTimer w
  /\ intervals w
     = match keepAliveIntervalRef w with Some timer => [timer] | None => [] end
  /\ (forall timer, keepAliveIntervalRef w = Some timer ->
        0 < timer < nextTimer w)
  /\ (forall timer, In timer (timeouts w) -> 0 < timer < nextTimer w).

(** In state Connected the keep-alive is armed and the device and the
    write characteristic are held. *)
Definition connectedIsLive (w : World) : Prop :=
  connectionStatus w = CONNECTED ->
  keepAliveIntervalRef w <> None
  /\ writeCharRef w <> None
  /\ deviceRef w <> None.

(** The discovery counter stays between 1 and 256. *)
Definition counterInRange (w : World) : Prop := 1 <= opcodeToTest w <= 256.

Definition consistent (w : World) : Prop :=
  timersConsistent w
  /\ connectedIsLive w
  /\ Spec.validTable (opCodes w)
  /\ counterInRange w.

(** The fields of the world that only connecting, tearing down and the
    timers touch. *)
Definition sameSession (w w' : World) : Prop :=
  connectionStatus w' = connectionStatus w
  /\ deviceRef w' = deviceRef w
  /\ writeCharRef w' = writeCharRef w
  /\ keepAliveIntervalRef w' = keepAliveIntervalRef w
  /\ intervals w' = intervals w
  /\ timeouts w' = timeouts w
  /\ nextTimer w' = nextTimer w
  /\ opCodes w' = opCodes w.

(** A step that ends normally and touches neither the session nor the
    discovery counter. *)
Definition framed (c : M World unit) (w : World) : Prop :=
  exists w', c w = (Ok tt, w')
             /\ sameSession w w' /\ opcodeToTest w' = opcodeToTest w.

(** A step that ends normally and keeps a consistent world consistent. *)
Definition keeps (c : M World unit) (w : World) : Prop :=
  exists w', c w = (Ok tt, w') /\ (consistent w -> consistent w').

End Session.

(* ===================================================================== *)
(** ** More sample worlds *)
(* ===================================================================== *)

Module Scenes.
Import JS Types Eff Ble App.

(** A write characteristic that refuses every write. *)
Definition deafChar : Characteristic :=
  {| uuid := WRITE_UUID;
     notify := false;
     indicate := false;
     startNotifications := None;
     stopNotifications := None;
     writeValueWithoutResponse :=
       fun _ _ => Some {| errName := lit "NetworkError";
                          errMessage := lit "GATT operation failed." |} |}.

(** A world that holds [deafChar], with a macro of 45 bytes. *)
Definition deafWorld : World :=
  with_writeCharRef (Some deafChar)
    (with_macroCommands Sample.macro45 initialWorld).

(** A world that holds no write characteristic, with a macro of 45
    bytes. *)
Definition unboundWorld : World :=
  with_macroCommands Sample.macro45 initialWorld.

(** A host whose clock stands at one millisecond of November 2025 and
    whose random draws are 1/2, then 1/2 + 2^-20, then 1/10 as a double. *)
Definition todayHost : Host :=
  {| bluetooth := true;
     dateNow := fun _ => 1762171200123;
     mathRandom :=
       fun n =>
         match n with
         | O => (1 # 2)%Q
         | 1%nat => (524289 # 1048576)%Q
         | _ => (3602879701896397 # 36028797018963968)%Q
         end;
     toLocaleTimeString := fun _ => lit "12:00:00";
     unicodeUpper := fun cp => [cp];
     textDecoder := standardTextDecoder |}.

(** A browser without Web Bluetooth. *)
Definition plainHost : Host :=
  {| bluetooth := false;
     dateNow := dateNow Sample.host;
     mathRandom := mathRandom Sample.host;
     toLocaleTimeString := toLocaleTimeString Sample.host;
     unicodeUpper := unicodeUpper Sample.host;
     textDecoder := textDecoder Sample.host |}.

Definition networkError : JsError :=
  {| errName := lit "NetworkError";
     errMessage := lit "GATT operation failed." |}.

(** A service that fails to list its characteristics, and a device
    with a good service before it. *)
Definition brokenService : Service :=
  {| getCharacteristic := fun _ => Throw networkError;
     getCharacteristics := Throw networkError |}.

Definition halfDevice : Device :=
  {| name := lit "MCW-0002"; hasGatt := true; gattConnect := None;
     getPrimaryService := fun _ => Ok Sample.mixedService;
     getPrimaryServices := Ok [Sample.mixedService; brokenService];
     connected := false; listening := false |}.

(** The sniffer, listening to [Sample.mixedDevice]. *)
Definition listeningSniffer : Sniffer.World :=
  exec (Sniffer.startSniffing Sample.host (Ok Sample.mixedDevice))
    Sniffer.initialWorld.

(** A device that connects and then fails every discovery. *)
Definition bareDevice : Device :=
  {| name := lit "MCW-0001"; hasGatt := true; gattConnect := None;
     getPrimaryService := fun _ => Throw networkError;
     getPrimaryServices := Throw networkError;
     connected := false; listening := false |}.

End Scenes.

(* ===================================================================== *)
(** ** Sessions of the sniffer *)
(* ===================================================================== *)

Module SnifferSession.
Import JS Eff Ble Sniffer.
#[local] Open Scope eff_scope.

(** What the loop of [stopSniffing] does for one characteristic while
    the link is up. *)
Definition stopEvents (char : Characteristic) : list Event :=
  match stopNotifications char with
  | None =>
      [EvStopNotifications (uuid char) true; EvRemoveListener (uuid char)]
  | Some _ =>
      [EvStopNotifications (uuid char) false;
       EvConsoleWarn (lit "Could not stop notifications for "
                        ++ uuid char ++ lit ":")]
  end.

(** The end of [stopSniffing], after the loop. *)
Definition closing (linked : bool) : list Event :=
  EvClearSubscribed
  :: (if linked then [EvGattDisconnect] else [])
  ++ [EvSetDeviceRef false; EvSetStatus Disconnected;
      EvConsoleLog (lit "Sniffer disconnected.")].

(** The characteristics a trace asks to stop, in order. *)
Fixpoint stopAttempts (tr : list Event) : list jsstring :=
  match tr with
  | [] => []
  | EvStopNotifications u _ :: rest => u :: stopAttempts rest
  | _ :: rest => stopAttempts rest
  end.

(** The characteristics the setup loop gets to see: those of the
    services up to the first one that fails to list its own, and the
    error of that one. *)
Fixpoint discovered (services : list Service)
  : list Characteristic * option JsError :=
  match services with
  | [] => ([], None)
  | service :: rest =>
      match getCharacteristics service with
      | Ok chars =>
          (chars ++ fst (discovered rest), snd (discovered rest))
      | Throw e => ([], Some e)
      end
  end.

(** The events of the setup loop over the services. *)
Fixpoint discoveryEvents (services : list Service) : list Event :=
  match services with
  | [] => []
  | service :: rest =>
      EvGetCharacteristics
      :: match getCharacteristics service with
         | Ok chars =>
             flat_map SnifferSpec.charEvents chars ++ discoveryEvents rest
         | Throw _ => []
         end
  end.

(** What the user and the host may do to the mounted sniffer. *)
Inductive Action : Type :=
| Start (chooser : Result Device)
| Stop
| Notification (char : Characteristic) (value : option (list Z))
| TimeoutFires (timer : Z)
| LinkDrops
| Unmount.

Section WithHost.

Variable host : Host.

(** The link drops: [gattserverdisconnected] is dispatched on the device
    the sniffer holds; its listener is [stopSniffing]. *)
Definition gattServerDisconnected : M World unit :=
  w <- get ;;
  match deviceRef w with
  | Some d =>
      modify (with_deviceRef (Some (setConnected false d))) ;;
      when (listening d) stopSniffing
  | None => ret tt
  end.

(** The cleanup of the effect that runs on unmount; [captured] is the
    status the first render saw. *)
Definition unmountCleanup (captured : SnifferStatus) : M World unit :=
  match captured with
  | Disconnected | Error => ret tt
  | _ => stopSniffing
  end.

Definition unmount : M World unit := unmountCleanup (status initialWorld).

Definition perform (a : Action) : M World unit :=
  match a with
  | Start chooser => startSniffing host chooser
  | Stop => stopSniffing
  | Notification char value => notificationHandler host char value
  | TimeoutFires timer => timeoutFires timer
  | LinkDrops => gattServerDisconnected
  | Unmount => unmount
  end.

Definition performAll (actions : list Action) (w : World) : World :=
  fold_left (fun w a => exec (perform a) w) actions w.

End WithHost.

(** While the sniffer shows Listening it holds a device and at least one
    subscribed characteristic. *)
Definition listeningIsLive (w : World) : Prop :=
  status w = Listening -> deviceRef w <> None /\ subscribedCharsRef w <> [].

(** A step that ends normally and keeps [listeningIsLive]. *)
Definition keeps (c : M World unit) (w : World) : Prop :=
  exists w', c w = (Ok tt, w') /\ (listeningIsLive w -> listeningIsLive w').

End SnifferSession.

(* ===================================================================== *)
(** ** ControlPanel: what the buttons allow *)
(* ===================================================================== *)

Module Buttons.
Import JS Types Eff Ble App.
#[local] Open Scope eff_scope.

Definition isConnected (w : World) : bool :=
  match connectionStatus w with CONNECTED => true | _ => false end.

(** The [disabled] attributes of the discovery switch and of the Cast
    Macro button. *)
Definition discoveryDisabled (w : World) : bool := negb (isConnected w).

Definition castMacroDisabled (w : World) : bool :=
  negb (isConnected w) || isOpCodeTestMode w
  || (List.length (macroCommands w) =? 0)%nat.

(** The probe button is rendered while the discovery mode is on. *)
Definition probeShown (w : World) : bool := isOpCodeTestMode w.

(** The colour input of a ChangeLed command: [updateCommand(cmd.id,
    { hexColor: e.target.value.substring(1) })]. *)
Definition colourInput_onChange (id value : jsstring) : M World unit :=
  Builder.updateCommand id
    {| Builder.newHexColor := Some (substringFrom 1 value);
       Builder.newDuration := None |}.

(** The value of a colour input: [#] and six hexadecimal digits. *)
Definition pickerValue (value : jsstring) : bool :=
  match value with
  | 35 :: digits => Spec.isHexColor digits
  | _ => false
  end.

(** An action that changes a colour only as the colour input does. *)
Definition fromPanel (a : Session.Action) : bool :=
  match a with
  | Session.UpdateCommand _ updates =>
      match Builder.newHexColor updates with
      | Some color => Spec.isHexColor color
      | None => true
      end
  | _ => true
  end.

End Buttons.

(* ===================================================================== *)
(** ** Facts about the JavaScript operations *)
(* ===================================================================== *)

Import JS Types Eff Ble.

Lemma toInt32_congr (z : Z) : exists k, toInt32 z = z + 4294967296 * k.
Proof.
  unfold toInt32. cbv zeta.
  pose proof (Z.div_mod z 4294967296 ltac:(lia)) as E.
  destruct (2147483648 <=? z mod 4294967296).
  - exists (- (z / 4294967296) - 1). lia.
  - exists (- (z / 4294967296)). lia.
Qed.

Lemma toInt32_small (z : Z) :
  -2147483648 <= z < 2147483648 -> toInt32 z = z.
Proof.
  intros H. unfold toInt32. cbv zeta.
  destruct (Z.leb_spec 2147483648 (z mod 4294967296)) as [L | L].
  - assert (z < 0) by
      (destruct (Z.lt_ge_cases z 0); [assumption | rewrite Z.mod_small in L; lia]).
    assert (E : z mod 4294967296 = z + 4294967296).
    { symmetry. apply Z.mod_unique with (q := -1); lia. }
    lia.
  - assert (0 <= z).
    { destruct (Z.lt_ge_cases z 0) as [N | N]; [| assumption].
      assert (E : z mod 4294967296 = z + 4294967296).
      { symmetry. apply Z.mod_unique with (q := -1); lia. }
      lia. }
    apply Z.mod_small. lia.
Qed.

(** [x & 0xFF] is the low byte of [x], whatever the size of [x]. *)
Lemma bitand_255 (x : Z) : bitand x 255 = x mod 256.
Proof.
  unfold bitand. rewrite (toInt32_small (z := 255)) by lia.
  change 255 with (Z.ones 8). rewrite Z.land_ones by lia.
  destruct (toInt32_congr x) as [k ->].
  change (2 ^ 8) with 256.
  replace (x + 4294967296 * k) with (x + (16777216 * k) * 256) by lia.
  apply Z.mod_add. lia.
Qed.

(** [(x >> 8) & 0xFF] is the second byte of [x]. *)
Lemma bitand_sar_8 (x : Z) : bitand (sar x 8) 255 = (x / 256) mod 256.
Proof.
  rewrite bitand_255. unfold sar.
  change (8 mod 32) with 8. rewrite Z.shiftr_div_pow2 by lia.
  change (2 ^ 8) with 256.
  destruct (toInt32_congr x) as [k ->].
  replace (x + 4294967296 * k) with (x + (16777216 * k) * 256) by lia.
  rewrite Z.div_add by lia.
  replace (x / 256 + 16777216 * k) with (x / 256 + (65536 * k) * 256) by lia.
  apply Z.mod_add. lia.
Qed.

(** Comparisons on integers, decided from the hypotheses at hand. *)
Ltac zcases :=
  repeat match goal with
  | |- context [Z.leb ?a ?b] => destruct (Z.leb_spec a b); try lia
  | |- context [Z.ltb ?a ?b] => destruct (Z.ltb_spec a b); try lia
  | |- context [Z.eqb ?a ?b] => destruct (Z.eqb_spec a b); try lia
  | H : context [Z.leb ?a ?b] |- _ => destruct (Z.leb_spec a b); try lia
  | H : context [Z.ltb ?a ?b] |- _ => destruct (Z.ltb_spec a b); try lia
  | H : context [Z.eqb ?a ?b] |- _ => destruct (Z.eqb_spec a b); try lia
  end;
  cbn [andb orb negb] in *.

(** Runs the monad's plumbing and the getters and setters of a world
    given by its fields, and nothing else. *)
Ltac run :=
  cbv beta iota zeta delta
      [bind ret get modify await awaitUnit throw tryCatch when
       fst snd exec returns
       App.emit App.setConnectionStatus App.clearInterval App.stopKeepAlive
       App.truthyTimer
       App.connectionStatus App.logs App.opCodes App.macroCommands
       App.isOpCodeTestMode App.opcodeToTest App.deviceRef App.writeCharRef
       App.keepAliveIntervalRef App.intervals App.timeouts App.nextTimer
       App.clockReads App.randomDraws App.writeCount App.trace
       App.with_connectionStatus App.with_logs App.with_opCodes
       App.with_macroCommands App.with_isOpCodeTestMode App.with_opcodeToTest
       App.with_deviceRef App.with_writeCharRef App.with_keepAliveIntervalRef
       App.with_intervals App.with_timeouts App.with_nextTimer
       App.with_clockReads App.with_randomDraws App.with_writeCount
       App.with_trace].

(** Runs the sniffer's plumbing on a world given by its fields. *)
Ltac run_sniffer :=
  cbv beta iota zeta delta
      [bind ret get modify await awaitUnit throw tryCatch when
       fst snd exec returns
       Sniffer.emit Sniffer.setStatus Sniffer.gattConnected
       Sniffer.status Sniffer.logs Sniffer.deviceRef Sniffer.subscribedCharsRef
       Sniffer.timeouts Sniffer.nextTimer Sniffer.clockReads
       Sniffer.randomDraws Sniffer.trace
       Sniffer.with_status Sniffer.with_logs Sniffer.with_deviceRef
       Sniffer.with_subscribedCharsRef Sniffer.with_timeouts
       Sniffer.with_nextTimer Sniffer.with_clockReads
       Sniffer.with_randomDraws Sniffer.with_trace].

Lemma hexDigitValue_range (c v : Z) :
  hexDigitValue c = Some v -> 48 <= c <= 102 /\ 0 <= v <= 15.
Proof.
  unfold hexDigitValue. intros H. zcases; inversion H; lia.
Qed.

Lemma hexDigit_not_space (c v : Z) :
  hexDigitValue c = Some v -> isWhiteSpace c = false.
Proof.
  intros H. apply hexDigitValue_range in H. unfold isWhiteSpace.
  zcases; reflexivity.
Qed.

(** Two hexadecimal digits parse to their value. *)
Lemma parseInt16_two_digits (c1 c2 v1 v2 : Z) :
  hexDigitValue c1 = Some v1 -> hexDigitValue c2 = Some v2 ->
  parseInt16 [c1; c2] = Num (16 * v1 + v2).
Proof.
  intros H1 H2. unfold parseInt16.
  cbn [trimStart]. rewrite (hexDigit_not_space _ H1).
  pose proof (hexDigitValue_range _ H1) as R1.
  pose proof (hexDigitValue_range _ H2) as R2.
  cbn [startsWith].
  assert (E1 : (45 =? c1) = false) by (apply Z.eqb_neq; lia).
  assert (E2 : (43 =? c1) = false) by (apply Z.eqb_neq; lia).
  assert (E3 : (120 =? c2) = false) by (apply Z.eqb_neq; lia).
  assert (E4 : (88 =? c2) = false).
  { apply Z.eqb_neq. intros <-. unfold hexDigitValue in H2.
    cbn in H2. discriminate. }
  rewrite E1, E2. cbn [andb orb].
  rewrite E3, E4. rewrite !andb_false_r. cbn [orb hexPrefix].
  rewrite H1, H2. f_equal. lia.
Qed.

(* ===================================================================== *)
(** ** Encoding a macro *)
(* ===================================================================== *)

Section Encoding.
Import App.

Lemma fold_push_flat_map (codes : OpCodes) (macro : list MacroCommand)
  (acc : list number) :
  fold_left (fun bytes cmd => bytes ++ pushCommand codes cmd) macro acc
  = acc ++ flat_map (pushCommand codes) macro.
Proof.
  revert acc. induction macro as [| cmd rest IH]; intros acc; cbn.
  - now rewrite app_nil_r.
  - rewrite IH. now rewrite <- app_assoc.
Qed.

Lemma fullCommandBytes_flat_map (codes : OpCodes) (macro : list MacroCommand) :
  fullCommandBytes codes macro = flat_map (pushCommand codes) macro.
Proof. unfold fullCommandBytes. now rewrite fold_push_flat_map. Qed.

Lemma pushCommand_length (codes : OpCodes) (cmd : MacroCommand) :
  List.length (pushCommand codes cmd) = Spec.contribution cmd.
Proof. destruct cmd; reflexivity. Qed.

Lemma flat_map_length_sum {A B} (f : A -> list B) (size : A -> nat)
  (l : list A) :
  (forall a, List.length (f a) = size a) ->
  List.length (flat_map f l) = list_sum (map size l).
Proof.
  intros H. induction l as [| a l IH]; cbn; [reflexivity |].
  now rewrite length_app, H, IH.
Qed.

Lemma channel_parse (color : jsstring) :
  Spec.isHexColor color = true ->
  parseInt16 (substring 0 2 color) = Num (Spec.channel 0 color)
  /\ parseInt16 (substring 2 4 color) = Num (Spec.channel 1 color)
  /\ parseInt16 (substring 4 6 color) = Num (Spec.channel 2 color).
Proof.
  unfold Spec.isHexColor. intros H.
  apply andb_prop in H as [L D]. apply Nat.eqb_eq in L.
  destruct color as [| c1 [| c2 [| c3 [| c4 [| c5 [| c6 [| ? ?]]]]]]];
    try discriminate L.
  cbn [forallb] in D.
  destruct (hexDigitValue c1) as [v1 |] eqn:E1; [| discriminate].
  destruct (hexDigitValue c2) as [v2 |] eqn:E2; [| discriminate].
  destruct (hexDigitValue c3) as [v3 |] eqn:E3; [| discriminate].
  destruct (hexDigitValue c4) as [v4 |] eqn:E4; [| discriminate].
  destruct (hexDigitValue c5) as [v5 |] eqn:E5; [| discriminate].
  destruct (hexDigitValue c6) as [v6 |] eqn:E6; [| discriminate].
  unfold Spec.channel, substring;
    cbn [Nat.mul Nat.add Nat.sub skipn firstn nth].
  rewrite E1, E2, E3, E4, E5, E6.
  repeat split; now apply parseInt16_two_digits.
Qed.

(** On a well-formed command the switch of [sendMacro] pushes the byte
    group of the specification. *)
Lemma pushCommand_spec (codes : OpCodes) (cmd : MacroCommand) :
  Spec.wellFormed cmd = true ->
  pushCommand codes cmd = Spec.encodeCommand codes cmd.
Proof.
  destruct cmd as [i | i d | i g color d]; cbn [Spec.wellFormed]; intros W.
  - reflexivity.
  - cbn [pushCommand Spec.encodeCommand].
    now rewrite bitand_255, bitand_sar_8.
  - cbn [pushCommand Spec.encodeCommand].
    rewrite bitand_255, bitand_sar_8.
    destruct (channel_parse color W) as (-> & -> & ->).
    reflexivity.
Qed.

(** A clamped duration that is not negative is the 16-bit value of its
    two bytes, low byte first. *)
Lemma duration_little_endian (d : Z) :
  0 <= d ->
  Spec.lowByte (Spec.clampDuration d)
  + 256 * Spec.highByte (Spec.clampDuration d) = Z.min d 32767.
Proof.
  intros H. unfold Spec.lowByte, Spec.highByte, Spec.clampDuration.
  set (x := Z.min d 32767). assert (0 <= x < 32768) by (unfold x; lia).
  rewrite (Z.mod_small (x / 256)).
  - pose proof (Z.div_mod x 256 ltac:(lia)). lia.
  - split; [apply Z.div_pos; lia | apply Z.div_lt_upper_bound; lia].
Qed.

(** C1. For every macro and every opcode table the encoded bytes are the
    byte groups of the commands, in macro order: one byte for ClearLeds,
    three for Buzz (opcode, then the duration clamped to 32767, low byte
    first), seven for ChangeLed (opcode, group, R, G, B, duration); the
    length is the sum of these sizes; and the macro [ClearLeds,
    Buzz 300, ChangeLed 0 FF00FF 500] under the default table is sent as
    AA BB 2C 01 CC 00 FF 00 FF F4 01. *)
Theorem encode_macro_groups_in_order
  (codes : OpCodes) (macro : list MacroCommand) :
  fullCommandBytes codes macro = flat_map (pushCommand codes) macro
  /\ (forall cmd, List.length (pushCommand codes cmd) = Spec.contribution cmd)
  /\ List.length (fullCommandBytes codes macro)
     = list_sum (map Spec.contribution macro)
  /\ (forallb Spec.wellFormed macro = true ->
      fullCommandBytes codes macro
      = flat_map (Spec.encodeCommand codes) macro)
  /\ (forall i1 i2 i3,
      let scenario :=
        [ClearLedsCommand i1; BuzzCommand i2 300;
         ChangeLedCommand i3 0 (lit "FF00FF") 500] in
      map toUint8 (fullCommandBytes defaultOpCodes scenario)
      = [170; 187; 44; 1; 204; 0; 255; 0; 255; 244; 1]
      /\ join (lit " ") (hexBytes (fullCommandBytes defaultOpCodes scenario))
         = lit "aa bb 2c 01 cc 00 ff 00 ff f4 01").
Proof.
  repeat split.
  - apply fullCommandBytes_flat_map.
  - apply pushCommand_length.
  - rewrite fullCommandBytes_flat_map.
    apply flat_map_length_sum, pushCommand_length.
  - intros W. rewrite fullCommandBytes_flat_map.
    induction macro as [| cmd rest IH]; [reflexivity |].
    cbn [forallb] in W. apply andb_prop in W as [Wc Wr].
    cbn [flat_map]. now rewrite (pushCommand_spec codes cmd Wc), IH.
Qed.

Lemma encode_macro_groups_in_order_witness :
  let macro :=
    [ClearLedsCommand []; BuzzCommand [] 300;
     ChangeLedCommand [] 0 (lit "FF00FF") 500] in
  forallb Spec.wellFormed macro = true
  /\ fullCommandBytes defaultOpCodes macro
     = flat_map (Spec.encodeCommand defaultOpCodes) macro.
Proof.
  cbv zeta. split; [reflexivity |].
  apply (encode_macro_groups_in_order defaultOpCodes
           [ClearLedsCommand []; BuzzCommand [] 300;
            ChangeLedCommand [] 0 (lit "FF00FF") 500]).
  reflexivity.
Defined.

End Encoding.

(* ===================================================================== *)
(** ** Decoding a notification *)
(* ===================================================================== *)

Section Decoding.
Import App.

Lemma join_nil_concat (parts : list jsstring) : join [] parts = List.concat parts.
Proof.
  induction parts as [| p [| q rest] IH]; cbn; [reflexivity | | ].
  - now rewrite app_nil_r.
  - cbn in IH. now rewrite IH.
Qed.

Lemma byte_in_range (b : Z) :
  Spec.isByte b = true -> In b (map Z.of_nat (seq 0 256)).
Proof.
  unfold Spec.isByte. intros H. apply andb_prop in H as [L U].
  apply Z.leb_le in L. apply Z.ltb_lt in U.
  apply in_map_iff. exists (Z.to_nat b). split; [lia |].
  apply in_seq. lia.
Qed.

(** A byte prints as exactly two lower-case hexadecimal digits. *)
Lemma byte_two_hex_digits (b : Z) :
  Spec.isByte b = true ->
  padStart0 2 (toString16 (Num b))
  = [hexDigitChar (b / 16); hexDigitChar (b mod 16)].
Proof.
  intros H. apply byte_in_range in H.
  assert (A : forallb Spec.twoHexDigitsOk (map Z.of_nat (seq 0 256)) = true)
    by (vm_compute; reflexivity).
  rewrite forallb_forall in A. specialize (A b H).
  unfold Spec.twoHexDigitsOk in A.
  destruct (list_eq_dec Z.eq_dec _ _) as [E | _]; [exact E | discriminate].
Qed.

Lemma rawHex_hexDump (payload : list Z) :
  forallb Spec.isByte payload = true ->
  join [] (hexBytes (map Num payload)) = Spec.hexDump payload.
Proof.
  intros H. rewrite join_nil_concat. unfold hexBytes, Spec.hexDump.
  rewrite map_map. rewrite flat_map_concat_map. f_equal.
  apply map_ext_in. intros b Hb.
  apply byte_two_hex_digits.
  rewrite forallb_forall in H. now apply H.
Qed.

(** What [addLog] does to the world. *)
Lemma addLog_run (host : Host) ty msg dat (w : World) :
  exists entry,
    addLog host ty msg dat w
    = (Ok tt, with_logs (logs w ++ [entry])
                (with_clockReads (S (S (clockReads w)))
                   (with_randomDraws (S (randomDraws w)) w)))
    /\ type entry = ty /\ message entry = msg /\ data entry = dat
    /\ id entry = numberAdd (inject_Z (dateNow host (clockReads w)))
                     (mathRandom host (randomDraws w)).
Proof. eexists. unfold addLog, modify. repeat split. Qed.

(** [handleNotifications] either logs the spell it found or the raw dump. *)
Lemma handleNotifications_run (host : Host) (payload : list Z) (w : World) :
  handleNotifications host (Some payload) w
  = match Spec.spellNameWith (textDecoder host) payload with
    | Some spellName =>
        addLog host SPELL
          (spellPrefix ++ toUpperCase (unicodeUpper host) spellName)
          (Some (lit "RAW: " ++ join [] (hexBytes (map Num payload)))) w
    | None =>
        addLog host RAW (lit "Raw Wand Data")
          (Some (join [] (hexBytes (map Num payload)))) w
    end.
Proof.
  unfold handleNotifications, Spec.spellNameWith.
  change SPELL_MIN_LEN with 7%nat. change SPELL_DATA_HEADER_LEN with 4%nat.
  unfold bind at 1.
  destruct (7 <=? List.length payload)%nat; [| reflexivity].
  unfold tryCatch, bind at 1, await.
  destruct (textDecoder host (skipn 4 payload)) as [decoded | e];
    [| reflexivity].
  destruct (removeNul (trim decoded)) as [| c r]; [reflexivity |].
  unfold bind, ret.
  destruct (addLog_run host SPELL
              (spellPrefix ++ toUpperCase (unicodeUpper host) (c :: r))
              (Some (lit "RAW: " ++ join [] (hexBytes (map Num payload)))) w)
    as (entry & -> & _).
  reflexivity.
Qed.

(** The program's string operations do what the words above say. *)
Lemma blank_isWhiteSpace (c : Z) : Spec.blank c = isWhiteSpace c.
Proof.
  assert (R1 : (9 <=? c) && (c <=? 13)
               = (c =? 9) || ((c =? 10) || ((c =? 11)
                 || ((c =? 12) || (c =? 13)))))
    by (zcases; reflexivity).
  assert (R2 : (8192 <=? c) && (c <=? 8202)
               = (c =? 8192) || ((c =? 8193) || ((c =? 8194)
                 || ((c =? 8195) || ((c =? 8196) || ((c =? 8197)
                 || ((c =? 8198) || ((c =? 8199) || ((c =? 8200)
                 || ((c =? 8201) || (c =? 8202)))))))))))
    by (zcases; reflexivity).
  unfold Spec.blank, Spec.whiteSpace, isWhiteSpace. cbn [existsb].
  rewrite R1, R2, orb_false_r, <- !orb_assoc. reflexivity.
Qed.

Lemma dropWhile_trimStart (s : jsstring) :
  Spec.dropWhile Spec.blank s = trimStart s.
Proof.
  induction s as [| c r IH]; [reflexivity |].
  cbn [Spec.dropWhile trimStart]. rewrite blank_isWhiteSpace, IH.
  reflexivity.
Qed.

Lemma dropEnds_trim (s : jsstring) : Spec.dropEnds Spec.blank s = trim s.
Proof.
  unfold Spec.dropEnds, trim, trimEnd. now rewrite !dropWhile_trimStart.
Qed.

Lemma withoutNul_removeNul (s : jsstring) : Spec.withoutNul s = removeNul s.
Proof.
  induction s as [| c r IH]; [reflexivity |].
  unfold Spec.withoutNul, removeNul in *. cbn [fold_right filter].
  rewrite IH. now destruct (c =? 0).
Qed.

Lemma spellText_code (payload : list Z) :
  Spec.spellText payload
  = removeNul (trim (TextDecoder_decode (skipn 4 payload))).
Proof.
  unfold Spec.spellText. now rewrite dropEnds_trim, withoutNul_removeNul.
Qed.

Lemma upperAscii_asciiUpper (c : Z) : Spec.upperAscii c = asciiUpper c.
Proof.
  unfold Spec.upperAscii, asciiUpper.
  change (lit "abcdefghijklmnopqrstuvwxyz") with (map Z.of_nat (seq 97 26)).
  destruct (existsb (Z.eqb c) (map Z.of_nat (seq 97 26))) eqn:E.
  - apply existsb_exists in E as (y & In & Eq). apply Z.eqb_eq in Eq. subst y.
    apply in_map_iff in In as (n & <- & In). apply in_seq in In.
    destruct (Z.leb_spec 97 (Z.of_nat n)); [| lia].
    destruct (Z.leb_spec (Z.of_nat n) 122); [reflexivity | lia].
  - destruct (Z.leb_spec 97 c); [| reflexivity].
    destruct (Z.leb_spec c 122); [| reflexivity].
    exfalso. enough (T : existsb (Z.eqb c) (map Z.of_nat (seq 97 26)) = true)
      by congruence.
    apply existsb_exists. exists c. split; [| apply Z.eqb_refl].
    apply in_map_iff. exists (Z.to_nat c). split; [lia |]. apply in_seq. lia.
Qed.

Lemma upperCase_toUpperCase (up : Z -> list Z) (s : jsstring) :
  Spec.upperCase up s = toUpperCase up s.
Proof.
  unfold Spec.upperCase, toUpperCase. f_equal.
  apply flat_map_ext. intros cp. unfold upperCodePoint.
  now rewrite upperAscii_asciiUpper.
Qed.

Lemma handleNotifications_decode
  (host : Host) (payload : list Z) (w : World) :
  forallb Spec.isByte payload = true ->
  let run := handleNotifications (withStandardDecoder host) (Some payload) in
  returns run w = true
  /\ exists entry,
       logs (exec run w) = logs w ++ [entry]
       /\ Spec.logged (Spec.Decode (unicodeUpper host) payload) entry.
Proof.
  intros B run. subst run. unfold returns, exec.
  rewrite handleNotifications_run.
  assert (E : Spec.spellNameWith (textDecoder (withStandardDecoder host)) payload
              = if (7 <=? List.length payload)%nat
                   && Spec.nonEmpty (Spec.spellText payload)
                then Some (Spec.spellText payload) else None).
  { rewrite spellText_code.
    unfold Spec.spellNameWith. cbn [textDecoder withStandardDecoder].
    unfold standardTextDecoder.
    destruct (7 <=? List.length payload)%nat; [| reflexivity].
    now destruct (removeNul _). }
  rewrite E. unfold Spec.Decode. rewrite upperCase_toUpperCase.
  cbn [unicodeUpper withStandardDecoder].
  rewrite <- (rawHex_hexDump payload B).
  destruct ((7 <=? List.length payload)%nat
            && Spec.nonEmpty (Spec.spellText payload)).
  - destruct (addLog_run (withStandardDecoder host) SPELL
                (spellPrefix ++ toUpperCase (unicodeUpper host)
                                  (Spec.spellText payload))
                (Some (lit "RAW: " ++ join [] (hexBytes (map Num payload)))) w)
      as (entry & -> & T & Msg & D & _).
    split; [reflexivity |].
    exists entry. cbn. repeat split; assumption.
  - destruct (addLog_run (withStandardDecoder host) RAW (lit "Raw Wand Data")
                (Some (join [] (hexBytes (map Num payload)))) w)
      as (entry & -> & T & Msg & D & _).
    split; [reflexivity |].
    exists entry. cbn. repeat split; assumption.
Qed.

(** As the claim C2 is worded it fails on payloads that mix NULs and
    white space.  The program trims white space first and deletes every
    NUL after, wherever it stands.  So 00 00 00 00 00 20 00, whose text
    is nothing but padding and white space, is logged as a spell named by
    one blank where the specification has raw data; 00 00 00 00 66 69 20
    00 00 is logged as the spell FI followed by a blank, the blank being
    shielded from the trim by the NUL padding, where the specification
    has FI; and 00 00 00 00 66 69 00 72 65 is logged as the spell FIRE,
    the NUL inside the name deleted, where the specification keeps it. *)
Lemma notification_classified_counterexample :
  let handle := handleNotifications (withStandardDecoder Sample.host) in
  let specified := Spec.DecodeAsSpecified (unicodeUpper Sample.host) in
  ~ (exists entry,
       logs (exec (handle (Some [0; 0; 0; 0; 0; 32; 0])) initialWorld)
       = [entry]
       /\ Spec.logged (specified [0; 0; 0; 0; 0; 32; 0]) entry)
  /\ specified [0; 0; 0; 0; 0; 32; 0] = Spec.Raw (lit "00000000002000")
  /\ (exists entry,
        logs (exec (handle (Some [0; 0; 0; 0; 0; 32; 0])) initialWorld)
        = [entry]
        /\ type entry = SPELL /\ message entry = spellPrefix ++ lit " ")
  /\ specified [0; 0; 0; 0; 102; 105; 32; 0; 0]
     = Spec.Spell (lit "FI") (lit "000000006669200000")
  /\ (exists entry,
        logs (exec (handle (Some [0; 0; 0; 0; 102; 105; 32; 0; 0]))
                initialWorld) = [entry]
        /\ type entry = SPELL /\ message entry = spellPrefix ++ lit "FI ")
  /\ specified [0; 0; 0; 0; 102; 105; 0; 114; 101]
     = Spec.Spell [70; 73; 0; 82; 69] (lit "000000006669007265")
  /\ (exists entry,
        logs (exec (handle (Some [0; 0; 0; 0; 102; 105; 0; 114; 101]))
                initialWorld) = [entry]
        /\ type entry = SPELL /\ message entry = spellPrefix ++ lit "FIRE").
Proof.
  cbv zeta.
  split; [| split; [vm_compute; reflexivity |]].
  - intros (entry & E & L).
    vm_compute in E. injection E as <-.
    destruct L as (T & _). vm_compute in T. discriminate T.
  - split; [eexists; split; [reflexivity |]; split; vm_compute; reflexivity |].
    split; [vm_compute; reflexivity |].
    split; [eexists; split; [reflexivity |]; split; vm_compute; reflexivity |].
    split; [vm_compute; reflexivity |].
    eexists; split; [reflexivity |]; split; vm_compute; reflexivity.
Qed.

(** C2, amended. A payload of at least 7 bytes is logged as a spell when
    the text of its bytes[4:] is not empty, the text being the bytes
    decoded as UTF-8, white space dropped from both ends and then every
    NUL deleted, wherever it stands: the name is that text in upper case
    and the hex dump of the whole payload is attached.  Any other payload
    is logged as raw data with the hex dump of the whole payload.  So
    00 00 00 00 46 49 52 45 is logged as the spell FIRE and 01 02 as raw
    data 0102; a blank, fire in lower case and two NULs after the header
    give the spell FIRE; white space that NULs shield from the trim is
    kept (a blank between two NULs is the spell of one blank, FI blank
    NUL NUL the spell FI blank), a NUL inside a name is deleted, and a
    blank followed by NULs alone is raw data. *)
Theorem notification_classified
  (host : Host) (payload : list Z) (w : World) :
  forallb Spec.isByte payload = true ->
  let handle := handleNotifications (withStandardDecoder host) in
  let shows p ty msg dat :=
    exists entry,
      logs (exec (handle (Some p)) w) = logs w ++ [entry]
      /\ type entry = ty /\ message entry = msg /\ data entry = Some dat in
  returns (handle (Some payload)) w = true
  /\ (exists entry,
        logs (exec (handle (Some payload)) w) = logs w ++ [entry]
        /\ Spec.logged (Spec.Decode (unicodeUpper host) payload) entry)
  /\ shows [0; 0; 0; 0; 70; 73; 82; 69]
       SPELL (spellPrefix ++ lit "FIRE") (lit "RAW: 0000000046495245")
  /\ shows [1; 2] RAW (lit "Raw Wand Data") (lit "0102")
  /\ shows [0; 0; 0; 0; 32; 102; 105; 114; 101; 0; 0]
       SPELL (spellPrefix ++ lit "FIRE") (lit "RAW: 0000000020666972650000")
  /\ shows [0; 0; 0; 0; 0; 32; 0]
       SPELL (spellPrefix ++ lit " ") (lit "RAW: 00000000002000")
  /\ shows [0; 0; 0; 0; 102; 105; 32; 0; 0]
       SPELL (spellPrefix ++ lit "FI ") (lit "RAW: 000000006669200000")
  /\ shows [0; 0; 0; 0; 102; 105; 0; 114; 101]
       SPELL (spellPrefix ++ lit "FIRE") (lit "RAW: 000000006669007265")
  /\ shows [0; 0; 0; 0; 32; 0; 0]
       RAW (lit "Raw Wand Data") (lit "00000000200000").
Proof.
  intros B handle shows. subst handle shows. cbv beta.
  destruct (handleNotifications_decode host payload w B) as [R L].
  split; [exact R |]. split; [exact L |].
  assert (Ex : forall p,
            forallb Spec.isByte p = true ->
            exists entry,
              logs (exec (handleNotifications (withStandardDecoder host)
                            (Some p)) w) = logs w ++ [entry]
              /\ Spec.logged (Spec.Decode (unicodeUpper host) p) entry).
  { intros p Bp. now destruct (handleNotifications_decode host p w Bp). }
  repeat split;
    match goal with
    | |- exists _, logs (exec (_ (Some ?p)) _) = _ /\ _ =>
        destruct (Ex p eq_refl) as (entry & E & S);
        exists entry; split; [exact E | exact S]
    end.
Qed.

(** What the order of the two strippings does, told of Decode. *)
Example notification_strip_order (host : Host) :
  Spec.Decode (unicodeUpper host) [0; 0; 0; 0; 0; 32; 0]
  = Spec.Spell (lit " ") (lit "00000000002000")
  /\ Spec.Decode (unicodeUpper host) [0; 0; 0; 0; 32; 0; 0]
     = Spec.Raw (lit "00000000200000")
  /\ Spec.Decode (unicodeUpper host) [0; 0; 0; 0; 102; 105; 0; 114; 101]
     = Spec.Spell (lit "FIRE") (lit "000000006669007265")
  /\ Spec.Decode (unicodeUpper host) [0; 0; 0; 0; 102; 105; 32; 0; 0]
     = Spec.Spell (lit "FI ") (lit "000000006669200000").
Proof. repeat split. Qed.

Lemma notification_classified_witness :
  forallb Spec.isByte [0; 0; 0; 0; 32; 102; 105; 114; 101; 0; 0] = true
  /\ exists entry,
       logs (exec (handleNotifications (withStandardDecoder Sample.host)
                     (Some [0; 0; 0; 0; 32; 102; 105; 114; 101; 0; 0]))
               initialWorld) = [entry]
       /\ type entry = SPELL
       /\ message entry = spellPrefix ++ lit "FIRE".
Proof.
  split; [reflexivity |].
  destruct (notification_classified Sample.host
              [0; 0; 0; 0; 32; 102; 105; 114; 101; 0; 0]
              initialWorld eq_refl) as (_ & (entry & E & T & M & _) & _).
  exists entry. split; [exact E |]. split; [exact T | exact M].
Defined.



End Decoding.

(* ===================================================================== *)
(** ** Sending: one write, then the chunk loop *)
(* ===================================================================== *)

Section Sending.
Import App.

Variable host : Host.

(** What [sendData] leaves behind when the write characteristic is bound:
    one write is issued, its failure (if any) is logged, and nothing else
    of the state moves. *)
Lemma sendData_bound (chunk : list Z) (w : World) (c : Characteristic) :
  writeCharRef w = Some c ->
  exists ok w',
    sendData host chunk w = (Ok tt, w')
    /\ trace w' = trace w ++ [EvWrite chunk ok]
    /\ writeCharRef w' = Some c
    /\ opcodeToTest w' = opcodeToTest w
    /\ isOpCodeTestMode w' = isOpCodeTestMode w
    /\ opCodes w' = opCodes w
    /\ macroCommands w' = macroCommands w.
Proof.
  intros B. unfold sendData, bind at 1, get. rewrite B.
  unfold tryCatch, write, bind, get, modify, emit, awaitUnit. cbn.
  destruct (writeValueWithoutResponse c (writeCount w) chunk) as [e |].
  - do 2 eexists. unfold addLog, modify. cbn. repeat split. exact B.
  - do 2 eexists. repeat split. exact B.
Qed.

(** Without a write characteristic [sendData] writes nothing. *)
Lemma sendData_unbound (chunk : list Z) (w : World) :
  writeCharRef w = None ->
  exists w',
    sendData host chunk w = (Ok tt, w')
    /\ trace w' = trace w
    /\ writeCharRef w' = None
    /\ opcodeToTest w' = opcodeToTest w
    /\ isOpCodeTestMode w' = isOpCodeTestMode w.
Proof.
  intros B. unfold sendData, bind at 1, get. rewrite B.
  eexists. unfold addLog, modify. cbn. repeat split. exact B.
Qed.

Lemma chunkSizes_step (n : nat) :
  (0 < n)%nat ->
  Spec.chunkSizes n = Nat.min 20 n :: Spec.chunkSizes (n - 20).
Proof.
  intros P. unfold Spec.chunkSizes.
  destruct (Nat.lt_ge_cases n 20) as [S | L].
  - rewrite (Nat.div_small n 20), (Nat.mod_small n 20) by assumption.
    replace (n - 20)%nat with 0%nat by lia. cbn [repeat app].
    destruct (Nat.eqb_spec n 0); [lia |].
    rewrite Nat.min_r by lia. reflexivity.
  - assert (D : (n / 20 = S ((n - 20) / 20))%nat).
    { replace n with ((n - 20) + 1 * 20)%nat at 1 by lia.
      rewrite Nat.div_add by lia. lia. }
    assert (R : (n mod 20 = (n - 20) mod 20)%nat).
    { replace n with ((n - 20) + 1 * 20)%nat at 1 by lia.
      apply Nat.Div0.mod_add. }
    rewrite D, R. rewrite Nat.min_l by lia. reflexivity.
Qed.

(** The loop of [sendMacro] from index [i]: the writes it issues are the
    slices of at most 20 bytes of the rest of the array, in order, each
    followed by the 20 ms delay. *)
Lemma sendChunks_from (bytes : list number) (i : nat) :
  forall (w : World) (c : Characteristic),
    writeCharRef w = Some c ->
    exists tr w',
      sendChunks host bytes i w = (Ok tt, w')
      /\ trace w' = trace w ++ tr
      /\ List.concat (Spec.writesOf tr) = map toUint8 (skipn i bytes)
      /\ map (@List.length Z) (Spec.writesOf tr)
         = Spec.chunkSizes (List.length bytes - i)
      /\ Spec.paced 20 tr = true.
Proof.
  funelim (sendChunks host bytes i); intros w c B.
  - destruct (sendData_bound
                (map toUint8 (firstn MTU_PAYLOAD_SIZE (skipn i bytes))) w B)
      as (ok & w1 & R1 & T1 & B1 & _).
    set (w2 := with_trace (trace w1 ++ [EvDelay 20]) w1).
    destruct (H tt tt w1 w2 c B1) as (tr & w' & R & T & C & S & P).
    exists (EvWrite (map toUint8 (firstn MTU_PAYLOAD_SIZE (skipn i bytes))) ok
              :: EvDelay 20 :: tr), w'.
    split; [| split; [| split; [| split]]].
    + unfold bind at 1. rewrite R1.
      unfold bind at 1, delay, emit, modify. fold w2. exact R.
    + rewrite T. unfold w2. cbn [trace with_trace]. rewrite T1.
      now rewrite <- !app_assoc.
    + cbn [Spec.writesOf List.concat]. rewrite C.
      rewrite <- map_app. f_equal.
      rewrite Nat.add_comm, <- skipn_skipn. apply firstn_skipn.
    + cbn [Spec.writesOf map]. rewrite S.
      rewrite length_map, length_firstn, length_skipn.
      rewrite (chunkSizes_step (n := List.length bytes - i)) by lia.
      unfold MTU_PAYLOAD_SIZE. f_equal. f_equal. lia.
    + cbn [Spec.paced]. rewrite P. reflexivity.
  - exists [], w. rewrite app_nil_r.
    rewrite skipn_all2 by lia.
    replace (List.length bytes - i)%nat with 0%nat by lia.
    repeat split.
Qed.

Lemma chunkSizes_bounds (n : nat) :
  Forall (fun k => (1 <= k <= 20)%nat) (Spec.chunkSizes n).
Proof.
  unfold Spec.chunkSizes. apply Forall_app. split.
  - apply Forall_forall. intros k K. apply repeat_spec in K. lia.
  - destruct (Nat.eqb_spec (n mod 20) 0); constructor; [| constructor].
    pose proof (Nat.mod_upper_bound n 20). lia.
Qed.

End Sending.

Section Chunking.
Import App.

(** [sendMacro] with the write characteristic bound: after the log entry,
    the chunk loop runs over the encoded bytes from index 0. *)
Lemma sendMacro_run (host : Host) (w : World) (c : Characteristic) :
  writeCharRef w = Some c ->
  let bytes := fullCommandBytes (opCodes w) (macroCommands w) in
  exists tr w',
    sendMacro host w = (Ok tt, w')
    /\ trace w' = trace w ++ tr
    /\ List.concat (Spec.writesOf tr) = map toUint8 bytes
    /\ map (@List.length Z) (Spec.writesOf tr)
       = Spec.chunkSizes (List.length bytes)
    /\ Spec.paced 20 tr = true.
Proof.
  intros B bytes. unfold sendMacro, bind at 1, get.
  destruct (macroCommands w) as [| cmd rest] eqn:E.
  - exists [], w. subst bytes. cbn. rewrite app_nil_r.
    repeat split.
  - fold bytes. unfold bind at 1.
    destruct (addLog_run host COMMAND (lit "Sending VFX Macro...")
                (Some (lit "Bytes: " ++ join (lit " ") (hexBytes bytes))) w)
      as (entry & -> & _).
    match goal with |- context [sendChunks host bytes 0 ?w1] =>
      destruct (sendChunks_from host bytes 0 w1 B)
        as (tr & w' & R & T & C & S & P)
    end.
    exists tr, w'. rewrite Nat.sub_0_r in S. cbn [skipn] in C.
    repeat split; assumption.
Qed.

(** C3. The chunk loop of [sendMacro] writes the encoded bytes as
    consecutive chunks of at most 20 bytes: the chunks written, joined in
    the order they are written, are the encoded bytes; every write is
    followed by the 20 ms delay before the next one is issued; and 45
    bytes go out as chunks of 20, 20 and 5 bytes. *)
Theorem macro_sent_in_chunks (host : Host) (w : World) (c : Characteristic) :
  writeCharRef w = Some c ->
  let bytes := fullCommandBytes (opCodes w) (macroCommands w) in
  returns (sendMacro host) w = true
  /\ exists tr,
       trace (exec (sendMacro host) w) = trace w ++ tr
       /\ List.concat (Spec.writesOf tr) = map toUint8 bytes
       /\ Forall (fun chunk => (1 <= List.length chunk <= 20)%nat)
            (Spec.writesOf tr)
       /\ map (@List.length Z) (Spec.writesOf tr)
          = Spec.chunkSizes (List.length bytes)
       /\ Spec.paced 20 tr = true
       /\ (List.length bytes = 45%nat ->
           map (@List.length Z) (Spec.writesOf tr) = [20; 20; 5]%nat).
Proof.
  intros B bytes.
  destruct (sendMacro_run host w B) as (tr & w' & R & T & C & S & P).
  fold bytes in C, S. unfold returns, exec. rewrite R. cbn [fst snd].
  split; [reflexivity |]. exists tr.
  split; [exact T |]. split; [exact C |]. split; [| split; [exact S |]].
  - pose proof (chunkSizes_bounds (List.length bytes)) as F.
    rewrite <- S in F. rewrite Forall_map in F. exact F.
  - split; [exact P |]. intros L. rewrite S, L. reflexivity.
Qed.

Lemma macro_sent_in_chunks_witness :
  writeCharRef Sample.boundWorld = Some Sample.writeChar
  /\ exists tr,
       trace (exec (sendMacro Sample.host) Sample.boundWorld) = tr
       /\ map (@List.length Z) (Spec.writesOf tr) = [20; 20; 5]%nat.
Proof.
  split; [reflexivity |].
  destruct (macro_sent_in_chunks Sample.host Sample.boundWorld
              (c := Sample.writeChar) eq_refl)
    as (_ & tr & T & _ & _ & _ & _ & L).
  exists tr. split; [exact T | apply L; reflexivity].
Defined.

End Chunking.

(* ===================================================================== *)
(** ** Opcode discovery *)
(* ===================================================================== *)

Section Discovery.
Import App.

Variable host : Host.

(** A probe step while the counter is at most 0xFF: the counter's value
    is written as a single byte and the counter moves on by one. *)
Lemma testNextOpCode_probe (w : World) (c : Characteristic) :
  writeCharRef w = Some c ->
  0 <= opcodeToTest w <= 255 ->
  exists ok w',
    testNextOpCode host w = (Ok tt, w')
    /\ trace w' = trace w ++ [EvWrite [opcodeToTest w] ok]
    /\ opcodeToTest w' = opcodeToTest w + 1
    /\ isOpCodeTestMode w' = isOpCodeTestMode w
    /\ writeCharRef w' = Some c.
Proof.
  intros B R. unfold testNextOpCode, bind at 1, get.
  destruct (Z.ltb_spec 255 (opcodeToTest w)) as [G | _]; [lia |].
  unfold bind at 1.
  match goal with |- context [addLog host ?t ?m ?d w] =>
    destruct (addLog_run host t m d w) as (entry & -> & _) end.
  unfold bind at 1.
  match goal with |- context [sendData host ?ch ?w1] =>
    destruct (sendData_bound host ch w1 B)
      as (ok & w2 & -> & T & B2 & O & Md & _) end.
  exists ok, (with_opcodeToTest (opcodeToTest w2 + 1) w2).
  unfold modify. cbn [opcodeToTest with_opcodeToTest trace isOpCodeTestMode
                      writeCharRef].
  cbn [toUint8] in T. rewrite Z.mod_small in T by lia.
  cbn in O, Md, T. rewrite O.
  repeat split; assumption.
Qed.

(** The step that finds the counter above 0xFF: nothing is written, the
    mode is switched off and the counter goes back to 0x01. *)
Lemma testNextOpCode_finish (w : World) :
  255 < opcodeToTest w ->
  exists w',
    testNextOpCode host w = (Ok tt, w')
    /\ trace w' = trace w
    /\ opcodeToTest w' = 1
    /\ isOpCodeTestMode w' = false.
Proof.
  intros G. unfold testNextOpCode, bind at 1, get.
  destruct (Z.ltb_spec 255 (opcodeToTest w)) as [_ | L]; [| lia].
  eexists. unfold bind, addLog, modify. cbn. repeat split.
Qed.

(** [k] probe steps in a row that stay within the range: the bytes
    written are the successive values of the counter. *)
Lemma probe_steps (k : nat) :
  forall (w : World) (c : Characteristic),
    writeCharRef w = Some c ->
    0 <= opcodeToTest w ->
    opcodeToTest w + Z.of_nat k <= 256 ->
    exists tr w',
      repeatM k (testNextOpCode host) w = (Ok tt, w')
      /\ trace w' = trace w ++ tr
      /\ Spec.writesOf tr
         = map (fun j => [opcodeToTest w + Z.of_nat j]) (seq 0 k)
      /\ List.length tr = k
      /\ opcodeToTest w' = opcodeToTest w + Z.of_nat k
      /\ isOpCodeTestMode w' = isOpCodeTestMode w
      /\ writeCharRef w' = Some c.
Proof.
  induction k as [| k IH]; intros w c B P U.
  - exists [], w. cbn [repeatM]. unfold ret. rewrite app_nil_r.
    repeat split; [lia | exact B].
  - destruct (testNextOpCode_probe w B ltac:(lia))
      as (ok & w1 & R1 & T1 & O1 & M1 & B1).
    destruct (IH w1 c B1 ltac:(lia) ltac:(lia))
      as (tr & w' & R & T & Wr & L & O' & M' & B').
    exists (EvWrite [opcodeToTest w] ok :: tr), w'.
    cbn [repeatM]. unfold bind at 1. rewrite R1.
    split; [exact R |]. split; [| split; [| split; [| split; [| split]]]].
    + rewrite T, T1. now rewrite <- app_assoc.
    + cbn [Spec.writesOf seq map]. rewrite Wr, O1.
      f_equal; [f_equal; lia |].
      rewrite <- seq_shift, map_map. apply map_ext. intros j. f_equal. lia.
    + cbn [List.length]. now rewrite L.
    + lia.
    + congruence.
    + exact B'.
Qed.

Lemma repeatM_succ_r {W} (c : M W unit) (k : nat) :
  forall w w1,
    repeatM k c w = (Ok tt, w1) -> repeatM (S k) c w = c w1.
Proof.
  induction k as [| k IH]; intros w w1 R.
  - cbn in R. inversion R. cbn. unfold bind.
    destruct (c w1) as [[[] | e] w2]; reflexivity.
  - cbn [repeatM] in R. unfold bind at 1 in R.
    destruct (c w) as [[[] | e] w2] eqn:E; [| discriminate].
    change (repeatM (S (S k)) c w) with (bind c (fun _ => repeatM (S k) c) w).
    unfold bind at 1. rewrite E. now apply IH.
Qed.

(** C4. In discovery mode entered with the counter at 0x01, the N-th
    probe step, for N from 1 to 255, writes the single byte N and moves
    the counter to N + 1, the mode staying on; after 255 steps the counter
    is 0x100, above 0xFF, and the 256th call writes nothing, switches the
    mode off and puts the counter back to 0x01. *)
Theorem opcode_discovery_sequence (w0 : World) (c : Characteristic) :
  writeCharRef w0 = Some c ->
  opcodeToTest w0 = 1 ->
  isOpCodeTestMode w0 = true ->
  let step := testNextOpCode host in
  (forall N : nat, (1 <= N <= 255)%nat ->
     let before := exec (repeatM (N - 1) step) w0 in
     let after := exec step before in
     opcodeToTest before = Z.of_nat N
     /\ isOpCodeTestMode before = true
     /\ (exists ok, trace after = trace before ++ [EvWrite [Z.of_nat N] ok])
     /\ opcodeToTest after = Z.of_nat N + 1
     /\ isOpCodeTestMode after = true
     /\ after = exec (repeatM N step) w0)
  /\ (let w255 := exec (repeatM 255 step) w0 in
      let w256 := exec (repeatM 256 step) w0 in
      opcodeToTest w255 = 256
      /\ isOpCodeTestMode w255 = true
      /\ (exists tr, trace w255 = trace w0 ++ tr
                     /\ Spec.writesOf tr = map (fun j => [Z.of_nat j]) (seq 1 255))
      /\ w256 = exec step w255
      /\ trace w256 = trace w255
      /\ isOpCodeTestMode w256 = false
      /\ opcodeToTest w256 = 1)
  /\ (let activated := exec ControlPanel.toggleOpCodeTestMode initialWorld in
      isOpCodeTestMode activated = true /\ opcodeToTest activated = 1).
Proof.
  intros B O Md step. subst step. split; [| split].
  - intros N R before after. subst before after. unfold exec.
    destruct N as [| n]; [lia |].
    replace (S n - 1)%nat with n by lia.
    destruct (probe_steps n w0 B ltac:(lia) ltac:(lia))
      as (tr & w1 & R1 & T1 & _ & _ & O1 & M1 & B1).
    rewrite (repeatM_succ_r _ _ _ R1).
    rewrite R1. cbn [snd].
    destruct (testNextOpCode_probe w1 B1 ltac:(lia))
      as (ok & w2 & -> & T2 & O2 & M2 & _).
    cbn [snd]. rewrite O1, O in *.
    replace (1 + Z.of_nat n) with (Z.of_nat (S n)) in * by lia.
    repeat split; try congruence.
    exists ok. exact T2.
  - cbv zeta. unfold exec.
    destruct (probe_steps 255 w0 B ltac:(lia) ltac:(lia))
      as (tr & w1 & R1 & T1 & Wr & _ & O1 & M1 & B1).
    rewrite (repeatM_succ_r _ _ _ R1). rewrite R1. cbn [snd].
    destruct (testNextOpCode_finish w1 ltac:(lia)) as (w2 & -> & T2 & O2 & M2).
    cbn [snd]. rewrite O in *.
    repeat split; try congruence; try lia.
    exists tr. split; [exact T1 |]. rewrite Wr.
    rewrite <- seq_shift, map_map. apply map_ext. intros j. f_equal. lia.
  - split; reflexivity.
Qed.

End Discovery.

Lemma opcode_discovery_sequence_witness :
  App.writeCharRef Sample.probingWorld = Some Sample.writeChar
  /\ App.opcodeToTest Sample.probingWorld = 1
  /\ App.isOpCodeTestMode Sample.probingWorld = true
  /\ App.opcodeToTest
       (exec (repeatM 256 (App.testNextOpCode Sample.host)) Sample.probingWorld)
     = 1.
Proof.
  split; [reflexivity |]. split; [reflexivity |]. split; [reflexivity |].
  apply (opcode_discovery_sequence Sample.host Sample.probingWorld
           (c := Sample.writeChar) eq_refl eq_refl eq_refl).
Defined.

(* ===================================================================== *)
(** ** The telemetry logs *)
(* ===================================================================== *)

Section Telemetry.

Lemma sliceLast_suffix {A} (n : nat) (l : list A) :
  firstn (List.length l - n) l ++ Sniffer.sliceLast n l = l.
Proof. unfold Sniffer.sliceLast. apply firstn_skipn. Qed.

Lemma sliceLast_length {A} (n : nat) (l : list A) :
  List.length (Sniffer.sliceLast n l) = Nat.min n (List.length l).
Proof. unfold Sniffer.sliceLast. rewrite length_skipn. lia. Qed.

(** Three appends to the controller's log in a row. *)
Lemma three_appends (host : Host) :
  map id
    (App.logs
       (exec (bind (App.addLog host INFO (lit "first") None)
                (fun _ =>
                   bind (App.addLog host INFO (lit "second") None)
                     (fun _ => App.addLog host INFO (lit "third") None)))
          App.initialWorld))
  = [numberAdd (inject_Z (dateNow host 0%nat)) (mathRandom host 0%nat);
     numberAdd (inject_Z (dateNow host 2%nat)) (mathRandom host 1%nat);
     numberAdd (inject_Z (dateNow host 4%nat)) (mathRandom host 2%nat)].
Proof. reflexivity. Qed.

(** As the claim C5 is worded it fails.  A controller log of 200 entries
    grows to 201 on the next append, and so does a sniffer log of 200
    entries.  Of three entries logged within one millisecond with the
    random draws 1/2, 1/4 and 1/4, the second gets a smaller identifier
    than the first (1000.25 after 1000.5) and the third gets the
    identifier of the second again.  And at a present-day clock reading
    two different draws, 1/2 and 1/2 + 2^-20, give one and the same
    identifier, since the sum is rounded to a double. *)
Lemma telemetry_log_counterexample :
  ~ (List.length
       (App.logs (exec (App.addLog Sample.host INFO (lit "one more") None)
                    Sample.fullLogWorld)) <= 200)%nat
  /\ ~ (List.length
          (Sniffer.logs (exec (Sniffer.addLog Sample.host (lit "2a19") (lit "64"))
                           Sample.fullSnifferWorld)) <= 200)%nat
  /\ ~ (forall first second,
          App.logs
            (exec (bind (App.addLog Sample.sameMillisecondHost INFO
                           (lit "first") None)
                     (fun _ => App.addLog Sample.sameMillisecondHost INFO
                                 (lit "second") None))
               App.initialWorld) = [first; second] ->
          (id first < id second)%Q)
  /\ (exists first second third,
        App.logs
          (exec (bind (App.addLog Sample.sameMillisecondHost INFO
                         (lit "first") None)
                   (fun _ =>
                      bind (App.addLog Sample.sameMillisecondHost INFO
                              (lit "second") None)
                        (fun _ => App.addLog Sample.sameMillisecondHost INFO
                                    (lit "third") None)))
             App.initialWorld) = [first; second; third]
        /\ id second = id third)
  /\ (exists first second,
        App.logs
          (exec (bind (App.addLog Scenes.todayHost INFO (lit "first") None)
                   (fun _ => App.addLog Scenes.todayHost INFO
                               (lit "second") None))
             App.initialWorld) = [first; second]
        /\ ~ (mathRandom Scenes.todayHost 0%nat
              == mathRandom Scenes.todayHost 1%nat)%Q
        /\ id first = id second).
Proof.
  split; [| split; [| split; [| split]]].
  - assert (E : List.length
                  (App.logs (exec (App.addLog Sample.host INFO (lit "one more") None)
                               Sample.fullLogWorld)) = 201%nat)
      by (vm_compute; reflexivity).
    rewrite E. lia.
  - assert (E : List.length
                  (Sniffer.logs
                     (exec (Sniffer.addLog Sample.host (lit "2a19") (lit "64"))
                        Sample.fullSnifferWorld)) = 201%nat)
      by (vm_compute; reflexivity).
    rewrite E. lia.
  - intros H. specialize (H _ _ eq_refl).
    vm_compute in H. discriminate H.
  - do 3 eexists. split; [reflexivity |]. vm_compute. reflexivity.
  - do 2 eexists. split; [reflexivity |]. split.
    + intros E. vm_compute in E. discriminate E.
    + vm_compute. reflexivity.
Qed.

(** C5, amended. The telemetry log is an append-only ordered sequence:
    an append puts the new entry last and keeps the retained earlier
    entries in their order.  The controller's log is never truncated: an
    append keeps every earlier entry.  In the sniffer each append retains
    the 200 most recent earlier entries in front of the new one and
    drops the older ones, so that its log holds at most 201 entries.  An
    entry's identifier is the number [Date.now() + Math.random()]: the
    double nearest to the sum of the clock reading and the random draw of
    that append (at the clock reading 1762171200123 the draw 0.1 gives
    1762171200123.10009765625, which is not the exact sum).  Identifiers are neither increasing nor
    never reused: within one millisecond a later entry can get a smaller
    identifier, or the identifier of an earlier entry again. *)
Theorem telemetry_log_appends (host : Host) :
  (forall (w : App.World) ty msg dat,
     exists entry,
       App.logs (exec (App.addLog host ty msg dat) w) = App.logs w ++ [entry]
       /\ type entry = ty /\ message entry = msg /\ data entry = dat
       /\ id entry
          = numberAdd (inject_Z (dateNow host (App.clockReads w)))
              (mathRandom host (App.randomDraws w)))
  /\ (forall (w : Sniffer.World) uuid dat,
        exists entry dropped,
          Sniffer.logs w = dropped ++ Sniffer.sliceLast 200 (Sniffer.logs w)
          /\ Sniffer.logs (exec (Sniffer.addLog host uuid dat) w)
             = Sniffer.sliceLast 200 (Sniffer.logs w) ++ [entry]
          /\ List.length (Sniffer.sliceLast 200 (Sniffer.logs w))
             = Nat.min 200 (List.length (Sniffer.logs w))
          /\ (List.length (Sniffer.logs (exec (Sniffer.addLog host uuid dat) w))
              <= 201)%nat
          /\ Sniffer.logUuid entry = uuid /\ Sniffer.data entry = dat
          /\ Sniffer.id entry
             = numberAdd (inject_Z (dateNow host (Sniffer.clockReads w)))
                 (mathRandom host (Sniffer.randomDraws w)))
  /\ (numberAdd (inject_Z 1762171200123)
        (3602879701896397 # 36028797018963968)
      == 3608926617852109 # 2048)%Q
  /\ ~ (3608926617852109 # 2048
        == inject_Z 1762171200123
           + (3602879701896397 # 36028797018963968))%Q
  /\ (exists first second third,
        map id
          (App.logs
             (exec (bind (App.addLog Sample.sameMillisecondHost INFO
                            (lit "first") None)
                      (fun _ =>
                         bind (App.addLog Sample.sameMillisecondHost INFO
                                 (lit "second") None)
                           (fun _ =>
                              App.addLog Sample.sameMillisecondHost INFO
                                (lit "third") None)))
                App.initialWorld))
        = [first; second; third]
        /\ (second < first)%Q /\ second = third).
Proof.
  split; [| split; [| split; [| split]]].
  - intros w ty msg dat.
    destruct (addLog_run host ty msg dat w) as (entry & R & T & Msg & D & I).
    exists entry.
    unfold exec. rewrite R. cbn [snd App.logs App.with_logs app].
    repeat split; assumption.
  - intros w uuid dat. eexists. eexists.
    split; [symmetry; apply sliceLast_suffix |].
    split; [reflexivity |].
    split; [apply sliceLast_length |].
    split.
    + unfold exec, Sniffer.addLog, modify.
      cbn [snd Sniffer.logs Sniffer.with_logs].
      rewrite length_app, sliceLast_length. cbn [List.length]. lia.
    + repeat split.
  - vm_compute. reflexivity.
  - intros E. vm_compute in E. discriminate E.
  - rewrite three_appends. do 3 eexists. split; [reflexivity |].
    split; vm_compute; reflexivity.
Qed.

End Telemetry.

(* ===================================================================== *)
(** ** The opcode table *)
(* ===================================================================== *)

Section OpcodeTable.
Import App ControlPanel.

Lemma editOpCode_run (kind : CommandType) (text : jsstring) (w : World) :
  editOpCode kind text w
  = match Spec.accepted (Spec.inputNumber text) with
    | Some v => setOpCode kind v w
    | None => (Ok tt, w)
    end.
Proof.
  unfold editOpCode, OpCodeInput_onChange, Spec.accepted, Spec.inputNumber.
  destruct (parseInt16 _) as [v |]; [| reflexivity].
  now destruct ((0 <=? v) && (v <=? 255)).
Qed.

Lemma accepted_byte (n : number) (v : Z) :
  Spec.accepted n = Some v -> n = Num v /\ 0 <= v <= 255.
Proof.
  destruct n as [z |]; cbn; [| discriminate].
  destruct (Z.leb_spec 0 z), (Z.leb_spec z 255); cbn; intros E;
    inversion E; subst; split; (reflexivity || lia).
Qed.

(** C9. Typing into an opcode input changes the table only when the text
    parses, in radix 16, to a number in [0, 255]: that number becomes the
    entry of the input's command and the other entries stay.  Any other
    text leaves the whole state as it was, silently.  So a table of bytes
    stays a table of bytes.  An accepted edit touches neither the log nor
    anything already written; the next [sendMacro] encodes with the new
    table. *)
Theorem opcode_input_validated
  (host : Host) (kind : CommandType) (text : jsstring) (w : World) :
  let w' := exec (editOpCode kind text) w in
  returns (editOpCode kind text) w = true
  /\ match Spec.accepted (Spec.inputNumber text) with
     | Some v =>
         0 <= v <= 255
         /\ Spec.inputNumber text = Num v
         /\ Spec.opcodeOf kind (opCodes w') = v
         /\ (forall other, other <> kind ->
               Spec.opcodeOf other (opCodes w') = Spec.opcodeOf other (opCodes w))
     | None => w' = w
     end
  /\ (Spec.validTable (opCodes w) -> Spec.validTable (opCodes w'))
  /\ trace w' = trace w
  /\ logs w' = logs w
  /\ macroCommands w' = macroCommands w
  /\ (forall c, writeCharRef w = Some c ->
      exists tr,
        trace (exec (sendMacro host) w') = trace w ++ tr
        /\ List.concat (Spec.writesOf tr)
           = map toUint8 (fullCommandBytes (opCodes w') (macroCommands w))).
Proof.
  intros w'. subst w'. unfold returns, exec. rewrite editOpCode_run.
  destruct (Spec.accepted (Spec.inputNumber text)) as [v |] eqn:A.
  - apply accepted_byte in A as [P R].
    unfold setOpCode, modify. cbn [fst snd].
    split; [reflexivity |]. split; [| split; [| split; [| split; [| split]]]].
    + split; [exact R |]. split; [exact P |].
      split; [now destruct kind |].
      intros other D. destruct kind, other; try reflexivity; contradiction.
    + unfold Spec.validTable. intros (V1 & V2 & V3).
      destruct kind; cbn; repeat split; lia.
    + reflexivity.
    + reflexivity.
    + reflexivity.
    + intros c B.
      match goal with |- context [sendMacro host ?w1] =>
        destruct (sendMacro_run host w1 (c := c) B)
          as (tr & w2 & Run & T & C & _) end.
      rewrite Run. exists tr. split; [exact T | exact C].
  - cbn [fst snd].
    split; [reflexivity |]. split; [reflexivity |].
    split; [tauto |]. repeat split.
    intros c B.
    destruct (sendMacro_run host w B) as (tr & w2 & Run & T & C & _).
    rewrite Run. exists tr. split; [exact T | exact C].
Qed.

Lemma opcode_input_validated_witness :
  Spec.validTable (opCodes Sample.boundWorld)
  /\ writeCharRef Sample.boundWorld = Some Sample.writeChar
  /\ Spec.validTable
       (opCodes (exec (editOpCode BUZZ (lit "0x1F")) Sample.boundWorld)).
Proof.
  assert (V : Spec.validTable (opCodes Sample.boundWorld))
    by (unfold Spec.validTable; cbn; lia).
  split; [exact V |]. split; [reflexivity |].
  destruct (opcode_input_validated Sample.host BUZZ (lit "0x1F")
              Sample.boundWorld) as (_ & _ & H & _ & _ & _ & S).
  destruct (S Sample.writeChar eq_refl) as (tr & _ & _).
  exact (H V).
Defined.

(** What the inputs do with some texts: [0x1F] and [ff] are taken, [0x100],
    [-1], [zz] and the empty text are not, and [1g] is read as 1. *)
Example opcode_input_examples :
  Spec.accepted (Spec.inputNumber (lit "0x1F")) = Some 31
  /\ Spec.accepted (Spec.inputNumber (lit "ff")) = Some 255
  /\ Spec.accepted (Spec.inputNumber (lit "0x100")) = None
  /\ Spec.accepted (Spec.inputNumber (lit "-1")) = None
  /\ Spec.accepted (Spec.inputNumber (lit "zz")) = None
  /\ Spec.accepted (Spec.inputNumber (lit "")) = None
  /\ Spec.accepted (Spec.inputNumber (lit "1g")) = Some 1.
Proof. repeat split. Qed.

End OpcodeTable.

(* ===================================================================== *)
(** ** A cancelled chooser *)
(* ===================================================================== *)

Section Cancel.

Lemma existsb_last (t : Z) (l : list Z) : existsb (Z.eqb t) (l ++ [t]) = true.
Proof.
  rewrite existsb_app. cbn. rewrite Z.eqb_refl. now rewrite orb_true_r.
Qed.

Lemma timeoutFires_armed (t : Z) (w : App.World) :
  existsb (Z.eqb t) (App.timeouts w) = true ->
  App.connectionStatus (exec (App.timeoutFires t) w) = DISCONNECTED.
Proof.
  intros A. unfold exec, App.timeoutFires, bind at 1, get. rewrite A.
  reflexivity.
Qed.

(** The sniffer on a rejection named [NotFoundError]. *)
Lemma startSniffing_notFound (host : Host) (sw : Sniffer.World) (e : JsError) :
  bluetooth host = true ->
  errName e = lit "NotFoundError" ->
  let sw' := exec (Sniffer.startSniffing host (Throw e)) sw in
  Sniffer.status sw' = Sniffer.Disconnected
  /\ Sniffer.trace sw'
     = Sniffer.trace sw
       ++ [Sniffer.EvSetStatus Sniffer.Scanning; Sniffer.EvRequestDevice;
           Sniffer.EvConsoleError (lit "Sniffer failed:");
           Sniffer.EvSetStatus Sniffer.Disconnected]
  /\ Sniffer.timeouts sw' = Sniffer.timeouts sw.
Proof.
  intros Bt Nm sw'. subst sw'.
  destruct e as [n m]. cbn [errName] in Nm. subst n.
  unfold exec, Sniffer.startSniffing. rewrite Bt. cbn [negb].
  cbn. repeat split. now rewrite <- !app_assoc.
Qed.

(** The sniffer on a rejection with any other name: Error, and
    Disconnected when the 3000 ms timeout comes due. *)
Lemma startSniffing_otherError (host : Host) (sw : Sniffer.World) (e : JsError) :
  bluetooth host = true ->
  Sniffer.strEq (errName e) (lit "NotFoundError") = false ->
  let sw' := exec (Sniffer.startSniffing host (Throw e)) sw in
  Sniffer.status sw' = Sniffer.Error
  /\ Sniffer.trace sw'
     = Sniffer.trace sw
       ++ [Sniffer.EvSetStatus Sniffer.Scanning; Sniffer.EvRequestDevice;
           Sniffer.EvConsoleError (lit "Sniffer failed:");
           Sniffer.EvSetStatus Sniffer.Error;
           Sniffer.EvSetTimeout (Sniffer.nextTimer sw) 3000]
  /\ Sniffer.status (exec (Sniffer.timeoutFires (Sniffer.nextTimer sw)) sw')
     = Sniffer.Disconnected.
Proof.
  intros Bt Nm sw'. subst sw'.
  destruct sw as [st lg dr sub to nt cr rd tr].
  unfold Sniffer.startSniffing, Sniffer.sniffAttempt, Sniffer.setTimeout,
    Sniffer.timeoutFires.
  rewrite Bt. cbn [negb]. run_sniffer. rewrite Nm. cbn [negb]. run_sniffer.
  rewrite existsb_last. rewrite <- !app_assoc.
  repeat split.
Qed.

(** The controller on any rejection of [requestDevice]. *)
Lemma connect_rejected (host : Host) (w : App.World) (e : JsError) :
  bluetooth host = true ->
  let w' := exec (App.connect host (Throw e)) w in
  App.connectionStatus w' = ERROR
  /\ App.trace w'
     = App.trace w
       ++ [App.EvSetStatus CONNECTING; App.EvRequestDevice;
           App.EvSetStatus ERROR; App.EvSetTimeout (App.nextTimer w) 3000]
  /\ App.timeouts w' = App.timeouts w ++ [App.nextTimer w]
  /\ (exists scanning failed,
        App.logs w' = App.logs w ++ [scanning; failed]
        /\ type failed = LOG_ERROR
        /\ message failed = lit "Connection failed: " ++ errMessage e).
Proof.
  intros Bt w'. subst w'. unfold exec, App.connect. rewrite Bt. cbn [negb].
  split; [reflexivity |].
  split; [cbn; now rewrite <- !app_assoc |].
  split; [reflexivity |].
  do 2 eexists. cbn. split; [now rewrite <- app_assoc |].
  split; reflexivity.
Qed.

(** C8, on the code. When [requestDevice] rejects with [NotFoundError]
    (the user closed the chooser or no device matched), the controller's
    [connect] logs a connection failure, enters ERROR and schedules the
    change to DISCONNECTED 3000 ms later, as for any other failure; the
    sniffer's [startSniffing], on the same rejection, goes straight to
    Disconnected without entering Error and schedules nothing. *)
Theorem connect_cancel_enters_error
  (host : Host) (w : App.World) (sw : Sniffer.World) (e : JsError) :
  bluetooth host = true ->
  errName e = lit "NotFoundError" ->
  let w' := exec (App.connect host (Throw e)) w in
  let sw' := exec (Sniffer.startSniffing host (Throw e)) sw in
  App.connectionStatus w' = ERROR
  /\ App.trace w'
     = App.trace w
       ++ [App.EvSetStatus CONNECTING; App.EvRequestDevice;
           App.EvSetStatus ERROR; App.EvSetTimeout (App.nextTimer w) 3000]
  /\ (exists scanning failed,
        App.logs w' = App.logs w ++ [scanning; failed]
        /\ type failed = LOG_ERROR
        /\ message failed = lit "Connection failed: " ++ errMessage e)
  /\ App.connectionStatus (exec (App.timeoutFires (App.nextTimer w)) w')
     = DISCONNECTED
  /\ Sniffer.status sw' = Sniffer.Disconnected
  /\ Sniffer.trace sw'
     = Sniffer.trace sw
       ++ [Sniffer.EvSetStatus Sniffer.Scanning; Sniffer.EvRequestDevice;
           Sniffer.EvConsoleError (lit "Sniffer failed:");
           Sniffer.EvSetStatus Sniffer.Disconnected]
  /\ Sniffer.timeouts sw' = Sniffer.timeouts sw.
Proof.
  intros Bt Nm w' sw'.
  destruct (startSniffing_notFound host sw e Bt Nm) as (S1 & S2 & S3).
  destruct (connect_rejected host w e Bt) as (A1 & A2 & A3 & A4).
  fold w' in A1, A2, A3, A4. fold sw' in S1, S2, S3.
  split; [exact A1 |]. split; [exact A2 |]. split; [exact A4 |].
  split; [| split; [exact S1 | split; [exact S2 | exact S3]]].
  apply timeoutFires_armed. rewrite A3. apply existsb_last.
Qed.

Lemma connect_cancel_enters_error_witness :
  bluetooth Sample.host = true
  /\ errName Sample.notFound = lit "NotFoundError"
  /\ App.connectionStatus
       (exec (App.connect Sample.host (Throw Sample.notFound)) App.initialWorld)
     = ERROR.
Proof.
  split; [reflexivity |]. split; [reflexivity |].
  apply (connect_cancel_enters_error Sample.host App.initialWorld
           Sniffer.initialWorld Sample.notFound eq_refl eq_refl).
Defined.

End Cancel.

(* ===================================================================== *)
(** ** Leaving Connected *)
(* ===================================================================== *)

Section Teardown.
Import App.

Variable host : Host.

Lemma stopKeepAlive_run (w : World) (timer : Z) :
  keepAliveIntervalRef w = Some timer -> timer <> 0 ->
  stopKeepAlive w
  = (Ok tt,
     with_keepAliveIntervalRef None
       (with_trace (trace w ++ [EvClearInterval timer])
          (with_intervals (filter (fun t => negb (t =? timer)) (intervals w))
             w))).
Proof.
  intros K N. unfold stopKeepAlive, bind at 1, get. rewrite K.
  unfold truthyTimer. apply Z.eqb_neq in N. rewrite N.
  reflexivity.
Qed.

Lemma write_run (c : Characteristic) (bytes : list Z) (w : World) :
  write c bytes w
  = (match writeValueWithoutResponse c (writeCount w) bytes with
     | None => Ok tt
     | Some e => Throw e
     end,
     with_trace
       (trace w
        ++ [EvWrite bytes
              match writeValueWithoutResponse c (writeCount w) bytes with
              | None => true
              | Some _ => false
              end])
       (with_writeCount (Datatypes.S (writeCount w)) w)).
Proof. reflexivity. Qed.

Lemma disconnect_run (w : World) (timer : Z) (d : Device) :
  keepAliveIntervalRef w = Some timer -> timer <> 0 ->
  deviceRef w = Some d ->
  exists w',
    disconnect host w = (Ok tt, w')
    /\ trace w' = trace w ++ Spec.teardownEvents timer d
    /\ intervals w' = filter (fun t => negb (t =? timer)) (intervals w)
    /\ keepAliveIntervalRef w' = None
    /\ deviceRef w' = None
    /\ writeCharRef w' = None
    /\ connectionStatus w' = DISCONNECTED.
Proof.
  intros K N D. unfold Spec.teardownEvents.
  destruct w as [st lg oc mc tm ot dr wr ka iv to nt cr rd wc tr].
  cbn [keepAliveIntervalRef deviceRef] in K, D. subst ka dr.
  unfold disconnect. apply Z.eqb_neq in N.
  run. rewrite N. run.
  destruct (hasGatt d && connected d); run; unfold addLog; run;
    (eexists; split; [reflexivity |]); run; rewrite <- !app_assoc;
    repeat split.
Qed.

Lemma filter_self (timer : Z) :
  filter (fun t => negb (t =? timer)) [timer] = [].
Proof. cbn. now rewrite Z.eqb_refl. Qed.

(** With no timer armed, a timer coming due runs nothing. *)
Lemma intervalFires_none (t : Z) (w : World) :
  intervals w = [] -> intervalFires host t w = (Ok tt, w).
Proof.
  intros I. unfold intervalFires, bind, get. now rewrite I.
Qed.

(** A connect that succeeds establishes what the teardown starts from:
    one keep-alive timer armed and recorded, the device and the write
    characteristic held, the state Connected. *)
Lemma connect_establishes_session
  (w : World) (d : Device) (service : Service)
  (writeChar notifyChar : Characteristic) :
  bluetooth host = true ->
  hasGatt d = true ->
  gattConnect d = None ->
  getPrimaryService d (firstSegment WRITE_UUID) = Ok service ->
  getCharacteristic service WRITE_UUID = Ok writeChar ->
  getCharacteristic service NOTIFY_UUID = Ok notifyChar ->
  startNotifications notifyChar = None ->
  truthyTimer (keepAliveIntervalRef w) = None ->
  intervals w = [] ->
  let w' := exec (connect host (Ok d)) w in
  returns (connect host (Ok d)) w = true
  /\ connectionStatus w' = CONNECTED
  /\ keepAliveIntervalRef w' = Some (nextTimer w)
  /\ intervals w' = [nextTimer w]
  /\ deviceRef w' = Some (setConnected true (setListening true d))
  /\ writeCharRef w' = Some writeChar.
Proof.
  intros Bt Hg Hc Hs Hw Hn Hst K I w'. subst w'.
  destruct w as [st lg oc mc tm ot dr wr ka iv to nt cr rd wc tr].
  cbn [keepAliveIntervalRef intervals nextTimer] in *. subst iv.
  unfold connect, connectAttempt, startKeepAlive, setInterval, addLog.
  rewrite Bt. cbn [negb].
  run. rewrite Hg. run. rewrite Hc. run. rewrite Hs. run.
  rewrite Hw. run. rewrite Hn. run. rewrite Hst. run.
  unfold truthyTimer in K. rewrite K. run.
  repeat split.
Qed.

Lemma torn_after (w w' : World) (timer : Z) :
  intervals w = [timer] ->
  intervals w' = filter (fun t => negb (t =? timer)) (intervals w) ->
  keepAliveIntervalRef w' = None -> deviceRef w' = None ->
  writeCharRef w' = None -> connectionStatus w' = DISCONNECTED ->
  Spec.torn w'.
Proof.
  intros I F K D W S. rewrite I, filter_self in F. repeat split; assumption.
Qed.

(** C6, amended. Teardown is one routine, [disconnect], run on the
    user's disconnect, on the transport's disconnect event and on a
    failed keep-alive write.  On each of these three paths its steps are
    exactly these, in this order: stop the keep-alive timer; remove the
    disconnect-event listener and, if the GATT link is still connected,
    disconnect the transport; clear the device handle and the write
    characteristic; set the state to Disconnected.  There is no
    unsubscribe step.  From the timer stop on no timer is armed, so the
    heartbeat does not fire again.  Not every path out of Connected is a
    teardown: a timeout that an earlier failed connect scheduled is never
    cancelled, and when it comes due in state Connected it only sets the
    state to Disconnected; no teardown step is taken, the timer stays
    armed, the handles stay held and the heartbeat goes on. *)
Theorem teardown_order (w : World) (timer : Z) (d : Device) (c : Characteristic) :
  connectionStatus w = CONNECTED ->
  keepAliveIntervalRef w = Some timer -> timer <> 0 ->
  intervals w = [timer] ->
  deviceRef w = Some d -> writeCharRef w = Some c ->
  let byUser := exec (disconnect host) w in
  let byLinkDrop := exec (gattServerDisconnected host) w in
  let byKeepAlive := exec (intervalFires host timer) w in
  returns (disconnect host) w = true
  /\ trace byUser = trace w ++ Spec.teardownEvents timer d
  /\ Spec.torn byUser
  /\ intervals (exec stopKeepAlive w) = []
  /\ (forall t, intervalFires host t byUser = (Ok tt, byUser))
  /\ (listening d = true ->
      trace byLinkDrop
      = trace w ++ [EvClearInterval timer; EvRemoveDeviceListener;
                    EvSetDeviceRef false; EvSetWriteCharRef false;
                    EvSetStatus DISCONNECTED]
      /\ Spec.torn byLinkDrop)
  /\ (forall err,
        writeValueWithoutResponse c (writeCount w) KEEPALIVE_COMMAND = Some err ->
        trace byKeepAlive
        = trace w ++ [EvWrite KEEPALIVE_COMMAND false; EvConsoleError]
                  ++ Spec.teardownEvents timer d
        /\ Spec.torn byKeepAlive)
  /\ Spec.inOrder Spec.actualTeardown (Spec.teardownEvents timer d)
     = hasGatt d && connected d
  /\ existsb Spec.isUnsubscribe (Spec.teardownEvents timer d) = false
  /\ (forall t,
        existsb (Z.eqb t) (timeouts w) = true ->
        let byTimeout := exec (timeoutFires t) w in
        connectionStatus byTimeout = DISCONNECTED
        /\ trace byTimeout = trace w ++ [EvSetStatus DISCONNECTED]
        /\ keepAliveIntervalRef byTimeout = Some timer
        /\ intervals byTimeout = [timer]
        /\ deviceRef byTimeout = Some d
        /\ writeCharRef byTimeout = Some c
        /\ (writeValueWithoutResponse c (writeCount w) KEEPALIVE_COMMAND = None ->
            trace (exec (intervalFires host timer) byTimeout)
            = trace byTimeout ++ [EvWrite KEEPALIVE_COMMAND true])).
Proof.
  intros S K N I D W byUser byLinkDrop byKeepAlive.
  subst byUser byLinkDrop byKeepAlive. unfold returns, exec.
  destruct (disconnect_run w K N D) as (w1 & E1 & T1 & I1 & K1 & D1 & W1 & S1).
  rewrite E1. cbn [fst snd].
  pose proof (@torn_after w w1 timer I I1 K1 D1 W1 S1) as Torn1.
  split; [reflexivity |]. split; [exact T1 |]. split; [exact Torn1 |].
  split; [| split; [| split; [| split; [| split; [| split]]]]].
  - rewrite (stopKeepAlive_run w K N). cbn [snd intervals with_keepAliveIntervalRef
      with_trace with_intervals]. rewrite I. apply filter_self.
  - intros t. apply intervalFires_none. apply Torn1.
  - intros L.
    destruct (@disconnect_run (with_deviceRef (Some (setConnected false d)) w)
                timer (setConnected false d) K N eq_refl)
      as (w2 & E2 & T2 & I2 & K2 & D2 & W2 & S2).
    assert (R : gattServerDisconnected host w = (Ok tt, w2)).
    { unfold gattServerDisconnected, bind at 1, get. rewrite D.
      unfold bind at 1, modify. rewrite L. exact E2. }
    rewrite R. cbn [snd]. split.
    + rewrite T2. unfold Spec.teardownEvents.
      cbn [hasGatt connected setConnected]. rewrite andb_false_r. reflexivity.
    + exact (@torn_after (with_deviceRef (Some (setConnected false d)) w)
               w2 timer I I2 K2 D2 W2 S2).
  - intros err F.
    set (w0 := with_trace
                 ((trace w ++ [EvWrite KEEPALIVE_COMMAND false])
                  ++ [EvConsoleError])
                 (with_trace (trace w ++ [EvWrite KEEPALIVE_COMMAND false])
                    (with_writeCount (Datatypes.S (writeCount w)) w))).
    destruct (@disconnect_run w0 timer d K N D)
      as (w3 & E3 & T3 & I3 & K3 & D3 & W3 & S3).
    pose proof (@torn_after w0 w3 timer I I3 K3 D3 W3 S3) as Torn3.
    assert (R : intervalFires host timer w = (Ok tt, w3)).
    { unfold intervalFires, bind at 1, get. rewrite I.
      cbn [existsb]. rewrite Z.eqb_refl. cbn [orb].
      unfold keepAliveCallback, bind at 1, get. rewrite W.
      unfold tryCatch. rewrite write_run, F.
      unfold bind at 1, emit, modify. exact E3. }
    rewrite R. cbn [snd]. split; [| exact Torn3].
    rewrite T3. unfold w0. cbn [trace with_trace with_writeCount].
    rewrite <- !app_assoc. reflexivity.
  - unfold Spec.teardownEvents. now destruct (hasGatt d && connected d).
  - unfold Spec.teardownEvents. now destruct (hasGatt d && connected d).
  - intros t A.
    destruct w as [st lg oc mc tm ot dr wr ka iv to nt cr rd wc tr].
    cbn [keepAliveIntervalRef intervals deviceRef writeCharRef timeouts
         writeCount] in K, I, D, W, A |- *.
    subst ka iv dr wr.
    unfold timeoutFires, intervalFires, keepAliveCallback, write. run.
    rewrite A. run.
    split; [reflexivity |]. split; [reflexivity |]. split; [reflexivity |].
    split; [reflexivity |]. split; [reflexivity |]. split; [reflexivity |].
    intros Wv. cbn [existsb]. rewrite Z.eqb_refl. cbn [orb]. run.
    rewrite Wv. run. reflexivity.
Qed.

End Teardown.

(** As the claim C6 is worded it fails, twice.  After a connect to the
    sample wand, [disconnect] leaves Connected without any attempt to
    unsubscribe the notifications, so the specified order (timer stop,
    unsubscribe, transport disconnect, clear, Disconnected) is not in its
    trace.  And there is a path out of Connected with no teardown at all:
    a connect fails and schedules its timeout, the next connect
    succeeds, the timeout comes due; the state goes from Connected to
    Disconnected by that one step, the timer stays armed and the next
    tick still writes the keep-alive. *)
Lemma teardown_order_counterexample :
  App.connectionStatus Sample.connectedWorld = CONNECTED
  /\ ~ (Spec.inOrder Spec.specifiedTeardown
          (App.trace (exec (App.disconnect Sample.host) Sample.connectedWorld))
        = true)
  /\ existsb Spec.isUnsubscribe
       (App.trace (exec (App.disconnect Sample.host) Sample.connectedWorld))
     = false
  /\ (let up :=
        exec (App.connect Sample.host (Ok Sample.wand))
          (exec (App.connect Sample.host (Throw Sample.notFound))
             App.initialWorld) in
      let left := exec (App.timeoutFires 1) up in
      App.connectionStatus up = CONNECTED
      /\ App.connectionStatus left = DISCONNECTED
      /\ App.trace left = App.trace up ++ [App.EvSetStatus DISCONNECTED]
      /\ App.intervals left = [2]
      /\ ~ Spec.torn left
      /\ App.trace (exec (App.intervalFires Sample.host 2) left)
         = App.trace left ++ [App.EvWrite App.KEEPALIVE_COMMAND true]).
Proof.
  split; [vm_compute; reflexivity |]. split; [| split].
  - assert (E : Spec.inOrder Spec.specifiedTeardown
                  (App.trace (exec (App.disconnect Sample.host)
                                Sample.connectedWorld)) = false)
      by (vm_compute; reflexivity).
    rewrite E. discriminate.
  - vm_compute. reflexivity.
  - cbv zeta.
    split; [vm_compute; reflexivity |].
    split; [vm_compute; reflexivity |].
    split; [vm_compute; reflexivity |].
    split; [vm_compute; reflexivity |].
    split; [| vm_compute; reflexivity].
    intros (K & _). vm_compute in K. discriminate K.
Qed.

Lemma teardown_order_witness :
  App.connectionStatus Sample.connectedWorld = CONNECTED
  /\ App.keepAliveIntervalRef Sample.connectedWorld = Some 1
  /\ App.intervals Sample.connectedWorld = [1]
  /\ Spec.torn (exec (App.disconnect Sample.host) Sample.connectedWorld).
Proof.
  split; [vm_compute; reflexivity |].
  split; [vm_compute; reflexivity |].
  split; [vm_compute; reflexivity |].
  assert (N : 1 <> 0) by discriminate.
  destruct (@teardown_order Sample.host Sample.connectedWorld 1
              (setConnected true (setListening true Sample.wand))
              Sample.writeChar eq_refl eq_refl N eq_refl eq_refl eq_refl)
    as (_ & _ & T & _).
  exact T.
Defined.

(* ===================================================================== *)
(** ** The sniffer's setup *)
(* ===================================================================== *)

Section SnifferSetup.
Import Sniffer SnifferSpec.

(** The inner loop: every wanted characteristic is tried; the ones that
    subscribe are counted and recorded, the others are logged. *)
Lemma subscribeChars_run (chars : list Characteristic) :
  forall (count : nat) (w : World),
    subscribeChars chars count w
    = (Ok (List.length (filter subscribable chars) + count)%nat,
       with_subscribedCharsRef
         (subscribedCharsRef w ++ filter subscribable chars)
         (with_trace (trace w ++ flat_map charEvents chars) w)).
Proof.
  induction chars as [| char rest IH]; intros count w;
    destruct w as [st lg dr sub to nt cr rd tr].
  - cbn [subscribeChars filter flat_map List.length Nat.add]. run_sniffer.
    now rewrite !app_nil_r.
  - cbn [subscribeChars filter flat_map].
    assert (Sb : subscribable char
                 = wanted char && resolves (startNotifications char))
      by reflexivity.
    unfold charEvents at 1. rewrite Sb. clear Sb.
    destruct (wanted char); cbn [andb].
    + destruct (startNotifications char) as [e |]; cbn [resolves];
        run_sniffer; rewrite IH; run_sniffer;
        cbn [List.length]; rewrite <- ?app_assoc, ?Nat.add_succ_r;
        reflexivity.
    + rewrite IH. run_sniffer. reflexivity.
Qed.

(** The outer loop, when every service lists its characteristics. *)
Lemma subscribeServices_run (services : list Service)
  (charLists : list (list Characteristic)) :
  Forall2 (fun service chars => getCharacteristics service = Ok chars)
    services charLists ->
  forall (count : nat) (w : World),
    subscribeServices services count w
    = (Ok (List.length (filter subscribable (List.concat charLists)) + count)%nat,
       with_subscribedCharsRef
         (subscribedCharsRef w ++ filter subscribable (List.concat charLists))
         (with_trace (trace w ++ serviceEvents charLists) w)).
Proof.
  induction 1 as [| service chars services charLists G _ IH]; intros count w;
    destruct w as [st lg dr sub to nt cr rd tr].
  - cbn [subscribeServices List.concat filter serviceEvents flat_map
         List.length Nat.add].
    run_sniffer. now rewrite !app_nil_r.
  - cbn [subscribeServices List.concat serviceEvents flat_map].
    run_sniffer. rewrite G. rewrite subscribeChars_run. run_sniffer.
    rewrite IH. run_sniffer.
    fold (serviceEvents charLists).
    rewrite filter_app, length_app, <- !app_assoc.
    match goal with |- (Ok ?a, _) = (Ok ?b, _) =>
      replace a with b by lia end.
    reflexivity.
Qed.

Lemma startAttempts_app (a b : list Event) :
  startAttempts (a ++ b) = startAttempts a ++ startAttempts b.
Proof.
  induction a as [| e a IH]; [reflexivity |].
  destruct e; cbn; now rewrite IH.
Qed.

Lemma consoleErrors_app (a b : list Event) :
  consoleErrors (a ++ b) = consoleErrors a ++ consoleErrors b.
Proof.
  induction a as [| e a IH]; [reflexivity |].
  destruct e; cbn; now rewrite IH.
Qed.

(** Every wanted characteristic is tried, in order, whatever happened to
    the ones before it. *)
Lemma attempts_of_chars (chars : list Characteristic) :
  startAttempts (flat_map charEvents chars)
  = map (fun c => (uuid c, resolves (startNotifications c)))
      (filter wanted chars).
Proof.
  induction chars as [| c rest IH]; [reflexivity |].
  cbn [flat_map filter]. rewrite startAttempts_app, IH.
  unfold charEvents. destruct (wanted c); [| reflexivity].
  cbn [map]. destruct (startNotifications c); reflexivity.
Qed.

Lemma attempts_of_services (charLists : list (list Characteristic)) :
  startAttempts (serviceEvents charLists)
  = map (fun c => (uuid c, resolves (startNotifications c)))
      (filter wanted (List.concat charLists)).
Proof.
  induction charLists as [| chars rest IH]; [reflexivity |].
  cbn [serviceEvents flat_map List.concat]. fold (serviceEvents rest).
  change (startAttempts (flat_map charEvents chars ++ serviceEvents rest)
          = map (fun c => (uuid c, resolves (startNotifications c)))
              (filter wanted (chars ++ List.concat rest))).
  now rewrite startAttempts_app, filter_app, map_app, IH, attempts_of_chars.
Qed.

(** Every failed subscription is logged on the console. *)
Lemma errors_of_chars (chars : list Characteristic) :
  consoleErrors (flat_map charEvents chars)
  = map (fun c => lit "Failed to subscribe to " ++ uuid c)
      (filter failing chars).
Proof.
  induction chars as [| c rest IH]; [reflexivity |].
  cbn [flat_map filter]. rewrite consoleErrors_app, IH.
  unfold charEvents, failing. destruct (wanted c) eqn:Wt; [| reflexivity].
  cbn [andb map]. destruct (startNotifications c); reflexivity.
Qed.

Lemma errors_of_services (charLists : list (list Characteristic)) :
  consoleErrors (serviceEvents charLists)
  = map (fun c => lit "Failed to subscribe to " ++ uuid c)
      (filter failing (List.concat charLists)).
Proof.
  induction charLists as [| chars rest IH]; [reflexivity |].
  cbn [serviceEvents flat_map List.concat]. fold (serviceEvents rest).
  change (consoleErrors (flat_map charEvents chars ++ serviceEvents rest)
          = map (fun c => lit "Failed to subscribe to " ++ uuid c)
              (filter failing (chars ++ List.concat rest))).
  now rewrite consoleErrors_app, filter_app, map_app, IH, errors_of_chars.
Qed.

Variable host : Host.

(** [startSniffing] on a device that connects and lists its services and
    characteristics. *)
Lemma startSniffing_run (sw : World) (d : Device) (services : list Service)
  (charLists : list (list Characteristic)) :
  bluetooth host = true ->
  subscribedCharsRef sw = [] ->
  hasGatt d = true ->
  gattConnect d = None ->
  getPrimaryServices d = Ok services ->
  Forall2 (fun service chars => getCharacteristics service = Ok chars)
    services charLists ->
  let subscribed := filter subscribable (List.concat charLists) in
  startSniffing host (Ok d) sw
  = (Ok tt,
     match subscribed with
     | _ :: _ =>
         with_status Listening
           (with_subscribedCharsRef subscribed
              (with_deviceRef (Some (setConnected true (setListening true d)))
                 (with_trace
                    (trace sw ++ setupPrefix ++ serviceEvents charLists
                       ++ [EvSetStatus Listening]) sw)))
     | [] =>
         with_status Disconnected
           (with_subscribedCharsRef []
              (with_deviceRef None
                 (with_trace
                    (trace sw ++ setupPrefix ++ serviceEvents charLists
                       ++ totalFailure) sw)))
     end).
Proof.
  intros Bt Sub Hg Hc Hs F subscribed. subst subscribed.
  destruct sw as [st lg dr sub to nt cr rd tr].
  cbn [subscribedCharsRef] in Sub. subst sub.
  unfold startSniffing, sniffAttempt. rewrite Bt. cbn [negb].
  run_sniffer. rewrite Hg. run_sniffer. rewrite Hc. run_sniffer.
  rewrite Hs. run_sniffer. rewrite (subscribeServices_run F). run_sniffer.
  cbn [app]. unfold setupPrefix.
  destruct (filter subscribable (List.concat charLists)) as [| c cs].
  - cbn [List.length Nat.add Nat.ltb Nat.leb].
    unfold stopSniffing. run_sniffer. cbn [stopAll]. run_sniffer.
    cbn [hasGatt connected setConnected setListening]. rewrite Hg.
    cbn [andb]. run_sniffer. unfold totalFailure.
    rewrite <- !app_assoc. reflexivity.
  - cbn [List.length Nat.add Nat.ltb Nat.leb]. run_sniffer.
    rewrite <- !app_assoc. reflexivity.
Qed.

(** C10. While the sniffer sets up, a subscription that fails is logged
    and the loop goes on to the next characteristic: every notifiable,
    not denied characteristic is tried, in order.  If at least one
    subscribed, the sniffer ends Listening, holding the device and the
    characteristics that subscribed; if none did, it shows the error and
    tears everything down: listener removed, subscriptions cleared,
    transport disconnected, device handle cleared, state Disconnected. *)
Theorem sniff_setup_tolerates_failures
  (sw : World) (d : Device) (services : list Service)
  (charLists : list (list Characteristic)) :
  bluetooth host = true ->
  subscribedCharsRef sw = [] ->
  hasGatt d = true ->
  gattConnect d = None ->
  getPrimaryServices d = Ok services ->
  Forall2 (fun service chars => getCharacteristics service = Ok chars)
    services charLists ->
  let chars := List.concat charLists in
  let subscribed := filter subscribable chars in
  let sw' := exec (startSniffing host (Ok d)) sw in
  returns (startSniffing host (Ok d)) sw = true
  /\ startAttempts (serviceEvents charLists)
     = map (fun c => (uuid c, resolves (startNotifications c)))
         (filter wanted chars)
  /\ consoleErrors (serviceEvents charLists)
     = map (fun c => lit "Failed to subscribe to " ++ uuid c)
         (filter failing chars)
  /\ (subscribed <> [] ->
      trace sw'
      = trace sw ++ setupPrefix ++ serviceEvents charLists
          ++ [EvSetStatus Listening]
      /\ status sw' = Listening
      /\ subscribedCharsRef sw' = subscribed
      /\ deviceRef sw' = Some (setConnected true (setListening true d)))
  /\ (subscribed = [] ->
      trace sw'
      = trace sw ++ setupPrefix ++ serviceEvents charLists ++ totalFailure
      /\ status sw' = Disconnected
      /\ subscribedCharsRef sw' = []
      /\ deviceRef sw' = None).
Proof.
  intros Bt Sub Hg Hc Hs F chars subscribed sw'. subst sw'.
  unfold returns, exec.
  rewrite (@startSniffing_run sw d services charLists Bt Sub Hg Hc Hs F).
  fold chars. fold subscribed. cbn [fst snd].
  split; [reflexivity |].
  split; [apply attempts_of_services |].
  split; [apply errors_of_services |].
  split; intros E.
  - destruct subscribed as [| c cs]; [contradiction |].
    repeat split.
  - rewrite E. repeat split.
Qed.

End SnifferSetup.

Lemma sniff_setup_tolerates_failures_witness :
  (bluetooth Sample.host = true
   /\ Sniffer.status
        (exec (Sniffer.startSniffing Sample.host (Ok Sample.mixedDevice))
           Sniffer.initialWorld) = Sniffer.Listening)
  /\ Sniffer.status
       (exec (Sniffer.startSniffing Sample.host (Ok Sample.deadDevice))
          Sniffer.initialWorld) = Sniffer.Disconnected.
Proof.
  split; [split; [reflexivity |] |].
  - assert (F : Forall2
                  (fun service chars => getCharacteristics service = Ok chars)
                  [Sample.mixedService]
                  [[Sample.flakyChar; Sample.batteryChar; Sample.writeChar]])
      by (repeat constructor).
    destruct (@sniff_setup_tolerates_failures Sample.host Sniffer.initialWorld
                Sample.mixedDevice [Sample.mixedService]
                [[Sample.flakyChar; Sample.batteryChar; Sample.writeChar]]
                eq_refl eq_refl eq_refl eq_refl eq_refl F)
      as (_ & _ & _ & L & _).
    apply L. discriminate.
  - assert (F : Forall2
                  (fun service chars => getCharacteristics service = Ok chars)
                  [Sample.deadService]
                  [[Sample.flakyChar; Sample.writeChar]])
      by (repeat constructor).
    destruct (@sniff_setup_tolerates_failures Sample.host Sniffer.initialWorld
                Sample.deadDevice [Sample.deadService]
                [[Sample.flakyChar; Sample.writeChar]]
                eq_refl eq_refl eq_refl eq_refl eq_refl F)
      as (_ & _ & _ & _ & Z).
    apply Z. reflexivity.
Defined.

(* ===================================================================== *)
(** ** The bytes of a macro *)
(* ===================================================================== *)

Section MacroBytes.
Import App.

Lemma strEq_refl (s : jsstring) : Sniffer.strEq s s = true.
Proof.
  induction s as [| c s IH]; [reflexivity |].
  cbn [Sniffer.strEq]. now rewrite Z.eqb_refl, IH.
Qed.

Lemma word_of_bytes (x : Z) :
  bitand x 255 + 256 * bitand (sar x 8) 255 = x mod 65536.
Proof.
  rewrite bitand_255, bitand_sar_8.
  pose proof (Z.div_mod x 256 ltac:(lia)) as D1.
  pose proof (Z.div_mod (x / 256) 256 ltac:(lia)) as D2.
  pose proof (Z.mod_pos_bound x 256 ltac:(lia)).
  pose proof (Z.mod_pos_bound (x / 256) 256 ltac:(lia)).
  apply (Z.mod_unique_pos x 65536 (x / 256 / 256)); lia.
Qed.

Lemma channel_range (k : nat) (color : jsstring) :
  0 <= Spec.channel k color <= 255.
Proof.
  unfold Spec.channel.
  destruct (hexDigitValue (nth (2 * k) color 0)) as [hi |] eqn:E1; [| lia].
  destruct (hexDigitValue (nth (2 * k + 1) color 0)) as [lo |] eqn:E2; [| lia].
  apply hexDigitValue_range in E1, E2. lia.
Qed.

Lemma byteCommand_wellFormed (cmd : MacroCommand) :
  Builder.byteCommand cmd = true -> Spec.wellFormed cmd = true.
Proof.
  destruct cmd as [i | i d | i g color d]; cbn; try reflexivity.
  intros H. now apply andb_prop in H.
Qed.

(** X1. The two duration bytes of a Buzz or ChangeLed group are the low
    and the high byte of the 16-bit two's-complement word of
    [min duration 32767]: read low byte first they give
    [min duration 32767] modulo 65536, for every duration. *)
Theorem duration_word_wraps
  (codes : OpCodes) (i : jsstring) (g : Z) (color : jsstring) (d : Z) :
  Builder.durationWord (pushCommand codes (BuzzCommand i d))
  = Some (Z.min d 32767 mod 65536)
  /\ Builder.durationWord (pushCommand codes (ChangeLedCommand i g color d))
     = Some (Z.min d 32767 mod 65536).
Proof.
  split; unfold Builder.durationWord; cbn [pushCommand rev app];
    now rewrite word_of_bytes.
Qed.

(** X2. The clamp bounds a duration from above only: a negative
    duration from -32768 on is sent as the word [65536 + duration],
    which lies above 32767, the largest word of a duration that is not
    negative. *)
Theorem negative_duration_exceeds_clamp
  (codes : OpCodes) (i : jsstring) (d : Z) :
  -32768 <= d < 0 ->
  Builder.durationWord (pushCommand codes (BuzzCommand i d))
  = Some (65536 + d)
  /\ 32767 < 65536 + d
  /\ forall d', 0 <= d' ->
       exists word,
         Builder.durationWord (pushCommand codes (BuzzCommand i d')) = Some word
         /\ word <= 32767.
Proof.
  intros H. split; [| split; [lia |]].
  - unfold Builder.durationWord; cbn [pushCommand rev app].
    rewrite word_of_bytes, Z.min_l by lia.
    f_equal. symmetry. apply (Z.mod_unique_pos d 65536 (-1)); lia.
  - intros d' P. exists (Z.min d' 32767). split; [| lia].
    unfold Builder.durationWord; cbn [pushCommand rev app].
    rewrite word_of_bytes. f_equal. apply Z.mod_small. lia.
Qed.

Lemma negative_duration_exceeds_clamp_witness :
  Builder.durationWord (pushCommand defaultOpCodes (BuzzCommand [] (-1)))
  = Some 65535.
Proof.
  destruct (@negative_duration_exceeds_clamp defaultOpCodes [] (-1)
              ltac:(lia)) as (W & _).
  exact W.
Defined.

(** X3. Under a table of bytes, a macro whose ChangeLed commands have a
    byte as group and six hexadecimal digits as colour is encoded into
    numbers that are all bytes already, so that the conversion to a
    [Uint8Array] changes none of them. *)
Theorem encoded_numbers_are_bytes
  (codes : OpCodes) (macro : list MacroCommand) :
  Spec.validTable codes ->
  forallb Builder.byteCommand macro = true ->
  Forall (fun n => n = Num (toUint8 n) /\ Builder.isByteNumber n = true)
         (fullCommandBytes codes macro).
Proof.
  intros (V1 & V2 & V3) B. rewrite fullCommandBytes_flat_map.
  assert (byte : forall z, 0 <= z <= 255 ->
            Num z = Num (toUint8 (Num z))
            /\ Builder.isByteNumber (Num z) = true).
  { intros z Hz. cbn [toUint8 Builder.isByteNumber]. split.
    - now rewrite Z.mod_small by lia.
    - unfold Spec.isByte.
      apply andb_true_intro; split; [apply Z.leb_le | apply Z.ltb_lt]; lia. }
  assert (lowR : forall x, 0 <= Spec.lowByte x <= 255).
  { intros x. unfold Spec.lowByte.
    pose proof (Z.mod_pos_bound x 256 ltac:(lia)). lia. }
  assert (highR : forall x, 0 <= Spec.highByte x <= 255).
  { intros x. unfold Spec.highByte.
    pose proof (Z.mod_pos_bound (x / 256) 256 ltac:(lia)). lia. }
  induction macro as [| cmd rest IH]; [constructor |].
  cbn [forallb] in B. apply andb_prop in B as [Bc Br].
  cbn [flat_map]. apply Forall_app. split; [| now apply IH].
  rewrite (pushCommand_spec codes cmd (byteCommand_wellFormed cmd Bc)).
  destruct cmd as [i | i d | i g color d]; cbn [Spec.encodeCommand].
  - repeat constructor; now apply byte.
  - repeat (constructor; [now apply byte |]). constructor.
  - cbn [Builder.byteCommand] in Bc. apply andb_prop in Bc as [G _].
    unfold Spec.isByte in G. apply andb_prop in G as [G1 G2].
    apply Z.leb_le in G1. apply Z.ltb_lt in G2.
    pose proof (channel_range 0 color). pose proof (channel_range 1 color).
    pose proof (channel_range 2 color).
    repeat (constructor; [apply byte; auto; lia |]). constructor.
Qed.

Lemma encoded_numbers_are_bytes_witness :
  Forall (fun n => n = Num (toUint8 n) /\ Builder.isByteNumber n = true)
         (fullCommandBytes defaultOpCodes Sample.macro45).
Proof.
  apply (@encoded_numbers_are_bytes defaultOpCodes Sample.macro45).
  - cbv. repeat split; discriminate.
  - reflexivity.
Defined.

End MacroBytes.

(* ===================================================================== *)
(** ** The panel: opcode inputs and the macro builder *)
(* ===================================================================== *)

Section Panel.
Import App.

Lemma shown_values_read_back (unicodeUpper : Z -> list Z) :
  forallb (Builder.shownValueReadsBack unicodeUpper)
          (map Z.of_nat (seq 0 256)) = true.
Proof. vm_compute. reflexivity. Qed.

(** X4. An opcode input reads its own display back: for every byte [v]
    the text shown for [v] (0x and two upper-case hexadecimal digits) is
    accepted by the change handler, which sets the entry to [v] again. *)
Theorem opcode_input_reads_own_display
  (unicodeUpper : Z -> list Z) (kind : CommandType) (v : Z) (w : World) :
  0 <= v <= 255 ->
  ControlPanel.editOpCode kind (ControlPanel.OpCodeInput_value unicodeUpper v) w
  = ControlPanel.setOpCode kind v w
  /\ List.length (ControlPanel.OpCodeInput_value unicodeUpper v) = 4%nat.
Proof.
  intros H.
  pose proof (shown_values_read_back unicodeUpper) as A.
  pose proof (proj1 (forallb_forall _ _) A v) as B.
  assert (I : In v (map Z.of_nat (seq 0 256))).
  { apply in_map_iff. exists (Z.to_nat v). split; [lia |].
    apply in_seq. lia. }
  specialize (B I). clear A.
  assert (L : forallb
                (fun x => (List.length
                             (ControlPanel.OpCodeInput_value unicodeUpper x)
                           =? 4)%nat)
                (map Z.of_nat (seq 0 256)) = true)
    by (vm_compute; reflexivity).
  pose proof (proj1 (forallb_forall _ _) L v I) as L4.
  apply Nat.eqb_eq in L4. split; [| exact L4].
  unfold Builder.shownValueReadsBack, Spec.inputNumber, Spec.accepted in B.
  unfold ControlPanel.editOpCode, ControlPanel.OpCodeInput_onChange.
  destruct (parseInt16 _) as [x |]; [| discriminate B].
  destruct ((0 <=? x) && (x <=? 255)); [| discriminate B].
  apply Z.eqb_eq in B. now subst x.
Qed.

Lemma opcode_input_reads_own_display_witness :
  opCodes
    (exec (ControlPanel.editOpCode BUZZ
             (ControlPanel.OpCodeInput_value (fun cp => [cp]) 10))
          initialWorld)
  = {| ClearLeds := 170; Buzz := 10; ChangeLed := 204 |}.
Proof.
  unfold exec.
  destruct (@opcode_input_reads_own_display (fun cp => [cp]) BUZZ 10
              initialWorld ltac:(lia)) as [E _].
  rewrite E. reflexivity.
Defined.

(** X5. [addCommand] puts the new command last, so the bytes of the macro
    grow at the end by the group of the panel's defaults: the opcode
    alone for ClearLeds; the opcode and 250 ms (FA 00) for Buzz; the
    opcode, group 0, colour 00 00 FF and 500 ms (F4 01) for ChangeLed.
    The table, and everything but the macro and the clock, is left as it
    was. *)
Theorem added_command_appends_default_group
  (host : Host) (toISOString : Z -> jsstring) (type : CommandType)
  (codes : OpCodes) (w : World) :
  let w' := exec (Builder.addCommand host toISOString type) w in
  fullCommandBytes codes (macroCommands w')
  = fullCommandBytes codes (macroCommands w)
    ++ match type with
       | CLEAR_LEDS => [Num (ClearLeds codes)]
       | BUZZ => [Num (Buzz codes); Num 250; Num 0]
       | CHANGE_LED =>
           [Num (ChangeLed codes); Num 0; Num 0; Num 0; Num 255;
            Num 244; Num 1]
       end
  /\ clockReads w' = S (clockReads w)
  /\ opCodes w' = opCodes w
  /\ connectionStatus w' = connectionStatus w
  /\ logs w' = logs w
  /\ trace w' = trace w.
Proof.
  cbv zeta. destruct w as [st lg oc mc tm ot dr wr ka iv to nt cr rd wc tr].
  unfold Builder.addCommand. run.
  cbn [macroCommands with_macroCommands with_clockReads].
  rewrite !fullCommandBytes_flat_map, flat_map_app.
  repeat split. f_equal. destruct type; reflexivity.
Qed.

(** X6. Identifiers of commands are the text of the clock reading at the
    moment of adding; two commands added at one clock reading share
    their identifier, and removing either removes both. *)
Theorem commands_of_one_instant_go_together
  (host : Host) (toISOString : Z -> jsstring) (t1 t2 : CommandType)
  (w : World) :
  dateNow host (S (clockReads w)) = dateNow host (clockReads w) ->
  let id := toISOString (dateNow host (clockReads w)) in
  let w2 :=
    exec (Builder.addCommand host toISOString t2)
      (exec (Builder.addCommand host toISOString t1) w) in
  List.length (macroCommands w2) = S (S (List.length (macroCommands w)))
  /\ macroCommands (exec (Builder.removeCommand id) w2)
     = macroCommands (exec (Builder.removeCommand id) w).
Proof.
  cbv zeta. intros Same.
  destruct w as [st lg oc mc tm ot dr wr ka iv to nt cr rd wc tr].
  cbn [clockReads] in Same.
  unfold Builder.addCommand, Builder.removeCommand. run.
  cbn [macroCommands with_macroCommands with_clockReads clockReads].
  rewrite Same. split.
  - rewrite !length_app. cbn [List.length]. lia.
  - rewrite !filter_app.
    destruct t1, t2; cbn [filter Builder.commandId];
      rewrite strEq_refl; cbn [negb]; now rewrite !app_nil_r.
Qed.

Lemma commands_of_one_instant_go_together_witness :
  macroCommands
    (exec (Builder.removeCommand (lit "1000"))
       (exec (Builder.addCommand Sample.sameMillisecondHost
                (fun _ => lit "1000") CHANGE_LED)
          (exec (Builder.addCommand Sample.sameMillisecondHost
                   (fun _ => lit "1000") BUZZ) initialWorld)))
  = [].
Proof.
  destruct (@commands_of_one_instant_go_together Sample.sameMillisecondHost
              (fun _ => lit "1000") BUZZ CHANGE_LED initialWorld eq_refl)
    as [_ E].
  exact E.
Defined.

Lemma applyUpdates_contribution (u : Builder.Updates) (cmd : MacroCommand) :
  Spec.contribution (Builder.applyUpdates u cmd) = Spec.contribution cmd.
Proof. now destruct cmd. Qed.

(** X7. [updateCommand] changes colours and durations only: the macro
    keeps its length, every command keeps its identifier and its type,
    and the encoded macro keeps its number of bytes. *)
Theorem update_keeps_shape
  (codes : OpCodes) (id : jsstring) (u : Builder.Updates) (w : World) :
  let w' := exec (Builder.updateCommand id u) w in
  map Builder.commandId (macroCommands w')
  = map Builder.commandId (macroCommands w)
  /\ map commandType (macroCommands w') = map commandType (macroCommands w)
  /\ List.length (fullCommandBytes codes (macroCommands w'))
     = List.length (fullCommandBytes codes (macroCommands w)).
Proof.
  cbv zeta. destruct w as [st lg oc mc tm ot dr wr ka iv to nt cr rd wc tr].
  unfold Builder.updateCommand. run.
  cbn [macroCommands with_macroCommands].
  rewrite !fullCommandBytes_flat_map,
    !(flat_map_length_sum _ _ _ (pushCommand_length codes)).
  rewrite !map_map.
  repeat split.
  - apply map_ext. intros cmd.
    destruct (Sniffer.strEq _ _); [now destruct cmd | reflexivity].
  - apply map_ext. intros cmd.
    destruct (Sniffer.strEq _ _); [now destruct cmd | reflexivity].
  - f_equal. apply map_ext. intros cmd.
    destruct (Sniffer.strEq _ _);
      [apply applyUpdates_contribution | reflexivity].
Qed.

End Panel.

(* ===================================================================== *)
(** ** Spell frames *)
(* ===================================================================== *)

Section SpellFrames.
Import App.













Lemma hexDigitChar_not_blank (d : Z) :
  0 <= d -> negb (hexDigitChar d =? 32) = true.
Proof. intros H. unfold hexDigitChar. zcases; reflexivity. Qed.

Lemma spaced_dump (payload : list Z) :
  forallb Spec.isByte payload = true ->
  Frames.withoutBlanks
    (join (lit " ") (map (fun b => padStart0 2 (toString16 (Num b))) payload))
  = Spec.hexDump payload
  /\ List.length
       (join (lit " ")
          (map (fun b => padStart0 2 (toString16 (Num b))) payload))
     = (3 * List.length payload - 1)%nat.
Proof.
  induction payload as [| b rest IH]; [now intros _ |].
  intros B. cbn [forallb] in B. apply andb_prop in B as [Bb Br].
  specialize (IH Br). destruct IH as [IH1 IH2].
  assert (D : forall x, 0 <= x -> negb (hexDigitChar x =? 32) = true)
    by apply hexDigitChar_not_blank.
  assert (R : 0 <= b / 16 /\ 0 <= b mod 16).
  { unfold Spec.isByte in Bb. apply andb_prop in Bb as [L _].
    apply Z.leb_le in L. split; [apply Z.div_pos; lia |].
    pose proof (Z.mod_pos_bound b 16 ltac:(lia)). lia. }
  destruct rest as [| b' rest'].
  - cbn [map join]. rewrite (byte_two_hex_digits b Bb).
    unfold Frames.withoutBlanks. cbn [filter Spec.hexDump flat_map app].
    rewrite !D by apply R. now split.
  - change (map ?f (b :: ?l)) with (f b :: map f l).
    remember (b' :: rest') as l eqn:El.
    assert (J : forall (p : jsstring) (f : Z -> jsstring),
              join (lit " ") (p :: map f l) = p ++ lit " " ++ join (lit " ") (map f l))
      by (intros; subst l; reflexivity).
    rewrite J, (byte_two_hex_digits b Bb).
    unfold Frames.withoutBlanks in *. split.
    + rewrite !filter_app, IH1.
      change (filter (fun c => negb (c =? 32)) (lit " ")) with (@nil Z).
      cbn [filter app]. rewrite !D by apply R. reflexivity.
    + rewrite !length_app, IH2.
      change (List.length (lit " ")) with 1%nat.
      subst l. cbn [List.length]. lia.
Qed.

(** X9. The sniffer logs a payload under the UUID of its characteristic
    as two lower-case hexadecimal digits a byte with one blank between
    bytes (3n - 1 characters for n bytes); taking the blanks out gives
    the dump the controller logs for the same payload. *)
Theorem sniffer_dump_is_spaced_dump
  (host : Host) (char : Characteristic) (payload : list Z)
  (sw : Sniffer.World) (w : World) :
  forallb Spec.isByte payload = true ->
  exists entry centry,
    Sniffer.logs
      (exec (Sniffer.notificationHandler host char (Some payload)) sw)
    = Sniffer.sliceLast 200 (Sniffer.logs sw) ++ [entry]
    /\ Sniffer.logUuid entry = uuid char
    /\ List.length (Sniffer.data entry)
       = (3 * List.length payload - 1)%nat
    /\ logs (exec (handleNotifications (withStandardDecoder host)
                     (Some payload)) w)
       = logs w ++ [centry]
    /\ (data centry = Some (Frames.withoutBlanks (Sniffer.data entry))
        \/ data centry
           = Some (lit "RAW: " ++ Frames.withoutBlanks (Sniffer.data entry))).
Proof.
  intros B. destruct (spaced_dump payload B) as [D L].
  destruct (handleNotifications_decode host payload w B)
    as [_ (centry & E & S)].
  destruct sw as [st lg dr sub to nt cr rd tr].
  eexists. exists centry.
  unfold Sniffer.notificationHandler, Sniffer.addLog. run_sniffer.
  cbn [Sniffer.logUuid Sniffer.data].
  split; [reflexivity |]. split; [reflexivity |]. split; [exact L |].
  split; [exact E |]. cbn [Sniffer.data]. rewrite D.
  unfold Spec.Decode in S.
  destruct (_ && _); cbn [Spec.logged] in S; destruct S as (_ & _ & Dt);
    [right | left]; exact Dt.
Qed.

Lemma sniffer_dump_is_spaced_dump_witness :
  exists entry,
    Sniffer.logs
      (exec (Sniffer.notificationHandler Sample.host Sample.notifyChar
               (Some [1; 171; 255])) Sniffer.initialWorld)
    = [entry]
    /\ Sniffer.data entry = lit "01 ab ff".
Proof.
  destruct (@sniffer_dump_is_spaced_dump Sample.host Sample.notifyChar
              [1; 171; 255] Sniffer.initialWorld initialWorld eq_refl)
    as (entry & _ & E & _).
  exists entry. split; [exact E |].
  cbn in E. injection E as <-. reflexivity.
Defined.

End SpellFrames.

(* ===================================================================== *)
(** ** Sessions: what every handler keeps *)
(* ===================================================================== *)

Ltac fields :=
  cbn [App.connectionStatus App.logs App.opCodes App.macroCommands
       App.isOpCodeTestMode App.opcodeToTest App.deviceRef App.writeCharRef
       App.keepAliveIntervalRef App.intervals App.timeouts App.nextTimer
       App.clockReads App.randomDraws App.writeCount App.trace
       App.ClearLeds App.Buzz App.ChangeLed] in *.

Ltac open_consistent :=
  unfold Session.consistent, Session.timersConsistent,
    Session.connectedIsLive, Session.counterInRange, Spec.validTable in *;
  fields.

Ltac close_consistent T3 T4 L :=
  repeat split; try discriminate; try lia; auto;
  try match goal with
      | H : _ = CONNECTED |- _ =>
          apply L in H; destruct H as (? & ? & ?); assumption
      end;
  try match goal with
      | H : In _ (filter _ _) |- _ => apply filter_In in H; destruct H as [H _]
      end;
  try match goal with
      | H : In _ (_ ++ [_]) |- _ =>
          apply in_app_or in H; destruct H as [H | [H | []]]; [| lia]
      end;
  try match goal with H : In _ _ |- _ => apply T4 in H; lia end;
  try match goal with H : _ = Some _ |- _ => apply T3 in H; lia end;
  try match goal with H : Some _ = Some _ |- _ => injection H as H; lia end.

(** Closes a branch of a handler run on a world given by its fields: the
    run is what it is, and consistency carries over. *)
Ltac settle :=
  (eexists; split; [reflexivity |]);
  let T1 := fresh "T1" in let T2 := fresh "T2" in
  let T3 := fresh "T3" in let T4 := fresh "T4" in
  let L := fresh "L" in let V := fresh "V" in let C := fresh "C" in
  intros ((T1 & T2 & T3 & T4) & L & V & C);
  open_consistent;
  try (exfalso; specialize (T3 _ eq_refl); lia);
  try subst; rewrite ?filter_self; cbn [app];
  close_consistent T3 T4 L.

Section SessionFacts.
Import App Session.

Variable host : Host.
Variable toISOString : Z -> jsstring.

Lemma sameSession_refl (w : World) : sameSession w w.
Proof. repeat split. Qed.

Lemma sameSession_trans (w1 w2 w3 : World) :
  sameSession w1 w2 -> sameSession w2 w3 -> sameSession w1 w3.
Proof.
  intros (A1 & A2 & A3 & A4 & A5 & A6 & A7 & A8)
         (B1 & B2 & B3 & B4 & B5 & B6 & B7 & B8).
  repeat split; congruence.
Qed.

Lemma consistent_same (w w' : World) :
  sameSession w w' -> opcodeToTest w' = opcodeToTest w ->
  consistent w -> consistent w'.
Proof.
  intros (A1 & A2 & A3 & A4 & A5 & A6 & A7 & A8) O (T & L & V & C).
  unfold consistent, timersConsistent, connectedIsLive, counterInRange.
  rewrite A1, A2, A3, A4, A5, A6, A7, A8, O.
  exact (conj T (conj L (conj V C))).
Qed.

Lemma framed_bind (c1 c2 : M World unit) (w : World) :
  framed c1 w -> (forall w1, sameSession w w1 -> framed c2 w1) ->
  framed (bind c1 (fun _ => c2)) w.
Proof.
  intros (w1 & R1 & S1 & O1) F2.
  destruct (F2 w1 S1) as (w2 & R2 & S2 & O2).
  exists w2. unfold bind. rewrite R1. split; [exact R2 |].
  split; [eapply sameSession_trans; eassumption | congruence].
Qed.

Lemma addLog_framed ty msg dat (w : World) : framed (addLog host ty msg dat) w.
Proof.
  destruct w as [st lg oc mc tm ot dr wr ka iv to nt cr rd wc tr].
  eexists. unfold addLog. run. split; [reflexivity |]. repeat split.
Qed.

Lemma sendData_framed (chunk : list Z) (w : World) :
  framed (sendData host chunk) w.
Proof.
  destruct w as [st lg oc mc tm ot dr wr ka iv to nt cr rd wc tr].
  unfold framed, sendData, addLog, write. run.
  destruct wr as [c |]; run.
  - destruct (writeValueWithoutResponse c wc chunk); run;
      (eexists; split; [reflexivity |]); repeat split.
  - eexists; split; [reflexivity |]; repeat split.
Qed.

Lemma delay_framed (ms : Z) (w : World) : framed (delay ms) w.
Proof.
  destruct w as [st lg oc mc tm ot dr wr ka iv to nt cr rd wc tr].
  eexists. unfold delay. run. split; [reflexivity |]. repeat split.
Qed.

Lemma sendChunks_framed (bytes : list number) (i : nat) :
  forall w, framed (sendChunks host bytes i) w.
Proof.
  funelim (sendChunks host bytes i); intros w.
  - apply framed_bind; [apply sendData_framed |]. intros w1 _.
    apply framed_bind; [apply delay_framed |]. intros w2 _.
    exact (H tt tt w2 w2).
  - exists w. split; [reflexivity |]. split; [apply sameSession_refl |].
    reflexivity.
Qed.

Lemma sendMacro_framed (w : World) : framed (sendMacro host) w.
Proof.
  unfold framed, sendMacro, bind at 1, get. cbv beta iota.
  destruct (macroCommands w) as [| cmd rest].
  - exists w. split; [reflexivity |]. split; [apply sameSession_refl |].
    reflexivity.
  - apply framed_bind; [apply addLog_framed |]. intros w1 _.
    apply sendChunks_framed.
Qed.

Lemma handleNotifications_framed (value : option (list Z)) (w : World) :
  framed (handleNotifications host value) w.
Proof.
  destruct value as [payload |].
  - unfold framed. rewrite handleNotifications_run.
    destruct (Spec.spellNameWith _ _); apply addLog_framed.
  - exists w. split; [reflexivity |]. split; [apply sameSession_refl |].
    reflexivity.
Qed.

Lemma disconnect_keeps (w : World) : keeps (disconnect host) w.
Proof.
  destruct w as [st lg oc mc tm ot dr wr ka iv to nt cr rd wc tr].
  unfold keeps, disconnect, addLog. run.
  destruct ka as [t |]; run; [destruct (Z.eqb_spec t 0); run |];
    (destruct dr as [d |]; run; [destruct (hasGatt d && connected d); run |]);
    settle.
Qed.

Lemma timeoutFires_keeps (timer : Z) (w : World) : keeps (timeoutFires timer) w.
Proof.
  destruct w as [st lg oc mc tm ot dr wr ka iv to nt cr rd wc tr].
  unfold keeps, timeoutFires. run.
  destruct (existsb (Z.eqb timer) to); run; settle.
Qed.

Lemma connect_keeps (chooser : Result Device) (w : World) : keeps (connect host chooser) w.
Proof.
  destruct w as [st lg oc mc tm ot dr wr ka iv to nt cr rd wc tr].
  unfold keeps, connect, connectAttempt, startKeepAlive, setInterval,
    setTimeout, addLog.
  destruct (bluetooth host); cbn [negb]; run; [| settle].
  destruct chooser as [d | e]; run; [| settle].
  destruct (hasGatt d); run; [| settle].
  destruct (gattConnect d); run; [settle |].
  destruct (getPrimaryService d (firstSegment WRITE_UUID)) as [service | e];
    run; [| settle].
  destruct (getCharacteristic service WRITE_UUID) as [wc' | e]; run;
    [| settle].
  destruct (getCharacteristic service NOTIFY_UUID) as [nc | e]; run;
    [| settle].
  destruct (startNotifications nc); run; [settle |].
  destruct ka as [t |]; run; [destruct (Z.eqb_spec t 0); run |]; settle.
Qed.

Lemma framed_keeps (c : M World unit) (w : World) : framed c w -> keeps c w.
Proof.
  intros (w' & R & S & O). exists w'. split; [exact R |].
  now apply consistent_same.
Qed.

Lemma keeps_after (c : M World unit) (w w1 : World) :
  (consistent w -> consistent w1) -> keeps c w1 ->
  exists w', c w1 = (Ok tt, w') /\ (consistent w -> consistent w').
Proof. intros K (w' & R & K'). exists w'. split; [exact R | auto]. Qed.

Lemma intervalFires_keeps (timer : Z) (w : World) :
  keeps (intervalFires host timer) w.
Proof.
  destruct w as [st lg oc mc tm ot dr wr ka iv to nt cr rd wc tr].
  unfold keeps, intervalFires, keepAliveCallback, write. run.
  destruct (existsb (Z.eqb timer) iv); run; [| settle].
  destruct wr as [c |]; run; [| settle].
  destruct (writeValueWithoutResponse c wc KEEPALIVE_COMMAND); run;
    [| settle].
  apply keeps_after; [| apply disconnect_keeps].
  intros ((T1 & T2 & T3 & T4) & L & V & C). open_consistent.
  close_consistent T3 T4 L.
Qed.

Lemma gattServerDisconnected_keeps (w : World) :
  keeps (gattServerDisconnected host) w.
Proof.
  destruct w as [st lg oc mc tm ot dr wr ka iv to nt cr rd wc tr].
  unfold keeps, gattServerDisconnected. run.
  destruct dr as [d |]; run; [| settle].
  destruct (listening d); run; [| settle].
  apply keeps_after; [| apply disconnect_keeps].
  intros ((T1 & T2 & T3 & T4) & L & V & C). open_consistent.
  close_consistent T3 T4 L.
Qed.

Lemma testNextOpCode_keeps (w : World) : keeps (testNextOpCode host) w.
Proof.
  unfold keeps, testNextOpCode, bind at 1, get. cbv beta iota.
  destruct (Z.ltb_spec 255 (opcodeToTest w)) as [Hi | Lo].
  - destruct w as [st lg oc mc tm ot dr wr ka iv to nt cr rd wc tr].
    unfold addLog. run. settle.
  - destruct (addLog_framed COMMAND
                (lit "Testing OpCode 0x"
                 ++ padStart0 2 (toUpperCase (unicodeUpper host)
                                   (toString16 (Num (opcodeToTest w)))))
                None w) as (w1 & R1 & S1 & O1).
    destruct (sendData_framed [toUint8 (Num (opcodeToTest w))] w1)
      as (w2 & R2 & S2 & O2).
    unfold bind. rewrite R1, R2. unfold modify.
    eexists. split; [reflexivity |]. intros K.
    assert (K2 : consistent w2).
    { apply (consistent_same (w := w)); [| congruence | exact K].
      eapply sameSession_trans; eassumption. }
    assert (O : opcodeToTest w2 = opcodeToTest w) by congruence.
    clear - K2 O Lo.
    destruct w2 as [st lg oc mc tm ot dr wr ka iv to nt cr rd wc tr].
    destruct K2 as ((T1 & T2 & T3 & T4) & L & V & C). open_consistent.
    unfold with_opcodeToTest. fields.
    close_consistent T3 T4 L.
Qed.

Lemma editOpCode_keeps (kind : CommandType) (text : jsstring) (w : World) :
  keeps (ControlPanel.editOpCode kind text) w.
Proof.
  unfold keeps. rewrite editOpCode_run.
  destruct (Spec.accepted (Spec.inputNumber text)) as [v |] eqn:A.
  - apply accepted_byte in A as [_ B].
    destruct w as [st lg oc mc tm ot dr wr ka iv to nt cr rd wc tr].
    unfold ControlPanel.setOpCode. run. destruct kind; settle.
  - exists w. split; [reflexivity | auto].
Qed.

Lemma panel_keeps (a : Action) (w : World) :
  match a with
  | ToggleOpCodeTestMode | AddCommand _ | RemoveCommand _
  | UpdateCommand _ _ | Unmount => keeps (perform host toISOString a) w
  | _ => True
  end.
Proof.
  destruct w as [st lg oc mc tm ot dr wr ka iv to nt cr rd wc tr].
  destruct a; try exact I;
    unfold keeps, perform, ControlPanel.toggleOpCodeTestMode,
      Builder.addCommand, Builder.removeCommand, Builder.updateCommand,
      unmount, unmountCleanup;
    run; settle.
Qed.

(** Every handler ends normally and keeps a consistent world
    consistent. *)
Lemma perform_keeps (a : Action) (w : World) :
  keeps (perform host toISOString a) w.
Proof.
  destruct a as [chooser | | | | value | timer | timer | | kind text
                 | | ty | cid | cid u |].
  - apply connect_keeps.
  - apply disconnect_keeps.
  - apply framed_keeps, sendMacro_framed.
  - apply testNextOpCode_keeps.
  - apply framed_keeps, handleNotifications_framed.
  - apply intervalFires_keeps.
  - apply timeoutFires_keeps.
  - apply gattServerDisconnected_keeps.
  - apply editOpCode_keeps.
  - exact (panel_keeps ToggleOpCodeTestMode w).
  - exact (panel_keeps (AddCommand ty) w).
  - exact (panel_keeps (RemoveCommand cid) w).
  - exact (panel_keeps (UpdateCommand cid u) w).
  - exact (panel_keeps Unmount w).
Qed.

Lemma initialWorld_consistent : consistent initialWorld.
Proof.
  unfold consistent, timersConsistent, connectedIsLive, counterInRange,
    Spec.validTable, initialWorld.
  cbn. repeat split; try lia; try discriminate; intros ? [].
Qed.

Lemma performAll_consistent (actions : list Action) (w : World) :
  consistent w -> consistent (performAll host toISOString actions w).
Proof.
  revert w. induction actions as [| a rest IH]; intros w K; [exact K |].
  cbn [performAll fold_left]. apply IH.
  destruct (perform_keeps a w) as (w' & R & K'). unfold exec. rewrite R.
  now apply K'.
Qed.

(** X10. No handler of the controller lets an exception escape: whatever
    the world, the chooser, the device and the outcome of each write,
    every handler and every host event ends normally. *)
Theorem handlers_never_raise (a : Action) (w : World) :
  returns (perform host toISOString a) w = true.
Proof.
  destruct (perform_keeps a w) as (w' & R & _). unfold returns. now rewrite R.
Qed.

(** X11. After any sequence of handler calls and host events from the
    freshly mounted controller: at most one keep-alive interval is armed,
    the one the keep-alive ref records, and timer ids are positive; in
    state Connected the keep-alive is armed and the device and the write
    characteristic are held; the opcode table is a table of bytes; the
    discovery counter lies between 1 and 256. *)
Theorem session_stays_consistent (actions : list Action) :
  let w := performAll host toISOString actions initialWorld in
  (intervals w
   = match keepAliveIntervalRef w with Some timer => [timer] | None => [] end)
  /\ (forall timer, keepAliveIntervalRef w = Some timer -> 0 < timer)
  /\ (connectionStatus w = CONNECTED ->
      keepAliveIntervalRef w <> None /\ writeCharRef w <> None
      /\ deviceRef w <> None)
  /\ Spec.validTable (opCodes w)
  /\ 1 <= opcodeToTest w <= 256.
Proof.
  cbv zeta.
  destruct (performAll_consistent actions initialWorld_consistent)
    as ((T1 & T2 & T3 & T4) & L & V & C).
  split; [exact T2 |]. split; [intros t Ht; apply T3 in Ht; lia |].
  split; [exact L |]. split; [exact V | exact C].
Qed.

End SessionFacts.

(* ===================================================================== *)
(** ** Sessions: teardown from anywhere, and what outlives a session *)
(* ===================================================================== *)

Section SessionEdges.
Import App Session.

Variable host : Host.

(** X12. [disconnect] tears down whatever it finds: from every world
    whose timers are consistent it ends with no interval armed, no
    keep-alive recorded, no device and no write characteristic held, in
    state Disconnected, and it logs the disconnection; on a session that
    is torn already it only clears the refs again and sets the state. *)
Theorem disconnect_always_tears_down (w : World) :
  timersConsistent w ->
  let w' := exec (disconnect host) w in
  Spec.torn w'
  /\ (exists entry,
        logs w' = logs w ++ [entry]
        /\ type entry = INFO /\ message entry = lit "Wand disconnected.")
  /\ (Spec.torn w ->
      trace w'
      = trace w ++ [EvSetDeviceRef false; EvSetWriteCharRef false;
                    EvSetStatus DISCONNECTED]).
Proof.
  intros (T1 & T2 & T3 & T4). cbv zeta.
  destruct w as [st lg oc mc tm ot dr wr ka iv to nt cr rd wc tr].
  unfold Spec.torn, disconnect, addLog. fields. run.
  destruct ka as [t |]; run.
  - pose proof (T3 t eq_refl) as P.
    destruct (Z.eqb_spec t 0) as [Z0 | N]; [lia |]. run. subst iv.
    rewrite filter_self.
    destruct dr as [d |]; run; [destruct (hasGatt d && connected d); run |];
      (split; [repeat split |]);
      (split; [eexists; split; [reflexivity |]; split; reflexivity |]);
      intros (K & _); discriminate K.
  - subst iv.
    destruct dr as [d |]; run; [destruct (hasGatt d && connected d); run |];
      (split; [repeat split |]);
      (split; [eexists; split; [reflexivity |]; split; reflexivity |]);
      intros (_ & _ & D & _); try discriminate D.
    now rewrite <- !app_assoc.
Qed.

End SessionEdges.

Lemma disconnect_always_tears_down_witness :
  Spec.torn (exec (App.disconnect Sample.host) Sample.connectedWorld).
Proof.
  assert (T : Session.timersConsistent Sample.connectedWorld).
  { unfold Session.timersConsistent. cbn.
    repeat split; try lia; try (injection H as <-; lia); destruct H. }
  destruct (@disconnect_always_tears_down Sample.host Sample.connectedWorld T)
    as (K & _).
  exact K.
Defined.

Section Outliving.
Import App Session.

Variable host : Host.

(** A keep-alive tick on a session whose write succeeds. *)
Lemma heartbeat_run (w : World) (timer : Z) (c : Characteristic) :
  keepAliveIntervalRef w = Some timer ->
  intervals w = [timer] ->
  writeCharRef w = Some c ->
  writeValueWithoutResponse c (writeCount w) KEEPALIVE_COMMAND = None ->
  trace (exec (intervalFires host timer) w)
  = trace w ++ [EvWrite KEEPALIVE_COMMAND true].
Proof.
  destruct w as [st lg oc mc tm ot dr wr ka iv to nt cr rd wc tr]. fields.
  intros -> -> -> W.
  unfold intervalFires, keepAliveCallback, write. run.
  cbn [existsb]. rewrite Z.eqb_refl. cbn [orb]. run. rewrite W. run.
  reflexivity.
Qed.

(** X13. The timeout a failed connect schedules is never cancelled.  When
    the next connect succeeds before the 3000 ms are over, the timeout
    still comes due and sets the state to Disconnected, while the session
    stays up: the keep-alive stays armed, the device and the write
    characteristic stay held. *)
Theorem stale_timeout_hides_session
  (w : World) (e : JsError) (d : Device) (service : Service)
  (writeChar notifyChar : Characteristic) :
  bluetooth host = true ->
  hasGatt d = true ->
  gattConnect d = None ->
  getPrimaryService d (firstSegment WRITE_UUID) = Ok service ->
  getCharacteristic service WRITE_UUID = Ok writeChar ->
  getCharacteristic service NOTIFY_UUID = Ok notifyChar ->
  startNotifications notifyChar = None ->
  keepAliveIntervalRef w = None ->
  intervals w = [] ->
  let failed := exec (connect host (Throw e)) w in
  let connected := exec (connect host (Ok d)) failed in
  let later := exec (timeoutFires (nextTimer w)) connected in
  connectionStatus failed = ERROR
  /\ connectionStatus connected = CONNECTED
  /\ In (nextTimer w) (timeouts connected)
  /\ connectionStatus later = DISCONNECTED
  /\ keepAliveIntervalRef later = Some (nextTimer w + 1)
  /\ intervals later = [nextTimer w + 1]
  /\ writeCharRef later = Some writeChar
  /\ deviceRef later = Some (setConnected true (setListening true d)).
Proof.
  intros Bt Hg Hc Hs Hw Hn Hst K I. cbv zeta.
  destruct w as [st lg oc mc tm ot dr wr ka iv to nt cr rd wc tr].
  fields. subst ka iv.
  unfold connect, connectAttempt, startKeepAlive, setInterval, setTimeout,
    timeoutFires, addLog.
  rewrite Bt. cbn [negb].
  run. rewrite Hg. run. rewrite Hc. run. rewrite Hs. run.
  rewrite Hw. run. rewrite Hn. run. rewrite Hst. run.
  rewrite existsb_last. run.
  repeat split. apply in_or_app. right. now left.
Qed.

(** X14. The cleanup that runs on unmount is the closure of the first
    render, which saw state Disconnected: it never calls [disconnect].
    Unmounting leaves the world as it is, and on a session that is up
    the keep-alive goes on writing to the wand. *)
Theorem unmount_keeps_session_up
  (w : World) (timer : Z) (c : Characteristic) :
  keepAliveIntervalRef w = Some timer ->
  intervals w = [timer] ->
  writeCharRef w = Some c ->
  writeValueWithoutResponse c (writeCount w) KEEPALIVE_COMMAND = None ->
  exec (unmount host) w = w
  /\ trace (exec (intervalFires host timer) (exec (unmount host) w))
     = trace w ++ [EvWrite KEEPALIVE_COMMAND true].
Proof.
  intros K I B W.
  assert (U : exec (unmount host) w = w) by reflexivity.
  rewrite U. split; [reflexivity |].
  now apply (@heartbeat_run w timer c).
Qed.

End Outliving.

Lemma stale_timeout_hides_session_witness :
  let w :=
    exec (App.timeoutFires 1)
      (exec (App.connect Sample.host (Ok Sample.wand))
         (exec (App.connect Sample.host (Throw Sample.notFound))
            App.initialWorld)) in
  App.connectionStatus w = DISCONNECTED /\ App.intervals w = [2].
Proof.
  destruct (@stale_timeout_hides_session Sample.host App.initialWorld
              Sample.notFound Sample.wand Sample.wandService
              Sample.writeChar Sample.notifyChar
              eq_refl eq_refl eq_refl eq_refl eq_refl eq_refl eq_refl
              eq_refl eq_refl)
    as (_ & _ & _ & S & _ & I & _).
  split; [exact S | exact I].
Defined.

Lemma unmount_keeps_session_up_witness :
  App.connectionStatus (exec (Session.unmount Sample.host) Sample.connectedWorld)
  = CONNECTED.
Proof.
  destruct (@unmount_keeps_session_up Sample.host Sample.connectedWorld 1
              Sample.writeChar eq_refl eq_refl eq_refl eq_refl) as [U _].
  rewrite U. reflexivity.
Defined.

(* ===================================================================== *)
(** ** Sending when the wand does not take the bytes *)
(* ===================================================================== *)

Section Failures.
Import App Session.

Variable host : Host.

Lemma errorEntries_snoc (log : list LogEntry) (entry : LogEntry) :
  List.length (Frames.errorEntries (log ++ [entry]))
  = (List.length (Frames.errorEntries log)
     + match type entry with LOG_ERROR => 1 | _ => 0 end)%nat.
Proof.
  unfold Frames.errorEntries. rewrite filter_app, length_app. cbn [filter].
  now destruct (type entry).
Qed.

Lemma failedWrites_app (a b : list Event) :
  Frames.failedWrites (a ++ b)
  = (Frames.failedWrites a + Frames.failedWrites b)%nat.
Proof.
  induction a as [| e a IH]; [reflexivity |].
  destruct e; cbn [app Frames.failedWrites]; try exact IH.
  destruct ok; cbn; now rewrite IH.
Qed.

(** What [sendData] leaves, by what it finds. *)
Lemma sendData_outcome (chunk : list Z) (w : World) :
  exists w',
    sendData host chunk w = (Ok tt, w')
    /\ writeCharRef w' = writeCharRef w
    /\ match writeCharRef w with
       | None =>
           trace w' = trace w
           /\ exists entry,
                logs w' = logs w ++ [entry]
                /\ type entry = LOG_ERROR
                /\ message entry
                   = lit "Cannot send data. Write characteristic not available."
       | Some c =>
           match writeValueWithoutResponse c (writeCount w) chunk with
           | None =>
               trace w' = trace w ++ [EvWrite chunk true]
               /\ logs w' = logs w
           | Some e =>
               trace w' = trace w ++ [EvWrite chunk false]
               /\ exists entry,
                    logs w' = logs w ++ [entry]
                    /\ type entry = LOG_ERROR
                    /\ message entry
                       = lit "Failed to send data: " ++ errMessage e
           end
       end.
Proof.
  destruct w as [st lg oc mc tm ot dr wr ka iv to nt cr rd wc tr].
  unfold sendData, addLog, write. run.
  destruct wr as [c |]; run.
  - destruct (writeValueWithoutResponse c wc chunk); run;
      (eexists; split; [reflexivity |]); (split; [reflexivity |]);
      (split; [reflexivity |]); try reflexivity.
    eexists. repeat split.
  - eexists. split; [reflexivity |]. split; [reflexivity |].
    split; [reflexivity |]. eexists. repeat split.
Qed.

Lemma sendData_modes (chunk : list Z) (w : World) :
  exists w',
    sendData host chunk w = (Ok tt, w')
    /\ opcodeToTest w' = opcodeToTest w
    /\ isOpCodeTestMode w' = isOpCodeTestMode w.
Proof.
  destruct w as [st lg oc mc tm ot dr wr ka iv to nt cr rd wc tr].
  unfold sendData, addLog, write. run.
  destruct wr as [c |]; run;
    [destruct (writeValueWithoutResponse c wc chunk); run |];
    (eexists; split; [reflexivity |]); split; reflexivity.
Qed.

Lemma sendChunks_failures (bytes : list number) (i : nat) :
  forall (w : World) (c : Characteristic),
    writeCharRef w = Some c ->
    exists tr w',
      sendChunks host bytes i w = (Ok tt, w')
      /\ trace w' = trace w ++ tr
      /\ List.length (Frames.errorEntries (logs w'))
         = (List.length (Frames.errorEntries (logs w))
            + Frames.failedWrites tr)%nat.
Proof.
  funelim (sendChunks host bytes i); intros w c B.
  - destruct (sendData_outcome
                (map toUint8 (firstn MTU_PAYLOAD_SIZE (skipn i bytes))) w)
      as (w1 & R1 & B1 & O).
    rewrite B in O, B1.
    set (w2 := with_trace (trace w1 ++ [EvDelay 20]) w1).
    assert (B2 : writeCharRef w2 = Some c)
      by (destruct w1; exact B1).
    destruct (H tt tt w2 w2 c B2) as (tr & w' & R & T & E).
    assert (T2 : trace w2 = trace w1 ++ [EvDelay 20]) by now destruct w1.
    assert (L2 : logs w2 = logs w1) by now destruct w1.
    rewrite T2 in T. rewrite L2 in E.
    assert (Run : (sendData host
                     (map toUint8 (firstn MTU_PAYLOAD_SIZE (skipn i bytes)));;
                   delay 20;;
                   (fun H => sendChunks host bytes (i + MTU_PAYLOAD_SIZE) H))%eff
                    w = (Ok tt, w')).
    { unfold bind at 1. rewrite R1.
      unfold bind at 1, delay, emit, modify. fold w2. exact R. }
    destruct (writeValueWithoutResponse c (writeCount w) _) as [e |].
    + destruct O as (T1 & entry & L1 & Ty & _).
      exists (EvWrite (map toUint8 (firstn MTU_PAYLOAD_SIZE (skipn i bytes)))
                false :: EvDelay 20 :: tr), w'.
      split; [exact Run |]. split.
      * rewrite T, T1. now rewrite <- !app_assoc.
      * rewrite E, L1, errorEntries_snoc, Ty. cbn [Frames.failedWrites]. lia.
    + destruct O as (T1 & L1).
      exists (EvWrite (map toUint8 (firstn MTU_PAYLOAD_SIZE (skipn i bytes)))
                true :: EvDelay 20 :: tr), w'.
      split; [exact Run |]. split.
      * rewrite T, T1. now rewrite <- !app_assoc.
      * rewrite E, L1. cbn [Frames.failedWrites]. lia.
  - exists [], w. rewrite app_nil_r. cbn. split; [reflexivity |].
    split; [reflexivity | lia].
Qed.

Lemma sendChunks_unbound (bytes : list number) (i : nat) :
  forall (w : World),
    writeCharRef w = None ->
    let k := List.length (Spec.chunkSizes (List.length bytes - i)) in
    exists w',
      sendChunks host bytes i w = (Ok tt, w')
      /\ trace w' = trace w ++ repeat (EvDelay 20) k
      /\ List.length (Frames.errorEntries (logs w'))
         = (List.length (Frames.errorEntries (logs w)) + k)%nat.
Proof.
  funelim (sendChunks host bytes i); intros w B; cbv zeta.
  - destruct (sendData_outcome
                (map toUint8 (firstn MTU_PAYLOAD_SIZE (skipn i bytes))) w)
      as (w1 & R1 & B1 & O).
    rewrite B in O, B1. destruct O as (T1 & entry & L1 & Ty & _).
    set (w2 := with_trace (trace w1 ++ [EvDelay 20]) w1).
    assert (B2 : writeCharRef w2 = None) by (destruct w1; exact B1).
    destruct (H tt tt w2 w2 B2) as (w' & R & T & E).
    assert (T2 : trace w2 = trace w1 ++ [EvDelay 20]) by now destruct w1.
    assert (L2 : logs w2 = logs w1) by now destruct w1.
    rewrite T2 in T. rewrite L2 in E.
    exists w'. split; [| split].
    + unfold bind at 1. rewrite R1.
      unfold bind at 1, delay, emit, modify. fold w2. exact R.
    + rewrite T, T1.
      rewrite (chunkSizes_step (n := List.length bytes - i)) by lia.
      cbn [List.length repeat]. rewrite <- app_assoc. cbn [app].
      unfold MTU_PAYLOAD_SIZE.
      replace (List.length bytes - (i + 20))%nat
        with (List.length bytes - i - 20)%nat by lia.
      reflexivity.
    + rewrite E, L1, errorEntries_snoc, Ty.
      rewrite (chunkSizes_step (n := List.length bytes - i)) by lia.
      cbn [List.length]. unfold MTU_PAYLOAD_SIZE.
      replace (List.length bytes - (i + 20))%nat
        with (List.length bytes - i - 20)%nat by lia. lia.
  - exists w.
    replace (List.length bytes - i)%nat with 0%nat by lia.
    cbn. rewrite app_nil_r. split; [reflexivity |].
    split; [reflexivity | lia].
Qed.

(** X15. A write the wand refuses does not stop a macro: [sendMacro]
    still attempts every chunk, ends normally, and the log gains one
    error entry for each refused write. *)
Theorem macro_goes_on_after_failed_writes (w : World) (c : Characteristic) :
  writeCharRef w = Some c ->
  let bytes := fullCommandBytes (opCodes w) (macroCommands w) in
  let w' := exec (sendMacro host) w in
  returns (sendMacro host) w = true
  /\ exists tr,
       trace w' = trace w ++ tr
       /\ List.length (Spec.writesOf tr)
          = List.length (Spec.chunkSizes (List.length bytes))
       /\ List.length (Frames.errorEntries (logs w'))
          = (List.length (Frames.errorEntries (logs w))
             + Frames.failedWrites tr)%nat.
Proof.
  intros B bytes w'. subst w'.
  destruct (sendMacro_run host w B) as (tr & w' & R & T & _ & S & _).
  fold bytes in S. unfold returns, exec. rewrite R. cbn [fst snd].
  split; [reflexivity |]. exists tr. split; [exact T |].
  split; [now rewrite <- S, length_map |].
  revert R. unfold sendMacro, bind at 1, get.
  destruct (macroCommands w) as [| cmd rest] eqn:E.
  - intros R. injection R as <-.
    rewrite <- (app_nil_r (trace w)) in T at 1.
    apply app_inv_head in T. subst tr. cbn. lia.
  - fold bytes. unfold bind at 1.
    destruct (addLog_run host COMMAND (lit "Sending VFX Macro...")
                (Some (lit "Bytes: " ++ join (lit " ") (hexBytes bytes))) w)
      as (entry & -> & Ty & _).
    match goal with |- context [sendChunks host bytes 0 ?w1] =>
      assert (T1 : trace w1 = trace w) by (destruct w; reflexivity);
      assert (L1 : logs w1 = logs w ++ [entry]) by (destruct w; reflexivity);
      destruct (sendChunks_failures bytes 0 w1 B) as (tr2 & w2 & R2 & T2 & E2)
    end.
    rewrite R2. intros R. injection R as <-.
    rewrite T1 in T2. rewrite L1 in E2.
    rewrite T2 in T. apply app_inv_head in T. subst tr2.
    rewrite E2, errorEntries_snoc, Ty. lia.
Qed.

(** X16. With no write characteristic held, [sendMacro] writes nothing
    and still walks through every chunk: for each chunk it logs one
    error and waits the 20 ms. *)
Theorem macro_without_binding_writes_nothing (w : World) :
  writeCharRef w = None ->
  macroCommands w <> [] ->
  let bytes := fullCommandBytes (opCodes w) (macroCommands w) in
  let k := List.length (Spec.chunkSizes (List.length bytes)) in
  let w' := exec (sendMacro host) w in
  returns (sendMacro host) w = true
  /\ trace w' = trace w ++ repeat (EvDelay 20) k
  /\ List.length (Frames.errorEntries (logs w'))
     = (List.length (Frames.errorEntries (logs w)) + k)%nat.
Proof.
  intros B NE bytes k w'. subst w' k.
  assert (Run : exists w2,
            sendMacro host w = (Ok tt, w2)
            /\ trace w2
               = trace w
                 ++ repeat (EvDelay 20)
                      (List.length (Spec.chunkSizes (List.length bytes)))
            /\ List.length (Frames.errorEntries (logs w2))
               = (List.length (Frames.errorEntries (logs w))
                  + List.length (Spec.chunkSizes (List.length bytes)))%nat).
  { unfold sendMacro, bind at 1, get.
    destruct (macroCommands w) as [| cmd rest] eqn:E; [congruence |].
    fold bytes. unfold bind.
    destruct (addLog_run host COMMAND (lit "Sending VFX Macro...")
                (Some (lit "Bytes: " ++ join (lit " ") (hexBytes bytes))) w)
      as (entry & -> & Ty & _).
    match goal with |- context [sendChunks host bytes 0 ?w1] =>
      assert (B1 : writeCharRef w1 = None) by (destruct w; exact B);
      assert (T1 : trace w1 = trace w) by (destruct w; reflexivity);
      assert (L1 : logs w1 = logs w ++ [entry]) by (destruct w; reflexivity);
      destruct (sendChunks_unbound bytes 0 w1 B1) as (w2 & R2 & T2 & E2)
    end.
    rewrite Nat.sub_0_r in T2, E2. rewrite T1 in T2. rewrite L1 in E2.
    exists w2. split; [exact R2 |]. split; [exact T2 |].
    rewrite E2, errorEntries_snoc, Ty. lia. }
  destruct Run as (w2 & R & T & E).
  unfold returns, exec. rewrite R. cbn [fst snd].
  split; [reflexivity |]. split; [exact T | exact E].
Qed.

(** X17. A discovery step counts on whether or not its byte went out:
    with the counter at most 0xFF, [testNextOpCode] raises it by one
    when the write is refused and when no write characteristic is held;
    in the latter case nothing is written and the log gains the probe
    and an error. *)
Theorem probe_counts_unsent_bytes (w : World) :
  opcodeToTest w <= 255 ->
  let w' := exec (testNextOpCode host) w in
  opcodeToTest w' = opcodeToTest w + 1
  /\ isOpCodeTestMode w' = isOpCodeTestMode w
  /\ (writeCharRef w = None ->
      trace w' = trace w
      /\ exists probe failure,
           logs w' = logs w ++ [probe; failure]
           /\ type probe = COMMAND /\ type failure = LOG_ERROR).
Proof.
  intros Lo w'. subst w'.
  assert (Run : exists probe w2,
            testNextOpCode host w
            = (Ok tt, with_opcodeToTest (opcodeToTest w + 1) w2)
            /\ isOpCodeTestMode w2 = isOpCodeTestMode w
            /\ type probe = COMMAND
            /\ (writeCharRef w = None ->
                trace w2 = trace w
                /\ exists failure,
                     logs w2 = logs w ++ [probe; failure]
                     /\ type failure = LOG_ERROR)).
  { unfold testNextOpCode, bind at 1, get.
    destruct (Z.ltb_spec 255 (opcodeToTest w)) as [G | _]; [lia |].
    unfold bind at 1.
    match goal with |- context [addLog host ?t ?m ?d w] =>
      destruct (addLog_run host t m d w) as (probe & -> & Ty & _) end.
    unfold bind at 1.
    match goal with |- context [sendData host ?ch ?w1] =>
      assert (T1 : trace w1 = trace w) by (destruct w; reflexivity);
      assert (L1 : logs w1 = logs w ++ [probe]) by (destruct w; reflexivity);
      assert (O1 : opcodeToTest w1 = opcodeToTest w)
        by (destruct w; reflexivity);
      assert (M1 : isOpCodeTestMode w1 = isOpCodeTestMode w)
        by (destruct w; reflexivity);
      assert (B1 : writeCharRef w1 = writeCharRef w)
        by (destruct w; reflexivity);
      destruct (sendData_outcome ch w1) as (w2 & R2 & B2 & O);
      destruct (sendData_modes ch w1) as (w2' & R2' & O2 & M2)
    end.
    rewrite R2 in R2'. injection R2' as <-. rewrite R2.
    exists probe, w2. unfold modify. rewrite O2, O1.
    split; [reflexivity |]. split; [congruence |]. split; [exact Ty |].
    intros U. rewrite B1, U in O. destruct O as (T2 & failure & L2 & Tf & _).
    split; [congruence |]. exists failure.
    rewrite L2, L1, <- app_assoc. split; [reflexivity | exact Tf]. }
  destruct Run as (probe & w2 & R & M & Ty & U).
  unfold exec. rewrite R. cbn [snd].
  assert (P : opcodeToTest (with_opcodeToTest (opcodeToTest w + 1) w2)
              = opcodeToTest w + 1
              /\ isOpCodeTestMode (with_opcodeToTest (opcodeToTest w + 1) w2)
                 = isOpCodeTestMode w2
              /\ trace (with_opcodeToTest (opcodeToTest w + 1) w2) = trace w2
              /\ logs (with_opcodeToTest (opcodeToTest w + 1) w2) = logs w2)
    by (destruct w2; repeat split).
  destruct P as (-> & -> & -> & ->).
  split; [reflexivity |]. split; [exact M |].
  intros N. destruct (U N) as (T & failure & L & Tf).
  split; [exact T |]. exists probe, failure. repeat split; assumption.
Qed.

End Failures.

Lemma macro_goes_on_after_failed_writes_witness :
  returns (App.sendMacro Sample.host) Scenes.deafWorld = true
  /\ exists tr,
       App.trace (exec (App.sendMacro Sample.host) Scenes.deafWorld) = tr
       /\ List.length (Spec.writesOf tr) = 3%nat
       /\ List.length
            (Frames.errorEntries
               (App.logs (exec (App.sendMacro Sample.host) Scenes.deafWorld)))
          = Frames.failedWrites tr.
Proof.
  destruct (@macro_goes_on_after_failed_writes Sample.host Scenes.deafWorld
              Scenes.deafChar eq_refl) as (R & tr & T & W & E).
  split; [exact R |]. exists tr.
  split; [exact T |]. split; [exact W | exact E].
Defined.

Lemma macro_without_binding_writes_nothing_witness :
  Spec.writesOf
    (App.trace (exec (App.sendMacro Sample.host) Scenes.unboundWorld)) = []
  /\ List.length
       (Frames.errorEntries
          (App.logs (exec (App.sendMacro Sample.host) Scenes.unboundWorld)))
     = 3%nat.
Proof.
  destruct (@macro_without_binding_writes_nothing Sample.host
              Scenes.unboundWorld eq_refl ltac:(discriminate))
    as (_ & T & E).
  split; [rewrite T | rewrite E]; vm_compute; reflexivity.
Defined.

Lemma probe_counts_unsent_bytes_witness :
  let w := exec (App.testNextOpCode Sample.host) App.initialWorld in
  App.opcodeToTest w = 2 /\ App.trace w = [].
Proof.
  destruct (@probe_counts_unsent_bytes Sample.host App.initialWorld
              ltac:(cbn; lia)) as (O & _ & U).
  split; [exact O |]. destruct (U eq_refl) as [T _]. exact T.
Defined.

(* ===================================================================== *)
(** ** Connecting: what a failure leaves *)
(* ===================================================================== *)

Section ConnectEdges.
Import App.

Variable host : Host.

(** X18. Without Web Bluetooth neither panel talks to a device.  The
    controller only logs an error: its state stays what it was and no
    timer is set.  The sniffer raises an alert and enters Error, and
    schedules no return to Disconnected. *)
Theorem no_bluetooth_no_attempt
  (chooser : Result Device) (w : World) (sw : Sniffer.World) :
  bluetooth host = false ->
  let w' := exec (connect host chooser) w in
  let sw' := exec (Sniffer.startSniffing host chooser) sw in
  connectionStatus w' = connectionStatus w
  /\ trace w' = trace w
  /\ timeouts w' = timeouts w
  /\ (exists entry,
        logs w' = logs w ++ [entry]
        /\ type entry = LOG_ERROR
        /\ message entry
           = lit "Web Bluetooth API is not available on this browser.")
  /\ Sniffer.status sw' = Sniffer.Error
  /\ Sniffer.timeouts sw' = Sniffer.timeouts sw
  /\ Sniffer.deviceRef sw' = Sniffer.deviceRef sw
  /\ Sniffer.trace sw'
     = Sniffer.trace sw
       ++ [Sniffer.EvAlert
             (lit "Web Bluetooth API is not available on this browser.");
           Sniffer.EvSetStatus Sniffer.Error].
Proof.
  intros Bt. cbv zeta.
  destruct w as [st lg oc mc tm ot dr wr ka iv to nt cr rd wc tr].
  destruct sw as [sst slg sdr ssub sto snt scr srd str].
  unfold connect, Sniffer.startSniffing, addLog. rewrite Bt. cbn [negb].
  run. run_sniffer. rewrite <- !app_assoc.
  repeat split. eexists. repeat split.
Qed.

(** X19. A connect that fails once the link is up releases nothing: when
    the service is not found the controller enters ERROR and schedules
    the return to Disconnected, but it goes on holding the device with
    its link connected and its disconnect listener in place, and no
    disconnect is asked of the transport.  No keep-alive is armed and no
    write characteristic is bound by the attempt. *)
Theorem failed_discovery_keeps_link
  (w : World) (d : Device) (e : JsError) :
  bluetooth host = true ->
  hasGatt d = true ->
  gattConnect d = None ->
  getPrimaryService d (firstSegment WRITE_UUID) = Throw e ->
  let w' := exec (connect host (Ok d)) w in
  returns (connect host (Ok d)) w = true
  /\ connectionStatus w' = ERROR
  /\ timeouts w' = timeouts w ++ [nextTimer w]
  /\ deviceRef w' = Some (setConnected true (setListening true d))
  /\ writeCharRef w' = writeCharRef w
  /\ keepAliveIntervalRef w' = keepAliveIntervalRef w
  /\ intervals w' = intervals w
  /\ trace w'
     = trace w
       ++ [EvSetStatus CONNECTING; EvRequestDevice; EvSetDeviceRef true;
           EvAddDeviceListener; EvGattConnect;
           EvGetPrimaryService (firstSegment WRITE_UUID);
           EvSetStatus ERROR; EvSetTimeout (nextTimer w) 3000].
Proof.
  intros Bt Hg Hc Hs. cbv zeta.
  destruct w as [st lg oc mc tm ot dr wr ka iv to nt cr rd wc tr].
  unfold connect, connectAttempt, setTimeout, addLog.
  rewrite Bt. cbn [negb].
  run. rewrite Hg. run. rewrite Hc. run. rewrite Hs. run.
  rewrite <- !app_assoc. repeat split.
Qed.

(** X20. Whatever step of a connect fails (the chooser, a device without
    GATT, the link, the service, either characteristic, the
    subscription), the failure is handled in one way: the error's message
    is logged, the state becomes ERROR and the return to Disconnected is
    scheduled; no keep-alive is armed.  Only an attempt that passes every
    step arms the keep-alive and ends in state Connected, and it
    schedules nothing. *)
Theorem connect_ends_connected_or_error
  (chooser : Result Device) (w : World) :
  bluetooth host = true ->
  let w' := exec (connect host chooser) w in
  match fst (connectAttempt host chooser w) with
  | Ok _ =>
      connectionStatus w' = CONNECTED
      /\ timeouts w' = timeouts w
      /\ keepAliveIntervalRef w' = Some (nextTimer w)
      /\ In (nextTimer w) (intervals w')
  | Throw e =>
      connectionStatus w' = ERROR
      /\ timeouts w' = timeouts w ++ [nextTimer w]
      /\ keepAliveIntervalRef w' = keepAliveIntervalRef w
      /\ intervals w' = intervals w
      /\ exists before entry,
           logs w' = before ++ [entry]
           /\ type entry = LOG_ERROR
           /\ message entry = lit "Connection failed: " ++ errMessage e
  end.
Proof.
  intros Bt. cbv zeta.
  destruct w as [st lg oc mc tm ot dr wr ka iv to nt cr rd wc tr].
  unfold connect, connectAttempt, startKeepAlive, setInterval, setTimeout,
    addLog.
  rewrite Bt. cbn [negb]. run.
  assert (Fin : forall (P Q R S : Prop) (before : list LogEntry)
                  (entry : LogEntry) (msg : jsstring),
            P -> Q -> R -> S -> type entry = LOG_ERROR ->
            message entry = msg ->
            P /\ Q /\ R /\ S
            /\ exists b e0, before ++ [entry] = b ++ [e0]
                            /\ type e0 = LOG_ERROR /\ message e0 = msg).
  { intros P Q R S before entry msg p q r s0 ty ms.
    repeat (split; [assumption |]). exists before, entry. now repeat split. }
  destruct chooser as [d | e]; run; [| now apply Fin].
  destruct (hasGatt d); run; [| now apply Fin].
  destruct (gattConnect d); run; [now apply Fin |].
  destruct (getPrimaryService d (firstSegment WRITE_UUID)) as [service | e];
    run; [| now apply Fin].
  destruct (getCharacteristic service WRITE_UUID) as [wc' | e]; run;
    [| now apply Fin].
  destruct (getCharacteristic service NOTIFY_UUID) as [nc | e]; run;
    [| now apply Fin].
  destruct (startNotifications nc); run; [now apply Fin |].
  destruct ka as [t |]; run; [destruct (t =? 0); run |];
    repeat split; apply in_or_app; right; now left.
Qed.

End ConnectEdges.

Lemma connect_ends_connected_or_error_witness :
  App.connectionStatus
    (exec (App.connect Sample.host (Ok Sample.wand)) App.initialWorld)
  = CONNECTED.
Proof.
  pose proof (@connect_ends_connected_or_error Sample.host (Ok Sample.wand)
                App.initialWorld eq_refl) as K.
  destruct K as (S & _). exact S.
Defined.

Lemma no_bluetooth_no_attempt_witness :
  App.connectionStatus
    (exec (App.connect Scenes.plainHost (Ok Sample.wand)) App.initialWorld)
  = DISCONNECTED.
Proof.
  destruct (@no_bluetooth_no_attempt Scenes.plainHost
              (Ok Sample.wand) App.initialWorld Sniffer.initialWorld eq_refl)
    as (S & _).
  exact S.
Defined.

Lemma failed_discovery_keeps_link_witness :
  App.connectionStatus
    (exec (App.connect Sample.host (Ok Scenes.bareDevice)) App.initialWorld)
  = ERROR.
Proof.
  destruct (@failed_discovery_keeps_link Sample.host App.initialWorld
              Scenes.bareDevice Scenes.networkError
              eq_refl eq_refl eq_refl eq_refl) as (_ & S & _).
  exact S.
Defined.

(* ===================================================================== *)
(** ** The sniffer: stopping, and what a failure leaves *)
(* ===================================================================== *)

Section SnifferStops.
Import Sniffer SnifferSpec SnifferSession.

Lemma stopAll_linked (chars : list Characteristic) :
  forall sw,
    gattConnected sw = true ->
    stopAll chars sw
    = (Ok tt, with_trace (trace sw ++ flat_map stopEvents chars) sw).
Proof.
  induction chars as [| char rest IH]; intros sw G;
    destruct sw as [st lg dr sub to nt cr rd tr].
  - cbn [stopAll flat_map]. run_sniffer. now rewrite app_nil_r.
  - cbn [stopAll flat_map]. unfold stopEvents at 1.
    unfold gattConnected in G. cbn [deviceRef] in G.
    run_sniffer. rewrite G. run_sniffer.
    destruct (stopNotifications char) as [e |]; run_sniffer;
      (rewrite IH by exact G); run_sniffer; rewrite <- !app_assoc;
      reflexivity.
Qed.

Lemma stopAll_unlinked (chars : list Characteristic) :
  forall sw, gattConnected sw = false -> stopAll chars sw = (Ok tt, sw).
Proof.
  induction chars as [| char rest IH]; intros sw G; [reflexivity |].
  cbn [stopAll].
  destruct sw as [st lg dr sub to nt cr rd tr].
  unfold gattConnected in G. cbn [deviceRef] in G.
  run_sniffer. rewrite G. run_sniffer. apply IH. exact G.
Qed.

(** [stopSniffing], from any world. *)
Lemma stopSniffing_run (sw : World) :
  stopSniffing sw
  = (Ok tt,
     with_status Disconnected
       (with_subscribedCharsRef []
          (with_deviceRef None
             (with_trace
                (trace sw
                 ++ match deviceRef sw with
                    | Some _ => [EvRemoveDeviceListener]
                    | None => []
                    end
                 ++ (if gattConnected sw
                     then flat_map stopEvents (subscribedCharsRef sw)
                     else [])
                 ++ closing (gattConnected sw)) sw)))).
Proof.
  destruct sw as [st lg dr sub to nt cr rd tr].
  unfold stopSniffing, closing. run_sniffer.
  destruct dr as [d |]; run_sniffer.
  - destruct (hasGatt d && connected d) eqn:G.
    + rewrite stopAll_linked by exact G. run_sniffer.
      cbn [hasGatt connected setListening]. rewrite G. run_sniffer.
      rewrite <- !app_assoc. reflexivity.
    + rewrite stopAll_unlinked by exact G. run_sniffer.
      cbn [hasGatt connected setListening]. rewrite G. run_sniffer.
      rewrite <- !app_assoc. reflexivity.
  - rewrite stopAll_unlinked by reflexivity. run_sniffer.
    rewrite <- !app_assoc. reflexivity.
Qed.

Lemma subscribeServices_any (services : list Service) :
  forall (count : nat) (sw : World),
    subscribeServices services count sw
    = (match snd (discovered services) with
       | None =>
           Ok (List.length (filter subscribable (fst (discovered services)))
               + count)%nat
       | Some e => Throw e
       end,
       with_subscribedCharsRef
         (subscribedCharsRef sw
          ++ filter subscribable (fst (discovered services)))
         (with_trace (trace sw ++ discoveryEvents services) sw)).
Proof.
  induction services as [| service rest IH]; intros count sw;
    destruct sw as [st lg dr sub to nt cr rd tr].
  - cbn [subscribeServices discovered discoveryEvents fst snd filter].
    run_sniffer. now rewrite !app_nil_r.
  - cbn [subscribeServices discovered discoveryEvents].
    destruct (discovered rest) as [seen err].
    cbn [fst snd] in IH.
    destruct (getCharacteristics service) as [chars | e]; run_sniffer.
    + rewrite subscribeChars_run. run_sniffer. rewrite IH. run_sniffer.
      rewrite filter_app, length_app, <- !app_assoc. cbn [app].
      destruct err; [reflexivity |].
      match goal with |- (Ok ?a, _) = (Ok ?b, _) =>
        replace a with b by lia end.
      reflexivity.
    + cbn [filter]. now rewrite app_nil_r.
Qed.

Lemma stopAttempts_app (a b : list Event) :
  stopAttempts (a ++ b) = stopAttempts a ++ stopAttempts b.
Proof.
  induction a as [| e a IH]; [reflexivity |].
  destruct e; cbn [app stopAttempts]; now rewrite IH.
Qed.

Lemma stopAttempts_stopEvents (chars : list Characteristic) :
  stopAttempts (flat_map stopEvents chars) = map uuid chars.
Proof.
  induction chars as [| c rest IH]; [reflexivity |].
  cbn [flat_map map]. rewrite stopAttempts_app, IH. unfold stopEvents.
  now destruct (stopNotifications c).
Qed.

(** X21. [stopSniffing] with the link up is best effort: it asks every
    subscribed characteristic to stop, in the order of subscription; one
    that refuses is reported as a warning and the loop goes on; then the
    subscriptions are cleared, the transport is disconnected, the device
    is let go and the state is Disconnected. *)
Theorem stop_is_best_effort (sw : World) (d : Device) :
  deviceRef sw = Some d ->
  hasGatt d = true -> connected d = true ->
  let sw' := exec stopSniffing sw in
  returns stopSniffing sw = true
  /\ trace sw'
     = trace sw ++ [EvRemoveDeviceListener]
       ++ flat_map stopEvents (subscribedCharsRef sw) ++ closing true
  /\ stopAttempts (flat_map stopEvents (subscribedCharsRef sw) ++ closing true)
     = map uuid (subscribedCharsRef sw)
  /\ status sw' = Disconnected
  /\ deviceRef sw' = None
  /\ subscribedCharsRef sw' = [].
Proof.
  intros D Hg Hc. cbv zeta. unfold returns, exec. rewrite stopSniffing_run.
  unfold gattConnected. rewrite D, Hg, Hc. cbn [andb fst snd].
  destruct sw as [st lg dr sub to nt cr rd tr]. run_sniffer.
  rewrite stopAttempts_app, stopAttempts_stopEvents. cbn. rewrite app_nil_r.
  repeat split.
Qed.

(** X22. When the link drops, the sniffer tears down without touching
    the characteristics: no stop is asked of any of them, none of their
    listeners is removed and no disconnect is asked of the transport;
    the subscriptions and the device are let go and the state is
    Disconnected. *)
Theorem link_drop_skips_unsubscribe (sw : World) (d : Device) :
  deviceRef sw = Some d ->
  listening d = true ->
  let sw' := exec gattServerDisconnected sw in
  returns gattServerDisconnected sw = true
  /\ trace sw'
     = trace sw ++ [EvRemoveDeviceListener; EvClearSubscribed;
                    EvSetDeviceRef false; EvSetStatus Disconnected;
                    EvConsoleLog (lit "Sniffer disconnected.")]
  /\ status sw' = Disconnected
  /\ deviceRef sw' = None
  /\ subscribedCharsRef sw' = [].
Proof.
  intros D Li. cbv zeta.
  destruct sw as [st lg dr sub to nt cr rd tr]. cbn [deviceRef] in D. subst dr.
  unfold gattServerDisconnected. run_sniffer. rewrite Li. run_sniffer.
  rewrite stopSniffing_run. unfold gattConnected. run_sniffer.
  cbn [hasGatt connected setConnected]. rewrite andb_false_r.
  cbn [closing app]. repeat split.
Qed.

End SnifferStops.

Section SnifferLeftovers.
Import Sniffer SnifferSpec SnifferSession.
Variable host : Host.

(** X23. Stopping undoes what starting did: after a start that ends
    Listening, [stopSniffing] asks exactly the characteristics that
    subscribed to stop, in the order they subscribed, then disconnects
    the transport and lets the device go. *)
Theorem start_then_stop_unsubscribes
  (sw : World) (d : Device) (services : list Service)
  (charLists : list (list Characteristic)) :
  bluetooth host = true ->
  subscribedCharsRef sw = [] ->
  hasGatt d = true ->
  gattConnect d = None ->
  getPrimaryServices d = Ok services ->
  Forall2 (fun service chars => getCharacteristics service = Ok chars)
    services charLists ->
  let subscribed := filter subscribable (List.concat charLists) in
  subscribed <> [] ->
  let listening := exec (startSniffing host (Ok d)) sw in
  let stopped := exec stopSniffing listening in
  status listening = Listening
  /\ trace stopped
     = trace listening ++ [EvRemoveDeviceListener]
       ++ flat_map stopEvents subscribed ++ closing true
  /\ stopAttempts (flat_map stopEvents subscribed ++ closing true)
     = map uuid subscribed
  /\ status stopped = Disconnected
  /\ deviceRef stopped = None
  /\ subscribedCharsRef stopped = [].
Proof.
  intros Bt Sub Hg Hc Hs F subscribed NE listening stopped.
  subst listening stopped. unfold exec.
  rewrite (@startSniffing_run host sw d services charLists Bt Sub Hg Hc Hs F).
  fold subscribed. destruct subscribed as [| c cs] eqn:E; [congruence |].
  cbn [snd]. rewrite stopSniffing_run.
  destruct sw as [st lg dr sub to nt cr rd tr]. unfold gattConnected.
  run_sniffer. cbn [hasGatt connected setConnected setListening].
  rewrite Hg. cbn [andb].
  rewrite stopAttempts_app, stopAttempts_stopEvents. cbn [closing app].
  cbn [stopAttempts]. rewrite app_nil_r.
  repeat split.
Qed.

Lemma stopAttempts_discovery (services : list Service) :
  stopAttempts (discoveryEvents services) = [].
Proof.
  assert (C : forall chars, stopAttempts (flat_map charEvents chars) = []).
  { induction chars as [| c rest IH]; [reflexivity |].
    cbn [flat_map]. rewrite stopAttempts_app, IH, app_nil_r.
    unfold charEvents. destruct (wanted c); [| reflexivity].
    now destruct (startNotifications c). }
  induction services as [| service rest IH]; [reflexivity |].
  cbn [discoveryEvents stopAttempts].
  destruct (getCharacteristics service) as [chars | e]; [| reflexivity].
  now rewrite stopAttempts_app, C, IH.
Qed.

(** X24. A start that fails while it lists the characteristics releases
    nothing.  When a service fails to list its characteristics (with an
    error other than NotFoundError) the sniffer enters Error and returns
    to Disconnected after 3000 ms, but no stop is asked of the
    characteristics already subscribed, they stay recorded, and the
    device stays held with its link up. *)
Theorem failed_discovery_keeps_subscriptions
  (sw : World) (d : Device) (services : list Service) (e : JsError) :
  bluetooth host = true ->
  hasGatt d = true ->
  gattConnect d = None ->
  getPrimaryServices d = Ok services ->
  snd (discovered services) = Some e ->
  strEq (errName e) (lit "NotFoundError") = false ->
  let failed := exec (startSniffing host (Ok d)) sw in
  let later := exec (timeoutFires (nextTimer sw)) failed in
  returns (startSniffing host (Ok d)) sw = true
  /\ status failed = Error
  /\ trace failed
     = trace sw ++ setupPrefix ++ discoveryEvents services
       ++ [EvConsoleError (lit "Sniffer failed:"); EvSetStatus Error;
           EvSetTimeout (nextTimer sw) 3000]
  /\ stopAttempts (trace failed) = stopAttempts (trace sw)
  /\ status later = Disconnected
  /\ deviceRef later = Some (setConnected true (setListening true d))
  /\ subscribedCharsRef later
     = subscribedCharsRef sw
       ++ filter subscribable (fst (discovered services)).
Proof.
  intros Bt Hg Hc Hs De Ne. cbv zeta.
  destruct sw as [st lg dr sub to nt cr rd tr].
  unfold startSniffing, sniffAttempt, setTimeout, timeoutFires.
  rewrite Bt. cbn [negb].
  run_sniffer. rewrite Hg. run_sniffer. rewrite Hc. run_sniffer.
  rewrite Hs. run_sniffer. rewrite subscribeServices_any.
  destruct (discovered services) as [seen err]. cbn [fst snd] in *. subst err.
  run_sniffer. rewrite Ne. cbn [negb]. run_sniffer.
  rewrite existsb_last. run_sniffer.
  unfold setupPrefix. rewrite <- !app_assoc. cbn [app].
  repeat split.
  rewrite stopAttempts_app. cbn [stopAttempts].
  rewrite stopAttempts_app, stopAttempts_discovery. cbn [stopAttempts app].
  now rewrite app_nil_r.
Qed.

Ltac settle_sniffer :=
  (eexists; split; [reflexivity |]);
  unfold listeningIsLive;
  cbn [status deviceRef subscribedCharsRef];
  try (intros _ Li; discriminate Li);
  try tauto.

Lemma stopSniffing_keeps (sw : World) : keeps stopSniffing sw.
Proof.
  unfold keeps. rewrite stopSniffing_run.
  destruct sw as [st lg dr sub to nt cr rd tr]. run_sniffer. settle_sniffer.
Qed.

Lemma startSniffing_keeps (chooser : Result Device) (sw : World) :
  keeps (startSniffing host chooser) sw.
Proof.
  destruct sw as [st lg dr sub to nt cr rd tr].
  unfold keeps, startSniffing, sniffAttempt, setTimeout.
  destruct (bluetooth host); cbn [negb]; run_sniffer; [| settle_sniffer].
  destruct chooser as [d | e]; run_sniffer;
    [| destruct (negb _); settle_sniffer].
  destruct (hasGatt d) eqn:Hg; run_sniffer;
    [| destruct (negb _); settle_sniffer].
  destruct (gattConnect d); run_sniffer;
    [destruct (negb _); settle_sniffer |].
  destruct (getPrimaryServices d) as [services | e]; run_sniffer;
    [| destruct (negb _); settle_sniffer].
  rewrite subscribeServices_any.
  destruct (discovered services) as [seen [e |]]; cbn [fst snd].
  - run_sniffer.
    destruct (negb _); settle_sniffer.
  - run_sniffer. rewrite Nat.add_0_r.
    destruct (filter subscribable seen) as [| c cs] eqn:Fs;
      cbn [List.length Nat.ltb Nat.leb]; run_sniffer.
    + rewrite stopSniffing_run. run_sniffer. settle_sniffer.
    + settle_sniffer. intros _ _. split; [discriminate |].
      destruct sub; discriminate.
Qed.


Lemma sniffer_perform_keeps (a : Action) (sw : World) :
  keeps (perform host a) sw.
Proof.
  destruct a as [chooser | | char value | timer | |]; cbn [perform].
  - apply startSniffing_keeps.
  - apply stopSniffing_keeps.
  - destruct sw as [st lg dr sub to nt cr rd tr].
    unfold keeps, notificationHandler, addLog.
    destruct value as [payload |]; run_sniffer; settle_sniffer.
  - destruct sw as [st lg dr sub to nt cr rd tr].
    unfold keeps, timeoutFires. run_sniffer.
    destruct (existsb (Z.eqb timer) to); run_sniffer; settle_sniffer.
  - destruct sw as [st lg dr sub to nt cr rd tr].
    unfold keeps, gattServerDisconnected. run_sniffer.
    destruct dr as [d |]; run_sniffer; [| settle_sniffer].
    destruct (listening d); run_sniffer.
    + rewrite stopSniffing_run. run_sniffer. settle_sniffer.
    + settle_sniffer. intros L S. destruct (L S) as [_ N].
      split; [discriminate | exact N].
  - exists sw. split; [reflexivity | auto].
Qed.

Lemma sniffer_performAll_live (actions : list Action) (sw : World) :
  listeningIsLive sw -> listeningIsLive (performAll host actions sw).
Proof.
  revert sw. induction actions as [| a rest IH]; intros sw K; [exact K |].
  cbn [performAll fold_left]. apply IH.
  destruct (sniffer_perform_keeps a sw) as (w' & R & K'). unfold exec.
  rewrite R. now apply K'.
Qed.

(** X25. In the sniffer, after any sequence of handler calls and host
    events from the freshly mounted panel: no handler lets an exception
    escape; while the state is Listening a device and at least one
    subscribed characteristic are held; and the cleanup on unmount, the
    closure of the first render, changes nothing. *)
Theorem sniffer_handlers_sound (actions : list Action) (a : Action) :
  let sw := performAll host actions initialWorld in
  returns (perform host a) sw = true
  /\ (status sw = Listening ->
      deviceRef sw <> None /\ subscribedCharsRef sw <> [])
  /\ exec unmount sw = sw.
Proof.
  cbv zeta. split; [| split].
  - destruct (sniffer_perform_keeps a (performAll host actions initialWorld))
      as (w' & R & _).
    unfold returns. now rewrite R.
  - apply sniffer_performAll_live. intros S. discriminate S.
  - reflexivity.
Qed.

End SnifferLeftovers.

Lemma stop_is_best_effort_witness :
  Sniffer.status (exec Sniffer.stopSniffing Scenes.listeningSniffer)
  = Sniffer.Disconnected.
Proof.
  destruct (@stop_is_best_effort Scenes.listeningSniffer
              (setConnected true (setListening true Sample.mixedDevice))
              eq_refl eq_refl eq_refl) as (_ & _ & _ & S & _).
  exact S.
Defined.

Lemma link_drop_skips_unsubscribe_witness :
  SnifferSession.stopAttempts
    (Sniffer.trace
       (exec SnifferSession.gattServerDisconnected Scenes.listeningSniffer))
  = [].
Proof.
  destruct (@link_drop_skips_unsubscribe Scenes.listeningSniffer
              (setConnected true (setListening true Sample.mixedDevice))
              eq_refl eq_refl) as (_ & T & _).
  rewrite T. reflexivity.
Defined.

Lemma start_then_stop_unsubscribes_witness :
  Sniffer.status
    (exec Sniffer.stopSniffing
       (exec (Sniffer.startSniffing Sample.host (Ok Sample.mixedDevice))
          Sniffer.initialWorld))
  = Sniffer.Disconnected.
Proof.
  assert (F : Forall2
                (fun service chars => getCharacteristics service = Ok chars)
                [Sample.mixedService]
                [[Sample.flakyChar; Sample.batteryChar; Sample.writeChar]])
    by (repeat constructor).
  destruct (@start_then_stop_unsubscribes Sample.host Sniffer.initialWorld
              Sample.mixedDevice _ _ eq_refl eq_refl eq_refl eq_refl eq_refl F
              ltac:(discriminate))
    as (_ & _ & _ & S & _).
  exact S.
Defined.

Lemma failed_discovery_keeps_subscriptions_witness :
  let later :=
    exec (Sniffer.timeoutFires 1)
      (exec (Sniffer.startSniffing Sample.host (Ok Scenes.halfDevice))
         Sniffer.initialWorld) in
  Sniffer.status later = Sniffer.Disconnected
  /\ Sniffer.subscribedCharsRef later = [Sample.batteryChar].
Proof.
  destruct (@failed_discovery_keeps_subscriptions Sample.host
              Sniffer.initialWorld Scenes.halfDevice
              [Sample.mixedService; Scenes.brokenService] Scenes.networkError
              eq_refl eq_refl eq_refl eq_refl eq_refl eq_refl)
    as (_ & _ & _ & _ & S & _ & U).
  split; [exact S | exact U].
Defined.

(* ===================================================================== *)
(** ** The panel and the session *)
(* ===================================================================== *)

Section PanelSessions.
Import App Session.
Variable host : Host.
Variable toISOString : Z -> jsstring.

Lemma sendData_macro (chunk : list Z) (w : World) :
  exists w', sendData host chunk w = (Ok tt, w')
             /\ macroCommands w' = macroCommands w.
Proof.
  destruct w as [st lg oc mc tm ot dr wr ka iv to nt cr rd wc tr].
  unfold sendData, addLog, write. run.
  destruct wr as [c |]; run;
    [destruct (writeValueWithoutResponse c wc chunk); run |];
    (eexists; split; reflexivity).
Qed.

Lemma sendChunks_macro (bytes : list number) (i : nat) :
  forall w, exists w', sendChunks host bytes i w = (Ok tt, w')
                       /\ macroCommands w' = macroCommands w.
Proof.
  funelim (sendChunks host bytes i); intros w.
  - destruct (sendData_macro
                (map toUint8 (firstn MTU_PAYLOAD_SIZE (skipn i bytes))) w)
      as (w1 & R1 & M1).
    set (w2 := with_trace (trace w1 ++ [EvDelay 20]) w1).
    destruct (H tt tt w2 w2) as (w' & R & M).
    exists w'. split.
    + unfold bind at 1. rewrite R1.
      unfold bind at 1, delay, emit, modify. fold w2. exact R.
    + rewrite M, <- M1. now destruct w1.
  - exists w. split; reflexivity.
Qed.

(** Only the builder changes the macro. *)
Lemma perform_macro (a : Action) (w : World) :
  match a with
  | AddCommand _ | RemoveCommand _ | UpdateCommand _ _ => True
  | _ =>
      macroCommands (exec (perform host toISOString a) w) = macroCommands w
  end.
Proof.
  destruct a as [chooser | | | | value | timer | timer | | kind text
                 | | ty | cid | cid u |]; try exact I; cbn [perform].
  - destruct w as [st lg oc mc tm ot dr wr ka iv to nt cr rd wc tr].
    unfold connect, connectAttempt, startKeepAlive, setInterval, setTimeout,
      addLog.
    destruct (bluetooth host); cbn [negb]; run; [| reflexivity].
    destruct chooser as [d | e]; run; [| reflexivity].
    destruct (hasGatt d); run; [| reflexivity].
    destruct (gattConnect d); run; [reflexivity |].
    destruct (getPrimaryService d (firstSegment WRITE_UUID)) as [service | e];
      run; [| reflexivity].
    destruct (getCharacteristic service WRITE_UUID) as [wc' | e]; run;
      [| reflexivity].
    destruct (getCharacteristic service NOTIFY_UUID) as [nc | e]; run;
      [| reflexivity].
    destruct (startNotifications nc); run; [reflexivity |].
    destruct ka as [t |]; run; [destruct (t =? 0); run |]; reflexivity.
  - destruct w as [st lg oc mc tm ot dr wr ka iv to nt cr rd wc tr].
    unfold disconnect, addLog. run.
    destruct ka as [t |]; run; [destruct (t =? 0); run |];
      (destruct dr as [d |]; run; [destruct (hasGatt d && connected d); run |]);
      reflexivity.
  - unfold exec, sendMacro, bind at 1, get. cbv beta iota.
    destruct (macroCommands w) as [| cmd rest] eqn:E; [exact E |].
    unfold bind.
    match goal with |- context [addLog host ?t ?m ?d w] =>
      destruct (addLog_run host t m d w) as (entry & -> & _) end.
    match goal with |- context [sendChunks host ?b 0 ?w1] =>
      destruct (sendChunks_macro b 0 w1) as (w2 & -> & M) end.
    cbn [snd]. rewrite M. now destruct w.
  - unfold exec, testNextOpCode, bind at 1, get. cbv beta iota.
    destruct (255 <? opcodeToTest w).
    + now destruct w.
    + unfold bind.
      match goal with |- context [addLog host ?t ?m ?d w] =>
        destruct (addLog_run host t m d w) as (entry & -> & _) end.
      match goal with |- context [sendData host ?ch ?w1] =>
        destruct (sendData_macro ch w1) as (w2 & -> & M) end.
      unfold modify. cbn [snd].
      transitivity (macroCommands w2); [now destruct w2 |].
      rewrite M. now destruct w.
  - destruct value as [payload |]; [| reflexivity].
    unfold exec. rewrite handleNotifications_run.
    destruct (Spec.spellNameWith _ _); now destruct w.
  - destruct w as [st lg oc mc tm ot dr wr ka iv to nt cr rd wc tr].
    unfold intervalFires, keepAliveCallback, write, disconnect, addLog. run.
    destruct (existsb (Z.eqb timer) iv); run; [| reflexivity].
    destruct wr as [c |]; run; [| reflexivity].
    destruct (writeValueWithoutResponse c wc KEEPALIVE_COMMAND); run;
      [| reflexivity].
    destruct ka as [t |]; run; [destruct (t =? 0); run |];
      (destruct dr as [d |]; run; [destruct (hasGatt d && connected d); run |]);
      reflexivity.
  - destruct w as [st lg oc mc tm ot dr wr ka iv to nt cr rd wc tr].
    unfold timeoutFires. run.
    destruct (existsb (Z.eqb timer) to); run; reflexivity.
  - destruct w as [st lg oc mc tm ot dr wr ka iv to nt cr rd wc tr].
    unfold gattServerDisconnected, disconnect, addLog. run.
    destruct dr as [d |]; run; [| reflexivity].
    destruct (listening d); run; [| reflexivity].
    destruct ka as [t |]; run; [destruct (t =? 0); run |];
      cbn [hasGatt connected setConnected]; rewrite andb_false_r; run;
      reflexivity.
  - unfold exec. rewrite editOpCode_run.
    destruct (Spec.accepted _); [| reflexivity].
    destruct w, kind; reflexivity.
  - now destruct w.
  - reflexivity.
Qed.

Lemma byteCommand_filter (keep : MacroCommand -> bool)
  (macro : list MacroCommand) :
  forallb Builder.byteCommand macro = true ->
  forallb Builder.byteCommand (filter keep macro) = true.
Proof.
  intros B. apply forallb_forall. intros cmd In.
  apply filter_In in In as [In _].
  rewrite forallb_forall in B. now apply B.
Qed.

Lemma byteCommand_update (u : Builder.Updates) (cmd : MacroCommand) :
  match Builder.newHexColor u with
  | Some color => Spec.isHexColor color
  | None => true
  end = true ->
  Builder.byteCommand cmd = true ->
  Builder.byteCommand (Builder.applyUpdates u cmd) = true.
Proof.
  intros P B. destruct cmd as [i | i d | i g color d]; try reflexivity.
  cbn [Builder.applyUpdates Builder.byteCommand] in *.
  apply andb_prop in B as [G C]. rewrite G. cbn [andb].
  now destruct (Builder.newHexColor u).
Qed.

Lemma updateCommand_byteCommands
  (id : jsstring) (u : Builder.Updates) (w : World) :
  match Builder.newHexColor u with
  | Some color => Spec.isHexColor color
  | None => true
  end = true ->
  forallb Builder.byteCommand (macroCommands w) = true ->
  forallb Builder.byteCommand
    (macroCommands (exec (Builder.updateCommand id u) w)) = true.
Proof.
  intros P B.
  destruct w as [st lg oc mc tm ot dr wr ka iv to nt cr rd wc tr].
  unfold Builder.updateCommand. run.
  cbn [macroCommands with_macroCommands] in *.
  apply forallb_forall. intros cmd In.
  apply in_map_iff in In as (c0 & <- & In0).
  rewrite forallb_forall in B. specialize (B c0 In0).
  destruct (Sniffer.strEq _ _); [now apply byteCommand_update | exact B].
Qed.

Lemma perform_byteCommands (a : Action) (w : World) :
  Buttons.fromPanel a = true ->
  forallb Builder.byteCommand (macroCommands w) = true ->
  forallb Builder.byteCommand
    (macroCommands (exec (perform host toISOString a) w)) = true.
Proof.
  intros P B. pose proof (perform_macro a w) as M.
  destruct a as [chooser | | | | value | timer | timer | | kind text
                 | | ty | cid | cid u |]; try (rewrite M; exact B).
  - destruct w as [st lg oc mc tm ot dr wr ka iv to nt cr rd wc tr].
    cbn [perform]. unfold Builder.addCommand. run.
    cbn [macroCommands with_macroCommands with_clockReads] in *.
    rewrite forallb_app, B. now destruct ty.
  - destruct w as [st lg oc mc tm ot dr wr ka iv to nt cr rd wc tr].
    cbn [perform]. unfold Builder.removeCommand. run.
    cbn [macroCommands with_macroCommands] in *.
    now apply byteCommand_filter.
  - cbn [perform]. now apply updateCommand_byteCommands.
Qed.

Lemma performAll_byteCommands (actions : list Action) (w : World) :
  forallb Buttons.fromPanel actions = true ->
  forallb Builder.byteCommand (macroCommands w) = true ->
  forallb Builder.byteCommand
    (macroCommands (performAll host toISOString actions w)) = true.
Proof.
  revert w. induction actions as [| a rest IH]; intros w P B; [exact B |].
  cbn [forallb] in P. apply andb_prop in P as [Pa Pr].
  cbn [performAll fold_left]. apply IH; [exact Pr |].
  now apply perform_byteCommands.
Qed.

(** X26. Every macro built through the panel meets the precondition of
    the encoder: after any sequence of handler calls and host events in
    which colours change only to six hexadecimal digits, every ChangeLed
    command of the macro has a byte as group and six hexadecimal digits
    as colour.  Only the builder changes the macro. *)
Theorem panel_macros_are_well_formed (actions : list Action) :
  forallb Buttons.fromPanel actions = true ->
  let w := performAll host toISOString actions initialWorld in
  forallb Builder.byteCommand (macroCommands w) = true
  /\ forallb Spec.wellFormed (macroCommands w) = true.
Proof.
  intros P w.
  assert (B : forallb Builder.byteCommand (macroCommands w) = true)
    by now apply performAll_byteCommands.
  split; [exact B |].
  apply forallb_forall. intros cmd In. rewrite forallb_forall in B.
  now apply byteCommand_wellFormed, B.
Qed.

(** X27. The colour input hands [updateCommand] its value without the
    leading [#]; with a value of [#] and six hexadecimal digits the
    macro stays one the encoder accepts. *)
Theorem picked_colour_is_well_formed (id value : jsstring) (w : World) :
  Buttons.pickerValue value = true ->
  forallb Builder.byteCommand (macroCommands w) = true ->
  forallb Builder.byteCommand
    (macroCommands (exec (Buttons.colourInput_onChange id value) w)) = true.
Proof.
  intros P B. unfold Buttons.colourInput_onChange.
  apply updateCommand_byteCommands; [| exact B].
  cbn [Builder.newHexColor].
  destruct value as [| c digits]; [discriminate |].
  cbn [Buttons.pickerValue] in P.
  destruct (Z.eqb_spec c 35) as [-> | N].
  - exact P.
  - destruct c as [| p | p]; try discriminate P.
    repeat (destruct p as [p | p |]; try discriminate P; try exact P).
Qed.

(** X28. Whenever the Cast Macro button is enabled, after any sequence
    of handler calls and host events, a session is up: the state is
    Connected, a write characteristic is held, the keep-alive is armed,
    the macro is not empty and the discovery mode is off. *)
Theorem cast_button_finds_session (actions : list Action) :
  let w := performAll host toISOString actions initialWorld in
  Buttons.castMacroDisabled w = false ->
  connectionStatus w = CONNECTED
  /\ writeCharRef w <> None
  /\ keepAliveIntervalRef w <> None
  /\ macroCommands w <> []
  /\ isOpCodeTestMode w = false.
Proof.
  cbv zeta. intros E.
  destruct (performAll_consistent host toISOString actions
              initialWorld_consistent) as (_ & L & _).
  unfold Buttons.castMacroDisabled, Buttons.isConnected in E.
  apply orb_false_elim in E as [E Em]. apply orb_false_elim in E as [Ec Et].
  assert (C : connectionStatus
                (performAll host toISOString actions initialWorld)
              = CONNECTED).
  { destruct (connectionStatus _); try discriminate Ec. reflexivity. }
  destruct (L C) as (K & W & _).
  repeat split; try assumption.
  intros N. rewrite N in Em. discriminate Em.
Qed.

(** X29. The discovery mode outlives the session: [disconnect] leaves
    the mode and the counter as they are, so the probe button stays
    shown while the switch that would turn the mode off is disabled; a
    probe then writes nothing and still raises the counter. *)
Theorem discovery_outlives_session (w : World) :
  isOpCodeTestMode w = true ->
  opcodeToTest w <= 255 ->
  let off := exec (disconnect host) w in
  let probed := exec (testNextOpCode host) off in
  Buttons.probeShown off = true
  /\ Buttons.discoveryDisabled off = true
  /\ opcodeToTest off = opcodeToTest w
  /\ opcodeToTest probed = opcodeToTest w + 1
  /\ trace probed = trace off.
Proof.
  cbv zeta.
  destruct w as [st lg oc mc tm ot dr wr ka iv to nt cr rd wc tr]. fields.
  intros -> Lo.
  unfold disconnect, testNextOpCode, sendData, addLog.
  unfold Buttons.probeShown, Buttons.discoveryDisabled, Buttons.isConnected.
  run.
  destruct ka as [t |]; run; [destruct (t =? 0); run |];
    (destruct dr as [d |]; run; [destruct (hasGatt d && connected d); run |]);
    (destruct (Z.ltb_spec 255 ot); [lia |]); run; repeat split.
Qed.

End PanelSessions.

Lemma panel_macros_are_well_formed_witness :
  forallb Spec.wellFormed
    (App.macroCommands
       (Session.performAll Sample.host (fun _ => lit "t")
          [Session.AddCommand CHANGE_LED;
           Session.UpdateCommand (lit "t")
             {| Builder.newHexColor := Some (lit "ff8800");
                Builder.newDuration := Some 40000 |}]
          App.initialWorld))
  = true.
Proof.
  destruct (@panel_macros_are_well_formed Sample.host (fun _ => lit "t")
              [Session.AddCommand CHANGE_LED;
               Session.UpdateCommand (lit "t")
                 {| Builder.newHexColor := Some (lit "ff8800");
                    Builder.newDuration := Some 40000 |}]
              eq_refl) as [_ W].
  exact W.
Defined.

Lemma picked_colour_is_well_formed_witness :
  forallb Builder.byteCommand
    (App.macroCommands
       (exec (Buttons.colourInput_onChange [] (lit "#ff8800"))
          Sample.boundWorld))
  = true.
Proof.
  apply (@picked_colour_is_well_formed [] (lit "#ff8800") Sample.boundWorld);
    reflexivity.
Defined.

Lemma cast_button_finds_session_witness :
  App.writeCharRef
    (Session.performAll Sample.host (fun _ => lit "t")
       [Session.Connect (Ok Sample.wand); Session.AddCommand BUZZ]
       App.initialWorld)
  <> None.
Proof.
  destruct (@cast_button_finds_session Sample.host (fun _ => lit "t")
              [Session.Connect (Ok Sample.wand); Session.AddCommand BUZZ]
              eq_refl) as (_ & W & _).
  exact W.
Defined.

Lemma discovery_outlives_session_witness :
  let off :=
    exec (App.disconnect Sample.host)
      (exec ControlPanel.toggleOpCodeTestMode Sample.connectedWorld) in
  Buttons.probeShown off = true
  /\ App.opcodeToTest (exec (App.testNextOpCode Sample.host) off) = 2.
Proof.
  destruct (@discovery_outlives_session Sample.host
              (exec ControlPanel.toggleOpCodeTestMode Sample.connectedWorld)
              eq_refl ltac:(cbn; lia)) as (P & _ & _ & O & _).
  split; [exact P | exact O].
Defined.
